(** * ec2-start-stop: a shallow embedding of [ec2-start-stop.py]

    The script is a scheduled job: it reads a configuration, and for every
    configured account it lists the EC2 instances in one power state,
    sorts them by their tags and starts or stops the ones on the half-day
    schedule.

    Python values are embedded as follows.
    - [str] is [string]; [x in s] on strings is the substring test
      [str_contains], [x in l] on lists is [list_mem].
    - A dictionary with a fixed set of keys is a record.  A key that the
      service leaves out ([Tags], for an instance without tags) is an
      [option] field, and reading it raises [KeyError].
    - An exception is a value of [Exn]; code that may raise returns an
      [Outcome].  Logging and service calls are recorded, in order, in a
      list of [Event]s: a computation is a pair of an outcome and the
      events it produced ([W]).
    - [datetime] is the pair of the proleptic Gregorian ordinal of the day
      and the microsecond of the day, the representation on which Python
      does its [timedelta] arithmetic. *)

From Stdlib Require Import List String Ascii ZArith Bool Lia.
From Stdlib Require Import DecimalString DecimalN.
Import ListNotations.
Local Open Scope string_scope.
Local Open Scope list_scope.
Local Open Scope Z_scope.

(** ** Strings *)

(** [needle in hay] for two Python strings. *)
Fixpoint str_contains (needle hay : string) : bool :=
  String.prefix needle hay ||
  match hay with
  | EmptyString => false
  | String _ rest => str_contains needle rest
  end.

(** [x in l] for a Python list of strings. *)
Definition list_mem (x : string) (l : list string) : bool :=
  existsb (String.eqb x) l.

(** [s.split(sep)] for a one-character separator. *)
Fixpoint split_on (sep : ascii) (s : string) : list string :=
  match s with
  | EmptyString => [EmptyString]
  | String c rest =>
      if Ascii.eqb c sep then EmptyString :: split_on sep rest
      else match split_on sep rest with
           | h :: t => String c h :: t
           | [] => [String c EmptyString]
           end
  end.

Definition is_space (c : ascii) : bool :=
  let n := nat_of_ascii c in
  (Nat.eqb n 32 || (Nat.leb 9 n && Nat.leb n 13))%bool.

Definition is_digit (c : ascii) : bool :=
  let n := nat_of_ascii c in
  (Nat.leb 48 n && Nat.leb n 57)%bool.

Fixpoint lstrip (s : string) : string :=
  match s with
  | EmptyString => EmptyString
  | String c rest => if is_space c then lstrip rest else s
  end.

(** The longest prefix of decimal digits, and what follows it. *)
Fixpoint span_digits (s : string) : string * string :=
  match s with
  | EmptyString => (EmptyString, EmptyString)
  | String c rest =>
      if is_digit c
      then let '(ds, tl) := span_digits rest in (String c ds, tl)
      else (EmptyString, s)
  end.

(** ** Exceptions and outcomes *)

Inductive Exn : Type :=
| KeyError (key : string)
| TypeError
| ValueError
| AttributeError
| IndexError
| ClientError (msg : string).

Inductive Outcome (A : Type) : Type :=
| Return (a : A)
| Raise (e : Exn).
Arguments Return {A} a.
Arguments Raise {A} e.

(** [int(s)]: optional blanks, an optional sign, at least one decimal
    digit, optional blanks; anything else is a [ValueError]. *)
Definition py_int (s : string) : Outcome Z :=
  let s1 := lstrip s in
  let '(negative, s2) :=
    match s1 with
    | String "-"%char r => (true, r)
    | String "+"%char r => (false, r)
    | _ => (false, s1)
    end in
  let '(ds, rest) := span_digits s2 in
  match ds with
  | EmptyString => Raise ValueError
  | _ =>
      match lstrip rest, NilEmpty.uint_of_string ds with
      | EmptyString, Some u =>
          Return (if negative then - Z.of_uint u else Z.of_uint u)
      | _, _ => Raise ValueError
      end
  end.

(** ** Dates and times *)

Module Calendar.

(** A naive [datetime.datetime]. *)
Record datetime : Type := mk_dt { ordinal : Z; usec : Z }.

Definition US_PER_HOUR : Z := 3600000000.
Definition US_PER_DAY : Z := 24 * US_PER_HOUR.

Definition is_leap (y : Z) : bool :=
  (y mod 4 =? 0) && (negb (y mod 100 =? 0) || (y mod 400 =? 0)).

Definition days_before_year (y : Z) : Z :=
  let p := y - 1 in p * 365 + p / 4 - p / 100 + p / 400.

Definition DAYS_BEFORE_MONTH : list Z :=
  [0; 0; 31; 59; 90; 120; 151; 181; 212; 243; 273; 304; 334].

Definition days_before_month (y m : Z) : Z :=
  nth (Z.to_nat m) DAYS_BEFORE_MONTH 0 +
  (if (2 <? m) && is_leap y then 1 else 0).

Definition ymd2ord (y m d : Z) : Z :=
  days_before_year y + days_before_month y m + d.

(** The year of a day number, as [datetime.fromordinal] finds it. *)
Definition ord2year (n : Z) : Z :=
  let n0 := n - 1 in
  let n400 := n0 / 146097 in
  let r400 := n0 mod 146097 in
  let n100 := r400 / 36524 in
  let r100 := r400 mod 36524 in
  let n4 := r100 / 1461 in
  let r4 := r100 mod 1461 in
  let n1 := r4 / 365 in
  let y := n400 * 400 + 1 + n100 * 100 + n4 * 4 + n1 in
  if (n1 =? 4) || (n100 =? 4) then y - 1 else y.

(** [datetime.datetime(y, m, d)]: midnight of that day. *)
Definition datetime_ymd (y m d : Z) : datetime :=
  {| ordinal := ymd2ord y m d; usec := 0 |}.

(** A full timestamp, for writing examples. *)
Definition datetime_at (y m d hh mm : Z) : datetime :=
  {| ordinal := ymd2ord y m d; usec := (hh * 60 + mm) * 60000000 |}.

Definition year (t : datetime) : Z := ord2year (ordinal t).

(** [t.weekday()]: Monday is 0, Sunday is 6. *)
Definition weekday (t : datetime) : Z := (ordinal t + 6) mod 7.

(** [t - datetime.timedelta(days=n)]. *)
Definition sub_days (t : datetime) (n : Z) : datetime :=
  {| ordinal := ordinal t - n; usec := usec t |}.

(** [t + datetime.timedelta(hours=h)].  Python refuses a sum beyond the
    year 9999; [is_dst] adds its hour only before November 1. *)
Definition add_hours (t : datetime) (h : Z) : datetime :=
  let u := usec t + h * US_PER_HOUR in
  {| ordinal := ordinal t + u / US_PER_DAY; usec := u mod US_PER_DAY |}.

Definition dt_ltb (a b : datetime) : bool :=
  (ordinal a <? ordinal b) ||
  ((ordinal a =? ordinal b) && (usec a <? usec b)).

Definition dt_leb (a b : datetime) : bool :=
  (ordinal a <? ordinal b) ||
  ((ordinal a =? ordinal b) && (usec a <=? usec b)).

(** A [datetime.time], as the microsecond of the day: comparing two
    times compares these numbers. *)
Definition time : Type := Z.

(** [t.time()]. *)
Definition time_of (t : datetime) : time := usec t.

(** [datetime.time(h, m)]. *)
Definition mk_time (h m : Z) : Outcome time :=
  if (0 <=? h) && (h <? 24) && (0 <=? m) && (m <? 60)
  then Return ((h * 60 + m) * 60000000)
  else Raise ValueError.

End Calendar.
Import Calendar.

(** [is_dst]: the clock is moved one hour forward between the two edges
    computed from April 1 and November 1 of the current year. *)
Definition is_dst (now : datetime) : datetime * string :=
  let dst_start_date := datetime_ymd (year now) 4 1 in
  let dst_end_date := datetime_ymd (year now) 11 1 in
  let dston := sub_days dst_start_date (weekday dst_start_date + 1) in
  let dstoff := sub_days dst_end_date (weekday dst_end_date + 1) in
  if dt_leb dston now && dt_ltb now dstoff
  then (add_hours now 1, "GMT +1")
  else (now, "GMT").


(** ** The data the job works on *)

(** One tag of an instance. *)
Record Tag : Type := { Key : string; Value : string }.

(** One instance of a [describe_instances] answer.  The service leaves
    the [Tags] key out when the instance has no tag. *)
Record Instance : Type := { InstanceId : string; Tags : option (list Tag) }.

Record Reservation : Type := { Instances : list Instance }.

(** What [describe_instances] hands to the classifier: a value that
    Python takes for false ([None], an empty dictionary), or an answer
    with its reservations. *)
Inductive Data : Type :=
| Falsy
| Response (Reservations : list Reservation).

Record Schedule : Type := { allDay : string; halfDay : string }.

Record Times : Type := { startTime : string; stopTime : string }.

(** The configuration document. *)
Record Config : Type := {
  schedule : Schedule;
  times : Times;
  stop_untagged_instances_flag : string;
  role_arns : list string;
  account_names : list (string * string)
}.

(** ** Events: log lines and service calls *)

Inductive LogMsg : Type :=
| ActionBegins (action : string)
| IdList (ids : list string)
| ActionFinished (action : string)
| NoActionTaken (line : nat)
| ActionFailed (action : string) (e : Exn)
| StoppingUntagged
| UntaggedStopFailed (e : Exn)
| CategorisationFailed (e : Exn)
| DateIs (now : datetime) (tz : string)
| DescribeFailed (e : Exn)
| ConvertFailed (e : Exn)
| FetchingConfig
| ReadConfigFailed (e : Exn)
| TempUserFailed (e : Exn)
| S3UserFailed (e : Exn)
| BotoClientFailed (e : Exn)
| LambdaStarted (account_name : string)
| NotOnWeekends
| LambdaFailed (e : Exn).

Inductive ApiCall : Type :=
| AssumeRole (role_arn session_name : string)
| GetObject (bucket key : string)
| DescribeInstances (state : string)
| StartInstances (ids : list string)
| StopInstances (ids : list string).

Inductive Event : Type :=
| LogInfo (m : LogMsg)
| LogError (m : LogMsg)
| Api (c : ApiCall)
| PrintConfig (c : option Config).

(** ** Computations that log, call services and may raise *)

Definition W (A : Type) : Type := (Outcome A * list Event)%type.

Definition ret {A} (a : A) : W A := (Return a, []).

Definition raise {A} (e : Exn) : W A := (Raise e, []).

Definition bind {A B} (m : W A) (k : A -> W B) : W B :=
  match m with
  | (Return a, t1) => let '(r, t2) := k a in (r, t1 ++ t2)
  | (Raise e, t1) => (Raise e, t1)
  end.

(** [try: m  except Exception as error: h error]. *)
Definition try_except {A} (m : W A) (h : Exn -> W A) : W A :=
  match m with
  | (Return a, t1) => (Return a, t1)
  | (Raise e, t1) => let '(r, t2) := h e in (r, t1 ++ t2)
  end.

Definition lift {A} (o : Outcome A) : W A := (o, []).

Definition emit (e : Event) : W unit := (Return tt, [e]).

Definition info (m : LogMsg) : W unit := emit (LogInfo m).

(** A service call: it is recorded, and answers or raises. *)
Definition call {A} (c : ApiCall) (answer : Outcome A) : W A :=
  (answer, [Api c]).

Declare Scope w_scope.
Delimit Scope w_scope with W.
Notation "x <- m ;; k" := (bind m (fun x => k))
  (at level 61, m at next level, right associativity) : w_scope.
Notation "m ;;; k" := (bind m (fun _ => k))
  (at level 61, right associativity) : w_scope.
Notation "' pat <- m ;; k" := (bind m (fun x => match x with pat => k end))
  (at level 61, pat pattern, m at next level, right associativity) : w_scope.
Local Open Scope w_scope.

(** [for x in xs: s = body s x], with the loop variables as state. *)
Fixpoint for_each {A S} (xs : list A) (body : S -> A -> W S) (s : S) : W S :=
  match xs with
  | [] => ret s
  | x :: rest => s' <- body s x ;; for_each rest body s'
  end.

Definition outcome {A} (m : W A) : Outcome A := fst m.
Definition events {A} (m : W A) : list Event := snd m.

(** ** The compute client *)

(** A boto EC2 client, as far as the job uses it: every request is
    answered or refused, and the answer depends on the request only. *)
Record Ec2Client : Type := {
  describe_instances : string -> Outcome Data;
  start_instances : list string -> Outcome unit;
  stop_instances : list string -> Outcome unit
}.

(** [user.attr] on a client that may be [None]. *)
Definition attr {A} (user : option A) : W A :=
  match user with
  | Some c => ret c
  | None => raise AttributeError
  end.

(** The two methods handed to [action_on_instances]. *)
Inductive Method : Type := StartMethod | StopMethod.

(** The service call a method makes, and the answer it gets. *)
Definition method_call (m : Method) (ids : list string) : ApiCall :=
  match m with
  | StartMethod => StartInstances ids
  | StopMethod => StopInstances ids
  end.

Definition method_answer (c : Ec2Client) (m : Method) (ids : list string)
    : Outcome unit :=
  match m with
  | StartMethod => start_instances c ids
  | StopMethod => stop_instances c ids
  end.

(** [client_method(InstanceIds=ids)]. *)
Definition invoke (c : Ec2Client) (m : Method) (ids : list string) : W unit :=
  call (method_call m ids) (method_answer c m ids).

(** ** [action_on_instances] *)

Definition action_on_instances (c : Ec2Client) (client_method : Method)
    (instance_ids : list string) (action : string) : W unit :=
  try_except
    (match instance_ids with
     | _ :: _ =>
         info (ActionBegins action) ;;;
         info (IdList instance_ids) ;;;
         invoke c client_method instance_ids ;;;
         info (ActionFinished action)
     | [] =>
         info (NoActionTaken 0) ;;;
         info (NoActionTaken 1) ;;;
         info (NoActionTaken 2) ;;;
         info (NoActionTaken 3)
     end)
    (fun error => emit (LogError (ActionFailed action error))).

(** ** [stop_untagged_instances] *)

Definition stop_untagged_instances (untagged_instance_ids : list string)
    (temporary_user : option Ec2Client) : W unit :=
  try_except
    (info StoppingUntagged ;;;
     info (IdList untagged_instance_ids) ;;;
     c <- attr temporary_user ;;
     call (StopInstances untagged_instance_ids)
          (stop_instances c untagged_instance_ids))
    (fun error => info (UntaggedStopFailed error)).

(** ** [categorise_instances] *)

(** The three lists the classifier fills. *)
Record Lists : Type := {
  action_required : list string;
  no_action_required : list string;
  untagged_instances : list string
}.

Definition no_lists : Lists :=
  {| action_required := []; no_action_required := [];
     untagged_instances := [] |}.

Definition add_action (id : string) (l : Lists) : Lists :=
  {| action_required := action_required l ++ [id];
     no_action_required := no_action_required l;
     untagged_instances := untagged_instances l |}.

Definition add_no_action (id : string) (l : Lists) : Lists :=
  {| action_required := action_required l;
     no_action_required := no_action_required l ++ [id];
     untagged_instances := untagged_instances l |}.

Definition add_untagged (id : string) (l : Lists) : Lists :=
  {| action_required := action_required l;
     no_action_required := no_action_required l;
     untagged_instances := untagged_instances l ++ [id] |}.

(** [reservation['Instances'][0]['InstanceId']]. *)
Definition lead_id (reservation : Reservation) : Outcome string :=
  match Instances reservation with
  | first :: _ => Return (InstanceId first)
  | [] => Raise IndexError
  end.

(** [instance['Tags']]. *)
Definition get_tags (instance : Instance) : Outcome (list Tag) :=
  match Tags instance with
  | Some tags => Return tags
  | None => Raise (KeyError "Tags")
  end.

(** The body of the loop over the tags of an instance that passed
    ['Schedule' in tag_list]. *)
Definition schedule_tag (config : Config) (reservation : Reservation)
    (l : Lists) (tag : Tag) : W Lists :=
  if str_contains "Schedule" (Key tag) then
    if String.eqb (Value tag) "" then
      lead <- lift (lead_id reservation) ;; ret (add_no_action lead l)
    else if String.eqb (Value tag) (allDay (schedule config)) then
      lead <- lift (lead_id reservation) ;; ret (add_no_action lead l)
    else if String.eqb (Value tag) (halfDay (schedule config)) then
      lead <- lift (lead_id reservation) ;; ret (add_action lead l)
    else ret l
  else ret l.

(** The body of the loop over the instances of a reservation; its state
    is [tag_list] and the three lists. *)
Definition visit_instance (config : Config)
    (temporary_user : option Ec2Client) (reservation : Reservation)
    (st : list string * Lists) (instance : Instance)
    : W (list string * Lists) :=
  let '(tag_list, l) := st in
  tags <- lift (get_tags instance) ;;
  let tag_list := tag_list ++ map Key tags in
  if list_mem "NoShutdown" tag_list then
    lead <- lift (lead_id reservation) ;;
    ret (tag_list, add_no_action lead l)
  else if list_mem "Schedule" tag_list then
    l' <- for_each tags (schedule_tag config reservation) l ;;
    ret (tag_list, l')
  else if str_contains "True" (stop_untagged_instances_flag config) then
    let l' := add_untagged (InstanceId instance) l in
    stop_untagged_instances (untagged_instances l') temporary_user ;;;
    ret (tag_list, l')
  else ret (tag_list, l).

(** The body of the loop over the reservations: [tag_list] starts empty
    for each of them. *)
Definition visit_reservation (config : Config)
    (temporary_user : option Ec2Client) (l : Lists)
    (reservation : Reservation) : W Lists :=
  st <- for_each (Instances reservation)
          (visit_instance config temporary_user reservation) ([], l) ;;
  ret (snd st).

(** The three loops, without the handler around them. *)
Definition classify (reservations : list Reservation) (config : Config)
    (temporary_user : option Ec2Client) : W Lists :=
  for_each reservations (visit_reservation config temporary_user) no_lists.

(** The result is the pair [(action_required, no_action_required)], or
    [None] when the data is empty or an exception was caught. *)
Definition categorise_instances (data : Data) (config : Config)
    (temporary_user : option Ec2Client)
    : W (option (list string * list string)) :=
  try_except
    (match data with
     | Response reservations =>
         l <- classify reservations config temporary_user ;;
         ret (Some (action_required l, no_action_required l))
     | Falsy => ret None
     end)
    (fun error => info (CategorisationFailed error) ;;; ret None).

(** ** [get_instance_ids] *)

(** [a, b = value]: a pair is taken apart, [None] is not iterable. *)
Definition unpack {A} (value : option A) : W A :=
  match value with
  | Some v => ret v
  | None => raise TypeError
  end.

Definition get_instance_ids (temporary_user : option Ec2Client)
    (config : Config) (state : string) (now : datetime) (tz : string)
    : W (option (list string * list string)) :=
  try_except
    (c <- attr temporary_user ;;
     data <- call (DescribeInstances state) (describe_instances c state) ;;
     info (DateIs now tz) ;;;
     pair <- categorise_instances data config temporary_user ;;
     '(action_required, no_action_required) <- unpack pair ;;
     ret (Some (action_required, no_action_required)))
    (fun error => info (DescribeFailed error) ;;; ret None).

(** ** [start_stop] *)

Definition start_stop (now : datetime) (start stop : time)
    (temporary_user : option Ec2Client) (config : Config) (tz : string)
    : W unit :=
  if (start <=? time_of now) && (time_of now <? stop) then
    pair <- get_instance_ids temporary_user config "stopped" now tz ;;
    '(action_required_ids, no_action_required_ids) <- unpack pair ;;
    c <- attr temporary_user ;;
    action_on_instances c StartMethod action_required_ids "Start"
  else if stop <=? time_of now then
    pair <- get_instance_ids temporary_user config "running" now tz ;;
    '(action_required_ids, no_action_required_ids) <- unpack pair ;;
    c <- attr temporary_user ;;
    action_on_instances c StopMethod action_required_ids "Stop"
  else ret tt.

(** ** [convert_to_datetime] and [is_weekday] *)

(** [a, b = l] for a list: exactly two items, or a [ValueError]. *)
Definition unpack2 {A} (l : list A) : Outcome (A * A) :=
  match l with
  | [a; b] => Return (a, b)
  | _ => Raise ValueError
  end.

(** The clock is read twice; [tick] counts the readings made so far. *)
Definition convert_to_datetime (clock : nat -> datetime) (tick : nat)
    (config : Times) : W (option (time * time * datetime * string)) :=
  try_except
    (let current_time := clock tick in
     let '(now, tz) := is_dst (clock (S tick)) in
     '(startTimeHour, startTimeMinute) <-
        lift (unpack2 (split_on "," (startTime config))) ;;
     '(stopTimeHour, stopTimeMinute) <-
        lift (unpack2 (split_on "," (stopTime config))) ;;
     h1 <- lift (py_int startTimeHour) ;;
     m1 <- lift (py_int startTimeMinute) ;;
     start_up_time <- lift (mk_time h1 m1) ;;
     h2 <- lift (py_int stopTimeHour) ;;
     m2 <- lift (py_int stopTimeMinute) ;;
     stop_time <- lift (mk_time h2 m2) ;;
     ret (Some (start_up_time, stop_time, now, tz)))
    (fun error => info (ConvertFailed error) ;;; ret None).

Definition is_weekday (day : Z) (halfDay : string) : Outcome bool :=
  match unpack2 (split_on "x" halfDay) with
  | Return (hours, days) =>
      match py_int days with
      | Return n => Return (day <=? n - 1)
      | Raise e => Raise e
      end
  | Raise e => Raise e
  end.

(** ** The other services, and the entry point *)

Record Credentials : Type := {
  AccessKeyId : string;
  SecretAccessKey : string;
  SessionToken : string
}.

Record StsClient : Type := {
  sts_assume_role : string -> string -> Outcome Credentials
}.

Record S3Client : Type := {
  get_object : string -> string -> Outcome string
}.

(** Everything outside the script that one invocation meets: the clock,
    the clients boto3 builds, and the reading of the configuration
    document with [ast.literal_eval] (it answers with a configuration or
    raises). *)
Record World : Type := {
  clock : nat -> datetime;
  boto3_client_sts : Outcome StsClient;
  boto3_client_s3 : Credentials -> Outcome S3Client;
  boto3_client_ec2 : Credentials -> Outcome Ec2Client;
  literal_eval : string -> Outcome Config
}.

Definition assume_role (w : World) : W (option StsClient) :=
  try_except
    (c <- lift (boto3_client_sts w) ;; ret (Some c))
    (fun error => info (BotoClientFailed error) ;;; ret None).

Definition json_to_dict (w : World) (s3_user : S3Client)
    : W (option Config) :=
  try_except
    (s3_config <-
       call (GetObject "hermes-sharedservices-data"
                       "Lambdas/start-stop/config.json")
            (get_object s3_user "hermes-sharedservices-data"
                        "Lambdas/start-stop/config.json") ;;
     info FetchingConfig ;;;
     config <- lift (literal_eval w s3_config) ;;
     ret (Some config))
    (fun error => info (ReadConfigFailed error) ;;; ret None).

Definition config_role : string :=
  "arn:aws:iam::548760365095:role/Ec2StartStopLambdaActionRole".

Definition fetch_config_from_s3 (w : World) (client : option StsClient)
    : W (option Config) :=
  try_except
    (c <- attr client ;;
     response <-
       call (AssumeRole config_role "Ec2-Start-Stop-Lambda-Session-Role")
            (sts_assume_role c config_role
                             "Ec2-Start-Stop-Lambda-Session-Role") ;;
     fetcher <- lift (boto3_client_s3 w response) ;;
     json_to_dict w fetcher)
    (fun error => info (S3UserFailed error) ;;; ret None).

Definition create_temp_user (w : World) (client : option StsClient)
    (role_arn : string) : W (option Ec2Client) :=
  try_except
    (c <- attr client ;;
     response <-
       call (AssumeRole role_arn "Lambda-Start-Stop-functionality")
            (sts_assume_role c role_arn "Lambda-Start-Stop-functionality") ;;
     ec2_user <- lift (boto3_client_ec2 w response) ;;
     ret (Some ec2_user))
    (fun error => info (TempUserFailed error) ;;; ret None).

(** [l[i]] on a list. *)
Definition index {A} (l : list A) (i : nat) : Outcome A :=
  match nth_error l i with
  | Some x => Return x
  | None => Raise IndexError
  end.

(** [d[k]] on a dictionary with string keys. *)
Fixpoint dict_get (d : list (string * string)) (k : string)
    : Outcome string :=
  match d with
  | [] => Raise (KeyError k)
  | (k', v) :: rest => if String.eqb k k' then Return v else dict_get rest k
  end.

(** The body of the loop over [config['role_arns']]; [tick] counts the
    clock readings made so far. *)
Definition process_account (w : World) (client : option StsClient)
    (config : Config) (tick : nat) (role_arn : string) : W nat :=
  account_number <- lift (index (split_on ":" role_arn) 4) ;;
  ec2_user <- create_temp_user w client role_arn ;;
  conv <- convert_to_datetime (clock w) tick (times config) ;;
  '(start_up_time, stop_time, now, tz) <- unpack conv ;;
  name <- lift (dict_get (account_names config) account_number) ;;
  info (LambdaStarted name) ;;;
  start_stop now start_up_time stop_time ec2_user config tz ;;;
  ret (S (S tick)).

(** What [lambda_handler] does inside its handler. *)
Definition lambda_body (w : World) : W unit :=
  let day := weekday (clock w 0) in
  fetcher <- assume_role w ;;
  config <- fetch_config_from_s3 w fetcher ;;
  emit (PrintConfig config) ;;;
  cfg <- unpack config ;;
  weekday_ok <- lift (is_weekday day (halfDay (schedule cfg))) ;;
  if weekday_ok : bool then
    client <- assume_role w ;;
    for_each (role_arns cfg) (process_account w client cfg) 1%nat ;;;
    ret tt
  else info NotOnWeekends.

Definition lambda_handler (w : World) : W unit :=
  try_except (lambda_body w) (fun error => info (LambdaFailed error)).

(** ** Bookkeeping used to state the properties *)

(** The tags of an instance on the [Schedule] path that send the lead
    identifier to [no_action_required], and those that send it to
    [action_required]: the conditions of [schedule_tag], in its order. *)
Definition sent_to_no_action (config : Config) (tag : Tag) : bool :=
  str_contains "Schedule" (Key tag) &&
  (String.eqb (Value tag) "" ||
   String.eqb (Value tag) (allDay (schedule config))).

Definition sent_to_action (config : Config) (tag : Tag) : bool :=
  str_contains "Schedule" (Key tag) &&
  negb (String.eqb (Value tag) "") &&
  negb (String.eqb (Value tag) (allDay (schedule config))) &&
  String.eqb (Value tag) (halfDay (schedule config)).

(** The service calls of a list of events, in order. *)
Definition api_calls (t : list Event) : list ApiCall :=
  flat_map (fun ev => match ev with Api c => [c] | _ => [] end) t.

(** The identifier lists submitted by the stop calls of a list of
    events, in order. *)
Definition stop_calls (t : list Event) : list (list string) :=
  flat_map (fun ev => match ev with
                      | Api (StopInstances ids) => [ids]
                      | _ => []
                      end) t.

(** The successive lists [u ++ [x1]], [u ++ [x1; x2]], ... *)
Fixpoint growth (u xs : list string) : list (list string) :=
  match xs with
  | [] => []
  | x :: rest => (u ++ [x]) :: growth (u ++ [x]) rest
  end.

(** The tag keys an instance adds to [tag_list]. *)
Definition tag_keys (instance : Instance) : list string :=
  match Tags instance with
  | Some tags => map Key tags
  | None => []
  end.

(** Identifiers of [action_required] and [no_action_required] are lead
    identifiers of reservations of [rs]; identifiers of the untagged list
    are identifiers of instances of [rs]. *)
Definition drawn_from (rs : list Reservation) (l : Lists) : Prop :=
  (forall x, In x (action_required l) \/ In x (no_action_required l) ->
             exists r, In r rs /\ lead_id r = Return x) /\
  (forall x, In x (untagged_instances l) ->
             exists r i, In r rs /\ In i (Instances r) /\ InstanceId i = x).

(** ** The window of [is_dst] as the specification words it *)

(** The most recent Monday on or before a day. *)
Definition monday_on_or_before (d : datetime) : datetime :=
  sub_days d (weekday d).

(** The half-open window from the most recent Monday on or before April 1
    to the most recent Monday on or before November 1 of the year of
    [now]. *)
Definition in_monday_window (now : datetime) : bool :=
  dt_leb (monday_on_or_before (datetime_ymd (year now) 4 1)) now &&
  dt_ltb now (monday_on_or_before (datetime_ymd (year now) 11 1)).

(** [s] is midnight of the most recent Sunday strictly before the day
    of [a]. *)
Definition sunday_before (s a : datetime) : Prop :=
  weekday s = 6 /\ usec s = 0 /\ ordinal a - 7 <= ordinal s < ordinal a.

(** The microseconds from the start of day 0 to a timestamp. *)
Definition since_origin (t : datetime) : Z :=
  ordinal t * US_PER_DAY + usec t.

(** [c in s] for a character and a string. *)
Fixpoint has_char (c : ascii) (s : string) : bool :=
  match s with
  | EmptyString => false
  | String a rest => Ascii.eqb a c || has_char c rest
  end.

(** [p] holds of the [count] numbers from [start] on. *)
Fixpoint all_from (start : Z) (count : nat) (p : Z -> bool) : bool :=
  match count with
  | O => true
  | S k => p start && all_from (start + 1) k p
  end.

(** The computation [m], run after the events [t]. *)
Definition after {A} (t : list Event) (m : W A) : W A :=
  (outcome m, t ++ events m).

(** The per-account loop, inside the handler of the entry point. *)
Definition account_loop (w : World) (client : option StsClient)
    (cfg : Config) : W unit :=
  try_except
    (for_each (role_arns cfg) (process_account w client cfg) 1%nat ;;;
     ret tt)
    (fun error => info (LambdaFailed error)).

(** ** Sample data *)

Module Sample.

Definition tag (k v : string) : Tag := {| Key := k; Value := v |}.

Definition instance (id : string) (tags : list Tag) : Instance :=
  {| InstanceId := id; Tags := Some tags |}.

Definition bare_instance (id : string) : Instance :=
  {| InstanceId := id; Tags := None |}.

Definition reservation (l : list Instance) : Reservation :=
  {| Instances := l |}.

Definition config_with (all_day half_day flag : string) : Config :=
  {| schedule := {| allDay := all_day; halfDay := half_day |};
     times := {| startTime := "7,0"; stopTime := "19,0" |};
     stop_untagged_instances_flag := flag;
     role_arns := ["arn:aws:iam::111111111111:role/StartStop";
                   "arn:aws:iam::222222222222:role/StartStop"];
     account_names := [("111111111111", "dev"); ("222222222222", "prod")]
  |}.

(** The usual configuration, with and without the stopping of untagged
    instances. *)
Definition config : Config := config_with "24x7" "12x5" "True".
Definition config_keep_untagged : Config := config_with "24x7" "12x5" "False".

(** A client whose requests all succeed and that lists [data]. *)
Definition client (data : Data) : Ec2Client :=
  {| describe_instances := fun _ => Return data;
     start_instances := fun _ => Return tt;
     stop_instances := fun _ => Return tt |}.

End Sample.

(** Data for the classification by the value of the [Schedule] tag. *)
Module SampleSchedule.
Import Sample.

Definition half_day_tag : Tag := tag "Schedule" "12x5".
Definition web : Instance := instance "i-a" [half_day_tag].
Definition web_reservation : Reservation := reservation [web].

(** A configuration that gives both schedules the same value. *)
Definition config_same_value : Config := config_with "12x5" "12x5" "True".

End SampleSchedule.

(** Data for reservations that hold more than one instance. *)
Module SampleReservation.
Import Sample.

(** Launched together: a named instance, then one that must not be
    shut down. *)
Definition named : Instance := instance "i-a" [tag "Name" "web"].
Definition pinned : Instance := instance "i-b" [tag "NoShutdown" "yes"].
Definition named_then_pinned : Reservation := reservation [named; pinned].

(** A half-day instance, then one that must not be shut down. *)
Definition scheduled : Instance := instance "i-a" [tag "Schedule" "12x5"].
Definition scheduled_then_pinned : Reservation :=
  reservation [scheduled; pinned].

(** An instance with an empty tag list, then one that must not be shut
    down, or a second one with an empty tag list. *)
Definition plain : Instance := instance "i-a" [].
Definition plain_b : Instance := instance "i-b" [].
Definition plain_then_pinned : Reservation := reservation [plain; pinned].
Definition plain_then_plain : Reservation := reservation [plain; plain_b].

(** The first instance of a reservation, if any. *)
Definition lead_instance (r : Reservation) : option Instance :=
  hd_error (Instances r).

End SampleReservation.

(** Data for tag keys that contain [Schedule]. *)
Module SampleKeys.
Import Sample.

Definition overridden : Instance :=
  instance "i-a" [tag "Schedule" "12x5"; tag "ScheduleOverride" ""].
Definition overridden_reservation : Reservation := reservation [overridden].

Definition backed_up : Instance :=
  instance "i-c" [tag "Schedule" "12x5"; tag "BackupSchedule" "24x7"].
Definition backed_up_reservation : Reservation := reservation [backed_up].

End SampleKeys.

(** Data for the flag that asks for untagged instances to be stopped. *)
Module SampleFlag.
Import Sample.

Definition config_not_true : Config := config_with "24x7" "12x5" "NotTrue".
Definition lone : Reservation := reservation [instance "i-a" []].

End SampleFlag.

(** Data for the dispatcher: one half-day instance, listed at eight in
    the morning and at eight in the evening of a Monday. *)
Module SampleDay.
Import Sample.

Definition snapshot : Data := Response [SampleSchedule.web_reservation].
Definition seven : time := 7 * US_PER_HOUR.
Definition nineteen : time := 19 * US_PER_HOUR.
Definition morning : datetime := datetime_at 2019 1 7 8 0.
Definition evening : datetime := datetime_at 2019 1 7 20 0.

End SampleDay.

(** Data for an invocation whose first account lists an instance that
    has no [Tags] key. *)
Module SampleFailure.
Import Sample.

Definition untagged_listing : list Reservation :=
  [reservation [instance "i-a" []; bare_instance "i-b"]].

Definition ec2 : Ec2Client := client (Response untagged_listing).

Definition credentials : Credentials :=
  {| AccessKeyId := "key"; SecretAccessKey := "secret";
     SessionToken := "token" |}.

Definition sts : StsClient :=
  {| sts_assume_role := fun _ _ => Return credentials |}.

Definition s3 : S3Client :=
  {| get_object := fun _ _ => Return "{}" |}.

(** Eight in the evening of Monday, January 7, 2019, at every reading
    of the clock. *)
Definition world : World :=
  {| clock := fun _ => datetime_at 2019 1 7 20 0;
     boto3_client_sts := Return sts;
     boto3_client_s3 := fun _ => Return s3;
     boto3_client_ec2 := fun _ => Return ec2;
     literal_eval := fun _ => Return config |}.

Definition first_account : string :=
  "arn:aws:iam::111111111111:role/StartStop".
Definition second_account : string :=
  "arn:aws:iam::222222222222:role/StartStop".

End SampleFailure.

(** ** Bookkeeping for the properties of the whole script *)

(** The instance carries the [Tags] key. *)
Definition has_tags (i : Instance) : bool :=
  match Tags i with
  | Some _ => true
  | None => false
  end.

(** Every instance of every reservation carries the [Tags] key. *)
Definition all_tagged (rs : list Reservation) : bool :=
  forallb (fun r => forallb has_tags (Instances r)) rs.

(** The lists of two passes, one after the other. *)
Definition lists_app (l1 l2 : Lists) : Lists :=
  {| action_required := action_required l1 ++ action_required l2;
     no_action_required := no_action_required l1 ++ no_action_required l2;
     untagged_instances := untagged_instances l1 ++ untagged_instances l2 |}.

(** The number of occurrences of a character in a string. *)
Fixpoint count_char (c : ascii) (s : string) : nat :=
  match s with
  | EmptyString => O
  | String a rest => ((if Ascii.eqb a c then 1 else 0) + count_char c rest)%nat
  end.

(** The two edges [dston] and [dstoff] that [is_dst] computes for a
    year. *)
Definition dst_on (y : Z) : datetime :=
  sub_days (datetime_ymd y 4 1) (weekday (datetime_ymd y 4 1) + 1).

Definition dst_off (y : Z) : datetime :=
  sub_days (datetime_ymd y 11 1) (weekday (datetime_ymd y 11 1) + 1).

(** The identifiers of all the instances of a snapshot. *)
Definition snapshot_ids (rs : list Reservation) : list string :=
  flat_map (fun r => map InstanceId (Instances r)) rs.

(** The key of the tag contains [Schedule]. *)
Definition schedule_like (tag : Tag) : bool :=
  str_contains "Schedule" (Key tag).

(** A reservation of one instance, which carries its tags and at most
    one tag whose key contains [Schedule]. *)
Definition plain_reservation (r : Reservation) : Prop :=
  exists i tags,
    Instances r = [i] /\ Tags i = Some tags /\
    (List.length (filter schedule_like tags) <= 1)%nat.

(** How often an identifier occurs in the three lists together. *)
Definition occurrences (x : string) (l : Lists) : nat :=
  (count_occ string_dec (action_required l) x +
   count_occ string_dec (no_action_required l) x +
   count_occ string_dec (untagged_instances l) x)%nat.

(** A client that refuses every request. *)
Module SampleRefusal.

Definition refusing : Ec2Client :=
  {| describe_instances := fun _ => Raise (ClientError "denied");
     start_instances := fun _ => Raise (ClientError "denied");
     stop_instances := fun _ => Raise (ClientError "denied") |}.

End SampleRefusal.

(** A reservation whose first instance must not be shut down. *)
Module SampleLead.

Definition pinned_then_named : Reservation :=
  Sample.reservation [SampleReservation.pinned; SampleReservation.named].

End SampleLead.

(** Three reservations of one instance each. *)
Module SamplePlain.
Import Sample.

Definition snapshot : list Reservation :=
  [reservation [instance "i-a" [tag "Schedule" "12x5"; tag "Name" "web"]];
   reservation [instance "i-b" [tag "NoShutdown" "yes";
                                tag "Schedule" "12x5"]];
   reservation [instance "i-c" [tag "Name" "db"]]].

End SamplePlain.

(** One arm of [start_stop]: list, classify, act. *)
Definition dispatch (user : option Ec2Client) (config : Config)
    (state : string) (now : datetime) (tz : string) (m : Method)
    (action : string) : W unit :=
  pair <- get_instance_ids user config state now tz ;;
  '(action_required_ids, no_action_required_ids) <- unpack pair ;;
  c <- attr user ;;
  action_on_instances c m action_required_ids action.

(** An invocation whose configuration has a half-day schedule without
    [x], and one whose account cannot be given a client. *)
Module SampleWeek.
Import Sample.

Definition config_no_x : Config := config_with "24x7" "12" "True".

Definition world : World :=
  {| clock := fun _ => datetime_at 2019 1 7 20 0;
     boto3_client_sts := Return SampleFailure.sts;
     boto3_client_s3 := fun _ => Return SampleFailure.s3;
     boto3_client_ec2 := fun _ => Return SampleFailure.ec2;
     literal_eval := fun _ => Return config_no_x |}.

(** The compute client cannot be built. *)
Definition world_without_ec2 : World :=
  {| clock := fun _ => datetime_at 2019 1 7 20 0;
     boto3_client_sts := Return SampleFailure.sts;
     boto3_client_s3 := fun _ => Return SampleFailure.s3;
     boto3_client_ec2 := fun _ => Raise (ClientError "denied");
     literal_eval := fun _ => Return config |}.

(** Every account lists one half-day instance. *)
Definition world_at_work : World :=
  {| clock := fun _ => datetime_at 2019 1 7 20 0;
     boto3_client_sts := Return SampleFailure.sts;
     boto3_client_s3 := fun _ => Return SampleFailure.s3;
     boto3_client_ec2 := fun _ => Return (client SampleDay.snapshot);
     literal_eval := fun _ => Return config |}.

End SampleWeek.


(** A listing of two reservations: an instance without tags, then the
    half-day instance. *)
Module SampleMixed.
Import Sample.

Definition listing : list Reservation :=
  [reservation [instance "i-u" []]; SampleSchedule.web_reservation].

Definition ec2 : Ec2Client := client (Response listing).

End SampleMixed.


(** Every identifier of the lists [l1] is in the same list of [l]. *)
Definition within (l1 l : Lists) : Prop :=
  incl (action_required l1) (action_required l) /\
  incl (no_action_required l1) (no_action_required l) /\
  incl (untagged_instances l1) (untagged_instances l).

(** * Properties *)

(** ** Laws of the computations *)

Section Laws.
Context {A B C : Type}.

Lemma bind_ret_l (a : A) (k : A -> W B) : bind (ret a) k = k a.
Proof. unfold bind, ret. destruct (k a); reflexivity. Qed.

Lemma bind_lift_return (a : A) (k : A -> W B) :
  bind (lift (Return a)) k = k a.
Proof. apply bind_ret_l. Qed.

Lemma bind_raise (e : Exn) (t : list Event) (k : A -> W B) :
  bind (Raise e, t) k = (Raise e, t).
Proof. reflexivity. Qed.

Lemma bind_return (a : A) (t : list Event) (k : A -> W B) :
  bind (Return a, t) k = (outcome (k a), t ++ events (k a)).
Proof. unfold bind, outcome, events. destruct (k a); reflexivity. Qed.

Lemma bind_ret_r (m : W A) : bind m ret = m.
Proof.
  destruct m as [[a | e] t]; simpl; [rewrite app_nil_r|]; reflexivity.
Qed.

Lemma bind_assoc (m : W A) (k : A -> W B) (h : B -> W C) :
  bind (bind m k) h = bind m (fun a => bind (k a) h).
Proof.
  destruct m as [[a | e] t]; simpl; [|reflexivity].
  destruct (k a) as [[b | e] t2]; simpl; [|reflexivity].
  destruct (h b) as [r t3]. now rewrite app_assoc.
Qed.

Lemma try_except_return (a : A) (t : list Event) (h : Exn -> W A) :
  try_except (Return a, t) h = (Return a, t).
Proof. reflexivity. Qed.

Lemma try_except_raise (e : Exn) (t : list Event) (h : Exn -> W A) :
  try_except (Raise e, t) h = (outcome (h e), t ++ events (h e)).
Proof. unfold try_except, outcome, events. destruct (h e); reflexivity. Qed.

End Laws.

Lemma surjective_W {A} (m : W A) : m = (outcome m, events m).
Proof. now destruct m. Qed.

Lemma for_each_app {A S} (xs ys : list A) (body : S -> A -> W S) (s : S) :
  for_each (xs ++ ys) body s = bind (for_each xs body s) (for_each ys body).
Proof.
  revert s. induction xs as [|x xs IH]; intros s.
  - symmetry. apply (bind_ret_l s (for_each ys body)).
  - cbn [app for_each]. rewrite bind_assoc.
    destruct (body s x) as [[s'|e] t]; [|reflexivity].
    rewrite !bind_return. now rewrite IH.
Qed.

(** A loop stops at the first iteration that raises: what follows it in
    the list is not visited. *)
Lemma for_each_abort {A S} (pre post : list A) (x : A)
    (body : S -> A -> W S) (s s' : S) (e : Exn) (t1 t2 : list Event) :
  for_each pre body s = (Return s', t1) ->
  body s' x = (Raise e, t2) ->
  for_each (pre ++ x :: post) body s = (Raise e, t1 ++ t2).
Proof.
  intros Hpre Hx. rewrite for_each_app, Hpre. simpl. now rewrite Hx.
Qed.

(** ** The classifier, one instance at a time *)

Section Visit.
Variable config : Config.
Variable temporary_user : option Ec2Client.
Variable reservation : Reservation.
Variable lead : string.
Hypothesis lead_known : lead_id reservation = Return lead.

(** An instance met once [NoShutdown] is among the keys seen so far in
    the reservation: the lead identifier goes to [no_action_required],
    and nothing else happens. *)
Lemma visit_no_shutdown (tag_list : list string) (l : Lists)
    (instance : Instance) (tags : list Tag) :
  Tags instance = Some tags ->
  list_mem "NoShutdown" (tag_list ++ map Key tags) = true ->
  visit_instance config temporary_user reservation (tag_list, l) instance
  = ret (tag_list ++ map Key tags, add_no_action lead l).
Proof.
  intros Htags Hns. unfold visit_instance, get_tags.
  rewrite Htags, bind_lift_return, Hns, lead_known.
  now rewrite bind_lift_return.
Qed.

(** An instance met with [Schedule], and not [NoShutdown], among the
    keys seen so far: its tags go through [schedule_tag]. *)
Lemma visit_schedule (tag_list : list string) (l : Lists)
    (instance : Instance) (tags : list Tag) :
  Tags instance = Some tags ->
  list_mem "NoShutdown" (tag_list ++ map Key tags) = false ->
  list_mem "Schedule" (tag_list ++ map Key tags) = true ->
  visit_instance config temporary_user reservation (tag_list, l) instance
  = (l' <- for_each tags (schedule_tag config reservation) l ;;
     ret (tag_list ++ map Key tags, l')).
Proof.
  intros Htags Hns Hs. unfold visit_instance, get_tags.
  now rewrite Htags, bind_lift_return, Hns, Hs.
Qed.

(** An instance met with neither key seen so far. *)
Lemma visit_untagged (tag_list : list string) (l : Lists)
    (instance : Instance) (tags : list Tag) :
  Tags instance = Some tags ->
  list_mem "NoShutdown" (tag_list ++ map Key tags) = false ->
  list_mem "Schedule" (tag_list ++ map Key tags) = false ->
  visit_instance config temporary_user reservation (tag_list, l) instance
  = if str_contains "True" (stop_untagged_instances_flag config)
    then stop_untagged_instances
           (untagged_instances l ++ [InstanceId instance])
           temporary_user ;;;
         ret (tag_list ++ map Key tags,
              add_untagged (InstanceId instance) l)
    else ret (tag_list ++ map Key tags, l).
Proof.
  intros Htags Hns Hs. unfold visit_instance, get_tags.
  now rewrite Htags, bind_lift_return, Hns, Hs.
Qed.

(** The four ways one tag is treated by [schedule_tag]. *)
Lemma schedule_tag_empty (l : Lists) (tag : Tag) :
  str_contains "Schedule" (Key tag) = true ->
  Value tag = "" ->
  schedule_tag config reservation l tag = ret (add_no_action lead l).
Proof.
  intros Hk Hv. unfold schedule_tag.
  now rewrite Hk, Hv, lead_known, bind_lift_return.
Qed.

Lemma schedule_tag_all_day (l : Lists) (tag : Tag) :
  str_contains "Schedule" (Key tag) = true ->
  Value tag = allDay (schedule config) ->
  schedule_tag config reservation l tag = ret (add_no_action lead l).
Proof.
  intros Hk Hv. unfold schedule_tag.
  rewrite Hk, Hv, String.eqb_refl, lead_known, bind_lift_return.
  now destruct (String.eqb _ "").
Qed.

Lemma schedule_tag_half_day (l : Lists) (tag : Tag) :
  str_contains "Schedule" (Key tag) = true ->
  Value tag = halfDay (schedule config) ->
  Value tag <> "" ->
  Value tag <> allDay (schedule config) ->
  schedule_tag config reservation l tag = ret (add_action lead l).
Proof.
  intros Hk Hv He Ha. unfold schedule_tag. rewrite Hk.
  apply String.eqb_neq in He, Ha. rewrite He, Ha.
  rewrite <- Hv, String.eqb_refl, lead_known.
  now rewrite bind_lift_return.
Qed.

Lemma schedule_tag_other (l : Lists) (tag : Tag) :
  Value tag <> "" ->
  Value tag <> allDay (schedule config) ->
  Value tag <> halfDay (schedule config) ->
  schedule_tag config reservation l tag = ret l.
Proof.
  intros He Ha Hh. unfold schedule_tag.
  apply String.eqb_neq in He, Ha, Hh. rewrite He, Ha, Hh.
  now destruct (str_contains _ _).
Qed.

Lemma schedule_tag_skipped (l : Lists) (tag : Tag) :
  str_contains "Schedule" (Key tag) = false ->
  schedule_tag config reservation l tag = ret l.
Proof. intros Hk. unfold schedule_tag. now rewrite Hk. Qed.

End Visit.

(** ** The loop over the tags of an instance *)

Section ScheduleLoop.
Variable config : Config.
Variable reservation : Reservation.
Variable lead : string.
Hypothesis lead_known : lead_id reservation = Return lead.

(** The loop neither raises nor produces events: it appends the lead
    identifier once for each tag that matches. *)
Lemma schedule_loop (tags : list Tag) (l : Lists) :
  for_each tags (schedule_tag config reservation) l
  = ret {| action_required :=
             action_required l ++
             map (fun _ => lead) (filter (sent_to_action config) tags);
           no_action_required :=
             no_action_required l ++
             map (fun _ => lead) (filter (sent_to_no_action config) tags);
           untagged_instances := untagged_instances l |}.
Proof.
  revert l. induction tags as [|tag tags IH]; intros l.
  - cbn [for_each filter map]. rewrite !app_nil_r. now destruct l.
  - cbn [for_each filter]. unfold sent_to_action, sent_to_no_action.
    unfold schedule_tag at 1.
    destruct (str_contains "Schedule" (Key tag)); cbn [andb].
    + destruct (String.eqb (Value tag) ""); cbn [orb negb andb].
      { rewrite lead_known, bind_lift_return, bind_ret_l, IH.
        cbn [add_no_action action_required no_action_required
             untagged_instances map].
        now rewrite <- app_assoc. }
      destruct (String.eqb (Value tag) (allDay (schedule config)));
        cbn [orb negb andb].
      { rewrite lead_known, bind_lift_return, bind_ret_l, IH.
        cbn [add_no_action action_required no_action_required
             untagged_instances map].
        now rewrite <- app_assoc. }
      destruct (String.eqb (Value tag) (halfDay (schedule config))).
      { rewrite lead_known, bind_lift_return, bind_ret_l, IH.
        cbn [add_action action_required no_action_required
             untagged_instances map].
        now rewrite <- app_assoc. }
      now rewrite bind_ret_l, IH.
    + now rewrite bind_ret_l, IH.
Qed.

End ScheduleLoop.

(** C1 (as amended).  Take an instance that reaches the inspection of its
    tags: its tags are present, and the keys seen so far in its
    reservation hold [Schedule] and not [NoShutdown].  When the loop
    reaches a tag whose key contains [Schedule], with the lists being
    [l1] at that point, the visit goes on with: the lead identifier
    appended to [no_action_required] if the value is the configured
    [allDay] or is empty; the lead identifier appended to
    [action_required] if the value is the configured [halfDay] and is
    neither empty nor equal to [allDay]; [l1] unchanged for any other
    value. *)
Theorem schedule_value_decides_list :
  forall (config : Config) (user : option Ec2Client)
         (reservation : Reservation) (lead : string)
         (tag_list : list string) (l : Lists) (instance : Instance)
         (pre : list Tag) (tag : Tag) (post : list Tag),
    lead_id reservation = Return lead ->
    Tags instance = Some (pre ++ tag :: post) ->
    list_mem "NoShutdown" (tag_list ++ map Key (pre ++ tag :: post)) = false ->
    list_mem "Schedule" (tag_list ++ map Key (pre ++ tag :: post)) = true ->
    str_contains "Schedule" (Key tag) = true ->
    exists l1 : Lists,
      for_each pre (schedule_tag config reservation) l = ret l1 /\
      let visit :=
        visit_instance config user reservation (tag_list, l) instance in
      let go_on_with (x : Lists) :=
        (l2 <- for_each post (schedule_tag config reservation) x ;;
         ret (tag_list ++ map Key (pre ++ tag :: post), l2)) in
      (Value tag = allDay (schedule config) ->
       visit = go_on_with (add_no_action lead l1)) /\
      (Value tag = halfDay (schedule config) ->
       Value tag <> "" -> Value tag <> allDay (schedule config) ->
       visit = go_on_with (add_action lead l1)) /\
      (Value tag = "" -> visit = go_on_with (add_no_action lead l1)) /\
      (Value tag <> "" -> Value tag <> allDay (schedule config) ->
       Value tag <> halfDay (schedule config) ->
       visit = go_on_with l1).
Proof.
  intros config user reservation lead tag_list l instance pre tag post
         Hlead Htags Hns Hs Hkey.
  eexists. split; [apply (schedule_loop _ _ _ Hlead)|].
  cbv zeta.
  rewrite (visit_schedule _ _ _ _ _ _ _ Htags Hns Hs).
  rewrite for_each_app, (schedule_loop _ _ _ Hlead), bind_ret_l.
  cbn [for_each].
  repeat split.
  - intros Hv. now rewrite (schedule_tag_all_day _ _ _ Hlead _ _ Hkey Hv),
      bind_ret_l.
  - intros Hv He Ha.
    now rewrite (schedule_tag_half_day _ _ _ Hlead _ _ Hkey Hv He Ha),
      bind_ret_l.
  - intros Hv. now rewrite (schedule_tag_empty _ _ _ Hlead _ _ Hkey Hv),
      bind_ret_l.
  - intros He Ha Hh.
    now rewrite (schedule_tag_other _ _ _ _ He Ha Hh), bind_ret_l.
Qed.

(** The half-day instance of the samples, with the usual configuration. *)
Lemma schedule_value_decides_list_witness :
  visit_instance Sample.config None SampleSchedule.web_reservation
                 ([], no_lists) SampleSchedule.web
  = ret (["Schedule"], add_action "i-a" no_lists).
Proof.
  destruct (schedule_value_decides_list
              Sample.config None SampleSchedule.web_reservation "i-a"
              [] no_lists SampleSchedule.web
              [] SampleSchedule.half_day_tag []
              eq_refl eq_refl eq_refl eq_refl eq_refl)
    as (l1 & Hpre & _ & Hhalf & _).
  injection Hpre as <-.
  apply Hhalf; [reflexivity | discriminate | discriminate].
Defined.

(** C1, as stated, fails: with a configuration whose [halfDay] equals its
    [allDay], a [Schedule] value equal to [halfDay] sends the identifier
    to [no_action_required], and [action_required] stays empty. *)
Lemma half_day_value_shadowed_by_all_day :
  Value SampleSchedule.half_day_tag
  = halfDay (schedule SampleSchedule.config_same_value) /\
  categorise_instances (Response [SampleSchedule.web_reservation])
                       SampleSchedule.config_same_value None
  = (Return (Some ([], ["i-a"])), []).
Proof. split; reflexivity. Qed.

(** ** Membership tests *)

Lemma list_mem_In (x : string) (l : list string) :
  list_mem x l = true <-> In x l.
Proof.
  unfold list_mem. rewrite existsb_exists. split.
  - intros (y & Hin & Heq). apply String.eqb_eq in Heq. now subst.
  - intros Hin. exists x. split; [assumption | apply String.eqb_refl].
Qed.

Lemma list_mem_app (x : string) (l1 l2 : list string) :
  list_mem x (l1 ++ l2) = list_mem x l1 || list_mem x l2.
Proof. apply existsb_app. Qed.

(** C10.  An instance that carries a tag whose key is exactly [Schedule]
    (and is not treated as [NoShutdown]) has every tag whose key contains
    [Schedule] inspected: the lead identifier is appended once for each
    such tag whose value matches, to the list the value selects.  For the
    instance with tags [Schedule = 12x5] and [ScheduleOverride = ""] the
    same identifier ends in both [action_required] and
    [no_action_required]. *)
Theorem every_schedule_like_key_is_inspected :
  (forall (config : Config) (user : option Ec2Client)
          (reservation : Reservation) (lead : string)
          (tag_list : list string) (l : Lists) (instance : Instance)
          (tags : list Tag),
      lead_id reservation = Return lead ->
      Tags instance = Some tags ->
      In "Schedule" (map Key tags) ->
      list_mem "NoShutdown" (tag_list ++ map Key tags) = false ->
      visit_instance config user reservation (tag_list, l) instance
      = ret (tag_list ++ map Key tags,
             {| action_required :=
                  action_required l ++
                  map (fun _ => lead) (filter (sent_to_action config) tags);
                no_action_required :=
                  no_action_required l ++
                  map (fun _ => lead)
                      (filter (sent_to_no_action config) tags);
                untagged_instances := untagged_instances l |})) /\
  categorise_instances (Response [SampleKeys.overridden_reservation])
                       Sample.config None
  = (Return (Some (["i-a"], ["i-a"])), []).
Proof.
  split; [|reflexivity].
  intros config user reservation lead tag_list l instance tags
         Hlead Htags Hkey Hns.
  assert (Hs : list_mem "Schedule" (tag_list ++ map Key tags) = true).
  { apply list_mem_In, in_or_app. now right. }
  rewrite (visit_schedule _ _ _ _ _ _ _ Htags Hns Hs).
  now rewrite (schedule_loop _ _ _ Hlead), bind_ret_l.
Qed.

(** An instance tagged [Schedule = 12x5] and [BackupSchedule = 24x7]. *)
Lemma every_schedule_like_key_is_inspected_witness :
  visit_instance Sample.config None SampleKeys.backed_up_reservation
                 ([], no_lists) SampleKeys.backed_up
  = ret (["Schedule"; "BackupSchedule"],
         {| action_required := ["i-c"];
            no_action_required := ["i-c"];
            untagged_instances := [] |}).
Proof.
  apply (proj1 every_schedule_like_key_is_inspected
               Sample.config None SampleKeys.backed_up_reservation "i-c"
               [] no_lists SampleKeys.backed_up
               [Sample.tag "Schedule" "12x5";
                Sample.tag "BackupSchedule" "24x7"]).
  - reflexivity.
  - reflexivity.
  - left. reflexivity.
  - reflexivity.
Defined.

(** C2 (the code departs from it).  In a reservation of two instances
    whose second one carries [NoShutdown], the classifier records the
    identifier of the first instance: the tagged instance [i-b] is absent
    from [no_action_required]. *)
Theorem no_shutdown_records_the_lead_identifier :
  Tags SampleReservation.pinned = Some [Sample.tag "NoShutdown" "yes"] /\
  InstanceId SampleReservation.pinned = "i-b" /\
  categorise_instances (Response [SampleReservation.named_then_pinned])
                       Sample.config_keep_untagged None
  = (Return (Some ([], ["i-a"])), []).
Proof. repeat split. Qed.

(** C4 (the code departs from it).  One identifier can end in two of the
    collections: in [action_required] and [no_action_required] when a
    half-day instance is followed in its reservation by a [NoShutdown]
    one, and in the untagged list and [no_action_required] when an
    instance without the two keys is. *)
Theorem one_identifier_in_two_collections :
  categorise_instances (Response [SampleReservation.scheduled_then_pinned])
                       Sample.config None
  = (Return (Some (["i-a"], ["i-a"])), []) /\
  classify [SampleReservation.plain_then_pinned] Sample.config
           (Some (Sample.client Falsy))
  = (Return {| action_required := [];
               no_action_required := ["i-a"];
               untagged_instances := ["i-a"] |},
     [LogInfo StoppingUntagged; LogInfo (IdList ["i-a"]);
      Api (StopInstances ["i-a"])]).
Proof. split; reflexivity. Qed.

(** ** Loops and their events *)

(** What holds of the loop variables and of the events so far is kept by
    a loop whose body keeps it; [Q] is what is left when the body
    raises. *)
Lemma for_each_run {A S} (xs : list A) (body : S -> A -> W S)
    (R : S -> list Event -> Prop) (Q : list Event -> Prop) :
  (forall s t x, In x xs -> R s t ->
     match body s x with
     | (Return s', t') => R s' (t ++ t')
     | (Raise _, t') => Q (t ++ t')
     end) ->
  forall s t, R s t ->
    match for_each xs body s with
    | (Return s', t') => R s' (t ++ t')
    | (Raise _, t') => Q (t ++ t')
    end.
Proof.
  induction xs as [|x xs IH]; intros Hstep s t HR.
  - cbn. now rewrite app_nil_r.
  - cbn [for_each].
    pose proof (Hstep s t x (or_introl eq_refl) HR) as Hx.
    destruct (body s x) as [[s1|e] t1]; [|exact Hx].
    rewrite bind_return.
    assert (Hrest : forall s t x, In x xs -> R s t ->
              match body s x with
              | (Return s', t') => R s' (t ++ t')
              | (Raise _, t') => Q (t ++ t')
              end).
    { intros s0 t0 x0 Hin. apply Hstep. now right. }
    specialize (IH Hrest s1 (t ++ t1) Hx).
    unfold outcome, events.
    destruct (for_each xs body s1) as [[s2|e] t2]; cbn [fst snd];
      now rewrite app_assoc.
Qed.

Lemma bind_outcome_inv {A B} (m : W A) (k : A -> W B) (b : B) :
  outcome (bind m k) = Return b ->
  exists a t, m = (Return a, t) /\ outcome (k a) = Return b.
Proof.
  destruct m as [[a|e] t]; [|discriminate].
  rewrite bind_return. cbn. intros H. now exists a, t.
Qed.

Lemma lead_of_member (r : Reservation) (i : Instance) :
  In i (Instances r) -> exists lead, lead_id r = Return lead.
Proof.
  unfold lead_id. destruct (Instances r) as [|first rest]; [intros []|].
  intros _. now exists (InstanceId first).
Qed.

(** ** [stop_untagged_instances] never raises *)

Lemma stop_untagged_with_client (ids : list string) (c : Ec2Client) :
  stop_untagged_instances ids (Some c)
  = (Return tt,
     [LogInfo StoppingUntagged; LogInfo (IdList ids);
      Api (StopInstances ids)] ++
     match stop_instances c ids with
     | Return _ => []
     | Raise e => [LogInfo (UntaggedStopFailed e)]
     end).
Proof.
  unfold stop_untagged_instances, attr, call, info, emit, bind, ret.
  cbn. destruct (stop_instances c ids) as [[]|e]; reflexivity.
Qed.

Lemma stop_untagged_without_client (ids : list string) :
  stop_untagged_instances ids None
  = (Return tt,
     [LogInfo StoppingUntagged; LogInfo (IdList ids);
      LogInfo (UntaggedStopFailed AttributeError)]).
Proof. reflexivity. Qed.

Lemma stop_untagged_outcome (ids : list string) (user : option Ec2Client) :
  outcome (stop_untagged_instances ids user) = Return tt.
Proof.
  destruct user as [c|].
  - now rewrite stop_untagged_with_client.
  - reflexivity.
Qed.

(** ** One visit, in full *)

Lemma visit_instance_run (config : Config) (user : option Ec2Client)
    (r : Reservation) (lead : string) (tag_list : list string) (l : Lists)
    (i : Instance) :
  lead_id r = Return lead ->
  visit_instance config user r (tag_list, l) i
  = match Tags i with
    | None => (Raise (KeyError "Tags"), [])
    | Some tags =>
        let keys := tag_list ++ map Key tags in
        if list_mem "NoShutdown" keys then
          (Return (keys, add_no_action lead l), [])
        else if list_mem "Schedule" keys then
          (Return (keys,
                   {| action_required :=
                        action_required l ++
                        map (fun _ => lead)
                            (filter (sent_to_action config) tags);
                      no_action_required :=
                        no_action_required l ++
                        map (fun _ => lead)
                            (filter (sent_to_no_action config) tags);
                      untagged_instances := untagged_instances l |}), [])
        else if str_contains "True" (stop_untagged_instances_flag config) then
          (Return (keys, add_untagged (InstanceId i) l),
           events (stop_untagged_instances
                     (untagged_instances l ++ [InstanceId i]) user))
        else (Return (keys, l), [])
    end.
Proof.
  intros Hlead. destruct (Tags i) as [tags|] eqn:Htags.
  - cbv zeta.
    destruct (list_mem "NoShutdown" (tag_list ++ map Key tags)) eqn:Hns.
    { now rewrite (visit_no_shutdown _ _ _ _ Hlead _ _ _ _ Htags Hns). }
    destruct (list_mem "Schedule" (tag_list ++ map Key tags)) eqn:Hs.
    { rewrite (visit_schedule _ _ _ _ _ _ _ Htags Hns Hs).
      now rewrite (schedule_loop _ _ _ Hlead), bind_ret_l. }
    rewrite (visit_untagged _ _ _ _ _ _ _ Htags Hns Hs).
    destruct (str_contains "True" _); [|reflexivity].
    rewrite (surjective_W (stop_untagged_instances _ _)).
    rewrite stop_untagged_outcome, bind_return. cbn.
    now rewrite app_nil_r.
  - unfold visit_instance, get_tags. now rewrite Htags.
Qed.

(** ** Where the identifiers of the three lists come from *)

Section Provenance.
Variable config : Config.
Variable user : option Ec2Client.

(** The keys seen so far are those of the instances already visited. *)
Lemma keys_accumulate (r : Reservation) (lead : string)
    (visited : list Instance) :
  lead_id r = Return lead ->
  forall tag_list l keys l1,
    outcome (for_each visited (visit_instance config user r) (tag_list, l))
    = Return (keys, l1) ->
    keys = tag_list ++ flat_map tag_keys visited.
Proof.
  intros Hlead. induction visited as [|i rest IH]; intros tag_list l keys l1.
  - cbn. intros [= <- _]. now rewrite app_nil_r.
  - cbn [for_each flat_map]. intros H.
    apply bind_outcome_inv in H as ([keys1 l2] & t & Hvisit & Hrest).
    apply IH in Hrest. subst keys.
    rewrite (visit_instance_run _ _ _ _ _ _ _ Hlead) in Hvisit.
    unfold tag_keys. destruct (Tags i) as [tags|]; [|discriminate].
    cbv zeta in Hvisit. rewrite app_assoc. f_equal.
    destruct (list_mem "NoShutdown" _); [now injection Hvisit|].
    destruct (list_mem "Schedule" _); [now injection Hvisit|].
    destruct (str_contains "True" _); now injection Hvisit.
Qed.

Lemma drawn_from_visit (rs : list Reservation) (r : Reservation)
    (i : Instance) (tag_list : list string) (l : Lists) :
  In r rs -> In i (Instances r) -> drawn_from rs l ->
  match visit_instance config user r (tag_list, l) i with
  | (Return st, _) => drawn_from rs (snd st)
  | (Raise _, _) => True
  end.
Proof.
  intros Hr Hi [Hlists Hun].
  destruct (lead_of_member r i Hi) as [lead Hlead].
  rewrite (visit_instance_run _ _ _ _ _ _ _ Hlead).
  destruct (Tags i) as [tags|]; [|exact I]. cbv zeta.
  destruct (list_mem "NoShutdown" _).
  { split; cbn; [|exact Hun]. intros x [Hx|Hx].
    - apply Hlists. now left.
    - apply in_app_or in Hx as [Hx|[<-|[]]]; [|now exists r].
      apply Hlists. now right. }
  destruct (list_mem "Schedule" _).
  { split; cbn; [|exact Hun]. intros x [Hx|Hx];
      apply in_app_or in Hx as [Hx|Hx].
    - apply Hlists. now left.
    - apply in_map_iff in Hx as (_ & <- & _). now exists r.
    - apply Hlists. now right.
    - apply in_map_iff in Hx as (_ & <- & _). now exists r. }
  destruct (str_contains "True" _); [|now split].
  split; cbn; [exact Hlists|]. intros x Hx.
  apply in_app_or in Hx as [Hx|[<-|[]]]; [now apply Hun|].
  now exists r, i.
Qed.

Lemma drawn_from_classify (rs : list Reservation) (l : Lists) :
  outcome (classify rs config user) = Return l -> drawn_from rs l.
Proof.
  intros Hrun.
  assert (Hstart : drawn_from rs no_lists).
  { split; cbn; [intros x [[]|[]] | intros x []]. }
  pose proof (for_each_run rs (visit_reservation config user)
                (fun l _ => drawn_from rs l) (fun _ => True)) as Hloop.
  unfold classify in Hrun.
  specialize (fun H => Hloop H no_lists [] Hstart).
  destruct (for_each rs _ no_lists) as [[l'|e] t]; [|discriminate].
  cbn in Hrun. injection Hrun as ->. apply Hloop.
  intros l0 t0 r Hr Hl0. unfold visit_reservation.
  pose proof (for_each_run (Instances r) (visit_instance config user r)
                (fun st _ => drawn_from rs (snd st)) (fun _ => True))
    as Hinner.
  specialize (fun H => Hinner H ([], l0) [] Hl0).
  destruct (for_each (Instances r) _ ([], l0)) as [[st|e] t1];
    [|exact I].
  rewrite bind_return. cbn. apply Hinner.
  intros [tag_list l1] t2 i Hi Hl1.
  pose proof (drawn_from_visit rs r i tag_list l1 Hr Hi Hl1) as Hv.
  destruct (visit_instance _ _ _ _ _) as [[st'|e] t3]; exact Hv.
Qed.

End Provenance.

(** ** The stop calls of one classification pass *)

Lemma api_calls_app (t1 t2 : list Event) :
  api_calls (t1 ++ t2) = api_calls t1 ++ api_calls t2.
Proof. apply flat_map_app. Qed.

Lemma stop_calls_app (t1 t2 : list Event) :
  stop_calls (t1 ++ t2) = stop_calls t1 ++ stop_calls t2.
Proof. apply flat_map_app. Qed.

Lemma growth_snoc (u xs : list string) (x : string) :
  growth u (xs ++ [x]) = growth u xs ++ [u ++ xs ++ [x]].
Proof.
  revert u. induction xs as [|a xs IH]; intros u; cbn.
  - reflexivity.
  - now rewrite IH, <- app_assoc.
Qed.

Lemma stop_untagged_stop_calls (ids : list string) (c : Ec2Client) :
  stop_calls (events (stop_untagged_instances ids (Some c))) = [ids].
Proof.
  rewrite stop_untagged_with_client. cbn.
  now destruct (stop_instances c ids).
Qed.

Lemma stop_untagged_api_calls (ids : list string) (c : Ec2Client) :
  api_calls (events (stop_untagged_instances ids (Some c)))
  = [StopInstances ids].
Proof.
  rewrite stop_untagged_with_client. cbn.
  now destruct (stop_instances c ids).
Qed.

Section StopCalls.
Variable config : Config.
Variable c : Ec2Client.

(** Every stop call so far submitted the untagged list as it was then,
    and nothing is submitted unless the flag contains [True]. *)
Let flag_on : bool :=
  str_contains "True" (stop_untagged_instances_flag config).

Let submitted (xs : list string) (t : list Event) : Prop :=
  stop_calls t = growth [] xs /\ (flag_on = false -> xs = []).

Lemma submitted_visit (r : Reservation) (i : Instance)
    (tag_list : list string) (l : Lists) (t : list Event) :
  In i (Instances r) -> submitted (untagged_instances l) t ->
  match visit_instance config (Some c) r (tag_list, l) i with
  | (Return st, t') => submitted (untagged_instances (snd st)) (t ++ t')
  | (Raise _, t') => exists xs, submitted xs (t ++ t')
  end.
Proof.
  intros Hi [Hcalls Hoff].
  destruct (lead_of_member r i Hi) as [lead Hlead].
  rewrite (visit_instance_run _ _ _ _ _ _ _ Hlead).
  destruct (Tags i) as [tags|].
  2:{ exists (untagged_instances l). now rewrite app_nil_r. }
  cbv zeta.
  destruct (list_mem "NoShutdown" _);
    [cbn [snd add_no_action untagged_instances];
     now rewrite app_nil_r|].
  destruct (list_mem "Schedule" _);
    [cbn [snd untagged_instances]; now rewrite app_nil_r|].
  fold flag_on. destruct flag_on eqn:Hflag.
  - cbn [snd add_untagged untagged_instances]. split; [|discriminate].
    rewrite stop_calls_app, stop_untagged_stop_calls, Hcalls.
    now rewrite growth_snoc.
  - cbn [snd]. now rewrite app_nil_r.
Qed.

Lemma submitted_classify (rs : list Reservation) :
  match classify rs config (Some c) with
  | (Return l, t) => submitted (untagged_instances l) t
  | (Raise _, t) => exists xs, submitted xs t
  end.
Proof.
  assert (Hstart : submitted (untagged_instances no_lists) []).
  { now split. }
  pose proof (for_each_run rs (visit_reservation config (Some c))
                (fun l t => submitted (untagged_instances l) t)
                (fun t => exists xs, submitted xs t)) as Hloop.
  unfold classify. apply (fun H => Hloop H no_lists [] Hstart).
  intros l t r Hr Hl. unfold visit_reservation.
  pose proof (for_each_run (Instances r)
                (visit_instance config (Some c) r)
                (fun st t => submitted (untagged_instances (snd st)) t)
                (fun t => exists xs, submitted xs t)) as Hinner.
  specialize (fun H => Hinner H ([], l) t Hl).
  destruct (for_each (Instances r) _ ([], l)) as [[st|e] t1].
  - rewrite bind_return. cbn. rewrite app_nil_r. apply Hinner.
    intros [tag_list l1] t2 i Hi Hl1.
    exact (submitted_visit r i tag_list l1 t2 Hi Hl1).
  - cbn. apply Hinner.
    intros [tag_list l1] t2 i Hi Hl1.
    exact (submitted_visit r i tag_list l1 t2 Hi Hl1).
Qed.

End StopCalls.

(** C6 (as amended).  Take an instance whose tags are present and which
    is visited while the keys seen so far in its reservation hold neither
    [NoShutdown] nor [Schedule].  If the flag [stop_untagged_instances]
    contains [True], its identifier is added to the untagged list and
    one stop call is made at once, on the whole untagged list with this
    identifier at its end; if the flag does not contain [True], nothing
    is done.  Over a whole pass the stop calls submit the successive
    states of the untagged list, and there is none unless the flag
    contains [True]. *)
Theorem untagged_instance_is_stopped_at_once :
  forall (config : Config) (c : Ec2Client),
    (forall (reservation : Reservation) (tag_list : list string)
            (l : Lists) (instance : Instance) (tags : list Tag),
        Tags instance = Some tags ->
        list_mem "NoShutdown" (tag_list ++ map Key tags) = false ->
        list_mem "Schedule" (tag_list ++ map Key tags) = false ->
        let visit :=
          visit_instance config (Some c) reservation (tag_list, l) instance in
        (str_contains "True" (stop_untagged_instances_flag config) = true ->
         outcome visit
         = Return (tag_list ++ map Key tags,
                   add_untagged (InstanceId instance) l) /\
         api_calls (events visit)
         = [StopInstances (untagged_instances l ++ [InstanceId instance])]) /\
        (str_contains "True" (stop_untagged_instances_flag config) = false ->
         visit = ret (tag_list ++ map Key tags, l))) /\
    (forall rs : list Reservation,
        exists xs : list string,
          stop_calls (events (classify rs config (Some c))) = growth [] xs /\
          (str_contains "True" (stop_untagged_instances_flag config) = false ->
           xs = []) /\
          (forall l, outcome (classify rs config (Some c)) = Return l ->
                     untagged_instances l = xs)).
Proof.
  intros config c. split.
  - intros reservation tag_list l instance tags Htags Hns Hs. cbv zeta.
    rewrite (visit_untagged _ _ _ _ _ _ _ Htags Hns Hs). split.
    + intros ->.
      rewrite (surjective_W (stop_untagged_instances _ _)).
      rewrite stop_untagged_outcome, bind_return. cbn [outcome events fst snd ret].
      now rewrite app_nil_r, stop_untagged_api_calls.
    + now intros ->.
  - intros rs. pose proof (submitted_classify config c rs) as H.
    cbv zeta in H.
    destruct (classify rs config (Some c)) as [[l|e] t]; cbn [events outcome fst snd].
    + exists (untagged_instances l). destruct H as [Hcalls Hoff].
      repeat split; try assumption. now intros l' [= <-].
    + destruct H as (xs & Hcalls & Hoff). exists xs.
      repeat split; try assumption. discriminate.
Qed.

(** A lone instance with an empty tag list, with the flag ["True"]. *)
Lemma untagged_instance_is_stopped_at_once_witness :
  api_calls
    (events (visit_instance Sample.config (Some (Sample.client Falsy))
               SampleFlag.lone ([], no_lists) (Sample.instance "i-a" [])))
  = [StopInstances ["i-a"]].
Proof.
  apply (proj1 (untagged_instance_is_stopped_at_once
                  Sample.config (Sample.client Falsy))
               SampleFlag.lone [] no_lists (Sample.instance "i-a" []) []
               eq_refl eq_refl eq_refl).
  reflexivity.
Defined.

(** C6, as stated, fails: the flag ["NotTrue"] is not the string ["True"],
    and the untagged instance is stopped all the same. *)
Lemma flag_is_searched_for_true :
  stop_untagged_instances_flag SampleFlag.config_not_true <> "True" /\
  categorise_instances (Response [SampleFlag.lone]) SampleFlag.config_not_true
                       (Some (Sample.client Falsy))
  = (Return (Some ([], [])),
     [LogInfo StoppingUntagged; LogInfo (IdList ["i-a"]);
      Api (StopInstances ["i-a"])]).
Proof. split; [discriminate | reflexivity]. Qed.

(** ** The daylight-saving window *)

Lemma all_from_true (count : nat) (p : Z -> bool) :
  forall start,
    all_from start count p = true ->
    forall z, start <= z < start + Z.of_nat count -> p z = true.
Proof.
  induction count as [|k IH]; intros start Hall z Hz; [lia|].
  cbn [all_from] in Hall. apply andb_prop in Hall as [Hfirst Hrest].
  destruct (Z.eq_dec z start) as [->|Hne]; [exact Hfirst|].
  apply (IH (start + 1) Hrest). lia.
Qed.

(** April 1 and November 1 of a year are days of that year. *)
Lemma edges_are_in_their_year (y : Z) :
  1 <= y <= 9999 ->
  year (datetime_ymd y 4 1) = y /\ year (datetime_ymd y 11 1) = y.
Proof.
  intros Hy.
  assert (Hall : all_from 1 (Z.to_nat 9999)
                   (fun y => (year (datetime_ymd y 4 1) =? y) &&
                             (year (datetime_ymd y 11 1) =? y)) = true).
  { vm_compute. reflexivity. }
  pose proof (all_from_true _ _ 1 Hall y) as Hboth.
  rewrite Z2Nat.id in Hboth by lia.
  destruct (andb_prop _ _ (Hboth ltac:(lia))) as [H4 H11].
  split; now apply Z.eqb_eq.
Qed.

(** The day [is_dst] steps back to from [a] is the one Sunday among the
    seven days before [a]. *)
Lemma last_sunday_before (s a : Z) :
  (s + 6) mod 7 = 6 -> a - 7 <= s < a ->
  s = a - ((a + 6) mod 7 + 1).
Proof.
  intros Hs Hrange.
  pose proof (Z.div_mod (s + 6) 7 ltac:(lia)) as Es.
  pose proof (Z.div_mod (a + 6) 7 ltac:(lia)) as Ea.
  pose proof (Z.mod_pos_bound (a + 6) 7 ltac:(lia)) as Ba.
  rewrite Hs in Es. lia.
Qed.

Lemma stepping_back_reaches_a_sunday (d : datetime) :
  weekday (sub_days d (weekday d + 1)) = 6 /\
  ordinal d - 7 <= ordinal (sub_days d (weekday d + 1)) < ordinal d.
Proof.
  unfold weekday, sub_days. cbn [ordinal].
  pose proof (Z.div_mod (ordinal d + 6) 7 ltac:(lia)) as E.
  pose proof (Z.mod_pos_bound (ordinal d + 6) 7 ltac:(lia)) as B.
  split; [|lia].
  replace (ordinal d - ((ordinal d + 6) mod 7 + 1) + 6)
    with (6 + ((ordinal d + 6) / 7 - 1) * 7) by lia.
  now rewrite Z.mod_add by lia.
Qed.

Lemma add_one_hour (t : datetime) :
  since_origin (add_hours t 1) = since_origin t + US_PER_HOUR /\
  0 <= usec (add_hours t 1) < US_PER_DAY.
Proof.
  unfold since_origin, add_hours. cbn [ordinal usec].
  assert (Hday : 0 < US_PER_DAY) by reflexivity.
  pose proof (Z.div_mod (usec t + 1 * US_PER_HOUR) US_PER_DAY ltac:(lia)) as E.
  pose proof (Z.mod_pos_bound (usec t + 1 * US_PER_HOUR) US_PER_DAY Hday) as B.
  split; [|exact B]. lia.
Qed.

(** C5 (as amended).  The most recent Sunday strictly before April 1 of
    the year of [now], and the one before November 1, exist.  With [s]
    and [e] their midnights: if [s <= now < e], [is_dst now] is [now]
    plus one hour with the label ["GMT +1"]; otherwise it is [now]
    unchanged with the label ["GMT"]. *)
Theorem is_dst_between_the_last_sundays :
  forall now : datetime,
    let april_1 := datetime_ymd (year now) 4 1 in
    let november_1 := datetime_ymd (year now) 11 1 in
    (exists s e, sunday_before s april_1 /\ sunday_before e november_1) /\
    (forall s e : datetime,
        sunday_before s april_1 -> sunday_before e november_1 ->
        (dt_leb s now && dt_ltb now e = true ->
         is_dst now = (add_hours now 1, "GMT +1") /\
         since_origin (fst (is_dst now)) = since_origin now + US_PER_HOUR) /\
        (dt_leb s now && dt_ltb now e = false -> is_dst now = (now, "GMT"))).
Proof.
  intros now. cbv zeta. split.
  - exists (sub_days (datetime_ymd (year now) 4 1)
                     (weekday (datetime_ymd (year now) 4 1) + 1)),
           (sub_days (datetime_ymd (year now) 11 1)
                     (weekday (datetime_ymd (year now) 11 1) + 1)).
    split.
    + destruct (stepping_back_reaches_a_sunday (datetime_ymd (year now) 4 1))
        as [Hday Hrange].
      split; [exact Hday | split; [reflexivity | exact Hrange]].
    + destruct (stepping_back_reaches_a_sunday (datetime_ymd (year now) 11 1))
        as [Hday Hrange].
      split; [exact Hday | split; [reflexivity | exact Hrange]].
  - intros [so su] [eo eu] (Hs & Hsu & Hsr) (He & Heu & Her).
    cbn [usec ordinal] in *. subst su eu.
    unfold weekday in Hs, He. cbn [ordinal] in Hs, He.
    apply last_sunday_before
      with (a := ordinal (datetime_ymd (year now) 4 1)) in Hs; [|exact Hsr].
    apply last_sunday_before
      with (a := ordinal (datetime_ymd (year now) 11 1)) in He; [|exact Her].
    assert (Hon : sub_days (datetime_ymd (year now) 4 1)
                    (weekday (datetime_ymd (year now) 4 1) + 1)
                  = {| ordinal := so; usec := 0 |}).
    { unfold sub_days, weekday. now rewrite <- Hs. }
    assert (Hoff : sub_days (datetime_ymd (year now) 11 1)
                     (weekday (datetime_ymd (year now) 11 1) + 1)
                   = {| ordinal := eo; usec := 0 |}).
    { unfold sub_days, weekday. now rewrite <- He. }
    unfold is_dst. cbv zeta. rewrite Hon, Hoff.
    split; intros ->; [|reflexivity].
    split; [reflexivity|]. apply add_one_hour.
Qed.

(** Noon of June 1, 2019, between March 31 and October 27. *)
Lemma is_dst_between_the_last_sundays_witness :
  is_dst (datetime_at 2019 6 1 12 0) = (datetime_at 2019 6 1 13 0, "GMT +1").
Proof.
  apply (proj2 (is_dst_between_the_last_sundays (datetime_at 2019 6 1 12 0))
               (datetime_ymd 2019 3 31) (datetime_ymd 2019 10 27)).
  - split; [reflexivity|]. split; [reflexivity|].
    vm_compute. split; [discriminate | reflexivity].
  - split; [reflexivity|]. split; [reflexivity|].
    vm_compute. split; [discriminate | reflexivity].
  - reflexivity.
Defined.

(** C5, as stated, fails.  April 1, 2019 is a Monday, so noon of Sunday
    March 31 lies before the window of the statement, and the clock is
    moved all the same; and inside the window the label is ["GMT +1"],
    with a blank, not ["GMT+1"]. *)
Lemma clock_moves_on_the_sunday_before :
  weekday (datetime_ymd 2019 4 1) = 0 /\
  in_monday_window (datetime_at 2019 3 31 12 0) = false /\
  is_dst (datetime_at 2019 3 31 12 0)
  = (datetime_at 2019 3 31 13 0, "GMT +1") /\
  in_monday_window (datetime_at 2019 6 1 12 0) = true /\
  snd (is_dst (datetime_at 2019 6 1 12 0)) <> "GMT+1".
Proof.
  repeat split; try (vm_compute; reflexivity). vm_compute. discriminate.
Qed.

(** ** Reading the half-day schedule *)

Lemma split_on_no_separator (sep : ascii) (s : string) :
  has_char sep s = false -> split_on sep s = [s].
Proof.
  induction s as [|a s IH]; cbn [has_char split_on]; [reflexivity|].
  intros H. apply orb_false_elim in H as [Ha Hs].
  now rewrite Ha, (IH Hs).
Qed.

Lemma split_on_first_separator (sep : ascii) (h rest : string) :
  has_char sep h = false ->
  split_on sep (h ++ String sep rest)%string = h :: split_on sep rest.
Proof.
  induction h as [|a h IH]; cbn [has_char split_on String.append].
  - intros _. now rewrite Ascii.eqb_refl.
  - intros H. apply orb_false_elim in H as [Ha Hh].
    now rewrite Ha, (IH Hh).
Qed.

Lemma decimal_has_no_x (d : Decimal.uint) :
  has_char "x" (NilEmpty.string_of_uint d) = false.
Proof.
  induction d; cbn [NilEmpty.string_of_uint has_char];
    [reflexivity | assumption ..].
Qed.

Lemma span_digits_decimal (d : Decimal.uint) :
  span_digits (NilEmpty.string_of_uint d) = (NilEmpty.string_of_uint d, "").
Proof.
  induction d; cbn [NilEmpty.string_of_uint span_digits]; [reflexivity|..];
    (change (is_digit _) with true; cbv iota; now rewrite IHd).
Qed.

(** [int] reads a string of decimal digits as the number it writes. *)
Lemma py_int_decimal (d : Decimal.uint) :
  d <> Decimal.Nil ->
  py_int (NilEmpty.string_of_uint d) = Return (Z.of_uint d).
Proof.
  intros Hd. unfold py_int.
  pose proof (NilEmpty.usu d) as Husu.
  pose proof (span_digits_decimal d) as Hspan.
  destruct d; [congruence|..];
    cbn [NilEmpty.string_of_uint lstrip] in *;
    (change (is_space _) with false; cbv iota beta;
     rewrite Hspan; cbn [lstrip]; now rewrite Husu).
Qed.

Lemma is_weekday_decimal (day : Z) (hours : string) (d : Decimal.uint) :
  has_char "x" hours = false -> d <> Decimal.Nil ->
  is_weekday day (hours ++ String "x" (NilEmpty.string_of_uint d))%string
  = Return (day <=? Z.of_uint d - 1).
Proof.
  intros Hh Hd. unfold is_weekday.
  rewrite (split_on_first_separator _ _ _ Hh).
  rewrite (split_on_no_separator _ _ (decimal_has_no_x d)).
  cbn [unpack2]. now rewrite (py_int_decimal d Hd).
Qed.

(** ** The entry point *)

Lemma after_nil {A} (m : W A) : after [] m = m.
Proof. now destruct m. Qed.

Lemma bind_after {A B} (m : W A) (k : A -> W B) (a : A) (t : list Event) :
  m = (Return a, t) -> bind m k = after t (k a).
Proof. intros ->. apply bind_return. Qed.

Lemma try_except_after {A} (t : list Event) (m : W A) (h : Exn -> W A) :
  try_except (after t m) h = after t (try_except m h).
Proof.
  destruct m as [[a|e] t']; unfold after; cbn; [reflexivity|].
  destruct (h e) as [r t'']. cbn. now rewrite app_assoc.
Qed.

Lemma after_after {A} (t1 t2 : list Event) (m : W A) :
  after t1 (after t2 m) = after (t1 ++ t2) m.
Proof. unfold after. cbn. now rewrite app_assoc. Qed.

Lemma assume_role_returns (w : World) :
  exists client t, assume_role w = (Return client, t).
Proof.
  unfold assume_role, lift.
  destruct (boto3_client_sts w) as [c|e]; cbn; eauto.
Qed.

Lemma json_to_dict_returns (w : World) (s3_user : S3Client) :
  exists config t, json_to_dict w s3_user = (Return config, t).
Proof.
  unfold json_to_dict, call, lift, info, emit.
  destruct (get_object s3_user _ _) as [body|e]; cbn; eauto.
  destruct (literal_eval w body) as [config|e]; cbn; eauto.
Qed.

Lemma fetch_config_returns (w : World) (client : option StsClient) :
  exists config t, fetch_config_from_s3 w client = (Return config, t).
Proof.
  unfold fetch_config_from_s3, call, lift, info, emit.
  destruct client as [c|]; cbn; eauto.
  destruct (sts_assume_role c _ _) as [response|e]; cbn; eauto.
  destruct (boto3_client_s3 w response) as [fetcher|e]; cbn; eauto.
  destruct (json_to_dict_returns w fetcher) as (config & t & ->).
  cbn. eauto.
Qed.

(** The four ways an invocation goes, after the configuration is
    fetched and printed. *)
Lemma lambda_handler_cases (w : World) :
  exists (client : option StsClient) (t0 : list Event)
         (config : option Config) (t1 : list Event),
    assume_role w = (Return client, t0) /\
    fetch_config_from_s3 w client = (Return config, t1) /\
    lambda_handler w
    = after (t0 ++ t1 ++ [PrintConfig config])
        match config with
        | None => info (LambdaFailed TypeError)
        | Some cfg =>
            match is_weekday (weekday (clock w 0)) (halfDay (schedule cfg)) with
            | Return true => after t0 (account_loop w client cfg)
            | Return false => info NotOnWeekends
            | Raise e => info (LambdaFailed e)
            end
        end.
Proof.
  destruct (assume_role_returns w) as (client & t0 & Hrole).
  destruct (fetch_config_returns w client) as (config & t1 & Hfetch).
  exists client, t0, config, t1. repeat split; try assumption.
  unfold lambda_handler, lambda_body.
  rewrite (bind_after _ _ _ _ Hrole), (bind_after _ _ _ _ Hfetch).
  rewrite !try_except_after, after_after.
  rewrite (bind_after _ _ tt [PrintConfig config] eq_refl).
  rewrite try_except_after, after_after, <- app_assoc. f_equal.
  destruct config as [cfg|]; [|reflexivity].
  cbn [unpack]. rewrite bind_ret_l. unfold lift.
  destruct (is_weekday _ _) as [[|]|e]; [| reflexivity | reflexivity].
  rewrite (bind_after _ _ true [] eq_refl), after_nil.
  now rewrite (bind_after _ _ _ _ Hrole), try_except_after.
Qed.

(** C7.  For a half-day string made of an hours part without [x], an [x]
    and a days part of decimal digits, [is_weekday day] answers whether
    [day <= days - 1]; [is_weekday 0 "12x5"] is true and
    [is_weekday 5 "12x5"] is false.  In the entry point the loop over the
    accounts runs only when the answer is true: when it is false the
    invocation ends with the line about weekends, and when there is no
    configuration or [is_weekday] raises, with the line of the outermost
    handler. *)
Theorem is_weekday_gates_the_accounts :
  (forall (day : Z) (hours : string) (d : Decimal.uint),
      has_char "x" hours = false -> d <> Decimal.Nil ->
      is_weekday day (hours ++ String "x" (NilEmpty.string_of_uint d))%string
      = Return (day <=? Z.of_uint d - 1)) /\
  is_weekday 0 "12x5" = Return true /\
  is_weekday 5 "12x5" = Return false /\
  (forall w : World,
      exists (client : option StsClient) (t0 : list Event)
             (config : option Config) (t1 : list Event),
        assume_role w = (Return client, t0) /\
        fetch_config_from_s3 w client = (Return config, t1) /\
        lambda_handler w
        = after (t0 ++ t1 ++ [PrintConfig config])
            match config with
            | None => info (LambdaFailed TypeError)
            | Some cfg =>
                match is_weekday (weekday (clock w 0))
                                 (halfDay (schedule cfg)) with
                | Return true => after t0 (account_loop w client cfg)
                | Return false => info NotOnWeekends
                | Raise e => info (LambdaFailed e)
                end
            end).
Proof.
  split; [exact is_weekday_decimal|].
  split; [reflexivity|]. split; [reflexivity|].
  exact lambda_handler_cases.
Qed.

(** Friday of a five-day week. *)
Lemma is_weekday_gates_the_accounts_witness :
  is_weekday 4 "12x5" = Return true.
Proof.
  apply (proj1 is_weekday_gates_the_accounts 4 "12" (Decimal.D5 Decimal.Nil)).
  - reflexivity.
  - discriminate.
Defined.

(** ** The classifier and its caller, in full *)

Lemma categorise_instances_run (data : Data) (config : Config)
    (user : option Ec2Client) :
  categorise_instances data config user
  = match data with
    | Falsy => (Return None, [])
    | Response rs =>
        match classify rs config user with
        | (Return l, t) =>
            (Return (Some (action_required l, no_action_required l)), t)
        | (Raise e, t) => (Return None, t ++ [LogInfo (CategorisationFailed e)])
        end
    end.
Proof.
  unfold categorise_instances. destruct data as [|rs]; [reflexivity|].
  destruct (classify rs config user) as [[l|e] t]; cbn; [|reflexivity].
  now rewrite app_nil_r.
Qed.

Lemma get_instance_ids_run (c : Ec2Client) (config : Config)
    (state : string) (now : datetime) (tz : string) :
  get_instance_ids (Some c) config state now tz
  = match describe_instances c state with
    | Raise e =>
        (Return None,
         [Api (DescribeInstances state); LogInfo (DescribeFailed e)])
    | Return data =>
        match categorise_instances data config (Some c) with
        | (Return (Some lists), t) =>
            (Return (Some lists),
             Api (DescribeInstances state) :: LogInfo (DateIs now tz) :: t)
        | (Return None, t) =>
            (Return None,
             Api (DescribeInstances state) :: LogInfo (DateIs now tz) ::
             t ++ [LogInfo (DescribeFailed TypeError)])
        | (Raise e, t) =>
            (Return None,
             Api (DescribeInstances state) :: LogInfo (DateIs now tz) ::
             t ++ [LogInfo (DescribeFailed e)])
        end
    end.
Proof.
  unfold get_instance_ids, attr, call, info, emit.
  rewrite bind_ret_l.
  destruct (describe_instances c state) as [data|e]; [|reflexivity].
  rewrite bind_return. cbn [outcome events fst snd].
  destruct (categorise_instances data config (Some c))
    as [[[[ar nar]|]|e] t]; cbn; rewrite ?app_nil_r; reflexivity.
Qed.

(** Every service call of a classification pass is a stop call. *)
Lemma classify_calls_only_stop (rs : list Reservation) (config : Config)
    (user : option Ec2Client) :
  api_calls (events (classify rs config user))
  = map StopInstances (stop_calls (events (classify rs config user))).
Proof.
  pose (only_stops := fun t : list Event =>
                        api_calls t = map StopInstances (stop_calls t)).
  assert (Hvisit : forall r i tag_list l t,
             In i (Instances r) -> only_stops t ->
             only_stops
               (t ++ events (visit_instance config user r (tag_list, l) i))).
  { intros r i tag_list l t Hi Ht.
    destruct (lead_of_member r i Hi) as [lead Hlead].
    rewrite (visit_instance_run _ _ _ _ _ _ _ Hlead).
    destruct (Tags i) as [tags|]; cbv zeta;
      [|cbn; now rewrite app_nil_r].
    destruct (list_mem "NoShutdown" _); [cbn; now rewrite app_nil_r|].
    destruct (list_mem "Schedule" _); [cbn; now rewrite app_nil_r|].
    destruct (str_contains "True" _); [|cbn; now rewrite app_nil_r].
    cbn [events snd]. unfold only_stops in *.
    rewrite api_calls_app, stop_calls_app, map_app, Ht. f_equal.
    destruct user as [c|].
    - now rewrite stop_untagged_api_calls, stop_untagged_stop_calls.
    - reflexivity. }
  pose proof (for_each_run rs (visit_reservation config user)
                (fun _ t => only_stops t) only_stops) as Hloop.
  assert (Hgoal : match classify rs config user with
                  | (Return _, t) => only_stops ([] ++ t)
                  | (Raise _, t) => only_stops ([] ++ t)
                  end).
  { unfold classify. apply Hloop; [|reflexivity].
    intros l t r Hr Ht. unfold visit_reservation.
    pose proof (for_each_run (Instances r) (visit_instance config user r)
                  (fun _ t => only_stops t) only_stops) as Hinner.
    assert (Hin : match for_each (Instances r)
                          (visit_instance config user r) ([], l) with
                  | (Return _, t') => only_stops (t ++ t')
                  | (Raise _, t') => only_stops (t ++ t')
                  end).
    { apply Hinner; [|exact Ht].
      intros [tag_list l1] t2 i Hi Ht2.
      specialize (Hvisit r i tag_list l1 t2 Hi Ht2). unfold events in Hvisit.
      now destruct (visit_instance _ _ _ _ _) as [[st|e] t3]. }
    destruct (for_each (Instances r) _ ([], l)) as [[st|e] t1]; [|exact Hin].
    rewrite bind_return. cbn. now rewrite app_nil_r. }
  unfold events. now destruct (classify rs config user) as [[l|e] t].
Qed.

(** ** The dispatcher *)

Lemma action_on_instances_run (c : Ec2Client) (m : Method)
    (ids : list string) (action : string) :
  action_on_instances c m ids action
  = (Return tt,
     match ids with
     | [] => [LogInfo (NoActionTaken 0); LogInfo (NoActionTaken 1);
              LogInfo (NoActionTaken 2); LogInfo (NoActionTaken 3)]
     | _ :: _ =>
         [LogInfo (ActionBegins action); LogInfo (IdList ids);
          Api (method_call m ids)] ++
         match method_answer c m ids with
         | Return _ => [LogInfo (ActionFinished action)]
         | Raise e => [LogError (ActionFailed action e)]
         end
     end).
Proof.
  unfold action_on_instances. destruct ids as [|id ids]; [reflexivity|].
  destruct m; cbn; [destruct (start_instances c (id :: ids)) as [[]|e]
                   |destruct (stop_instances c (id :: ids)) as [[]|e]];
    reflexivity.
Qed.

Lemma action_on_instances_calls (c : Ec2Client) (m : Method)
    (ids : list string) (action : string) :
  api_calls (events (action_on_instances c m ids action))
  = match ids with
    | [] => []
    | _ :: _ => [method_call m ids]
    end.
Proof.
  rewrite action_on_instances_run. destruct ids as [|id ids]; [reflexivity|].
  cbn [events snd]. rewrite api_calls_app. cbn.
  now destruct (method_answer c m (id :: ids)).
Qed.

Lemma get_instance_ids_starts_with_the_query (c : Ec2Client)
    (config : Config) (state : string) (now : datetime) (tz : string) :
  exists r rest,
    get_instance_ids (Some c) config state now tz
    = (Return r, Api (DescribeInstances state) :: rest).
Proof.
  rewrite get_instance_ids_run.
  destruct (describe_instances c state) as [data|e]; [|eauto].
  destruct (categorise_instances data config (Some c))
    as [[[lists|]|e] t]; eauto.
Qed.

(** The calls made while the instances are listed and classified: the
    query, then stop calls only. *)
Lemma get_instance_ids_calls (c : Ec2Client) (config : Config)
    (state : string) (now : datetime) (tz : string)
    (lists : list string * list string) (t : list Event) :
  get_instance_ids (Some c) config state now tz = (Return (Some lists), t) ->
  api_calls t = DescribeInstances state :: map StopInstances (stop_calls t).
Proof.
  rewrite get_instance_ids_run.
  destruct (describe_instances c state) as [data|e]; [|discriminate].
  rewrite categorise_instances_run. destruct data as [|rs]; [discriminate|].
  pose proof (classify_calls_only_stop rs config (Some c)) as Hcalls.
  destruct (classify rs config (Some c)) as [[l|e] t']; [|discriminate].
  intros [= _ <-]. cbn in *. now rewrite Hcalls.
Qed.

(** What [start_stop] does once the instances are listed and classified:
    the action on [action_required], and nothing after it. *)
Lemma start_stop_then_acts (c : Ec2Client) (config : Config)
    (state : string) (now : datetime) (tz : string) (m : Method)
    (action : string) (ar nar : list string) (t : list Event) :
  get_instance_ids (Some c) config state now tz
  = (Return (Some (ar, nar)), t) ->
  (pair <- get_instance_ids (Some c) config state now tz ;;
   '(action_required_ids, no_action_required_ids) <- unpack pair ;;
   c' <- attr (Some c) ;;
   action_on_instances c' m action_required_ids action)
  = (Return tt, t ++ events (action_on_instances c m ar action)).
Proof.
  intros ->. rewrite bind_return. cbn [unpack attr].
  rewrite !bind_ret_l. now rewrite action_on_instances_run.
Qed.

(** One arm of the dispatcher, for a client: the four ways the listing
    and the classification can end. *)
Lemma dispatch_with_client (c : Ec2Client) (config : Config)
    (state : string) (now : datetime) (tz : string) (m : Method)
    (action : string) :
  let run := dispatch (Some c) config state now tz m action in
  match describe_instances c state with
  | Return (Response rs) =>
      match classify rs config (Some c) with
      | (Return l, t) =>
          run = (Return tt,
                 Api (DescribeInstances state) :: LogInfo (DateIs now tz) ::
                 t ++ events (action_on_instances c m (action_required l)
                                                  action)) /\
          api_calls (events run)
          = DescribeInstances state ::
            map StopInstances (stop_calls t) ++
            match action_required l with
            | [] => []
            | _ :: _ => [method_call m (action_required l)]
            end
      | (Raise e, t) =>
          run = (Raise TypeError,
                 Api (DescribeInstances state) :: LogInfo (DateIs now tz) ::
                 t ++ [LogInfo (CategorisationFailed e);
                       LogInfo (DescribeFailed TypeError)]) /\
          api_calls (events run)
          = DescribeInstances state :: map StopInstances (stop_calls t)
      end
  | Return Falsy =>
      run = (Raise TypeError,
             [Api (DescribeInstances state); LogInfo (DateIs now tz);
              LogInfo (DescribeFailed TypeError)])
  | Raise e =>
      run = (Raise TypeError,
             [Api (DescribeInstances state); LogInfo (DescribeFailed e)])
  end.
Proof.
  cbv zeta. unfold dispatch. rewrite get_instance_ids_run.
  destruct (describe_instances c state) as [[|rs]|e]; [reflexivity| |reflexivity].
  rewrite categorise_instances_run.
  pose proof (classify_calls_only_stop rs config (Some c)) as Hcalls.
  destruct (classify rs config (Some c)) as [[l|e] t];
    cbn [events snd] in Hcalls.
  - rewrite bind_return. cbn [unpack attr]. rewrite !bind_ret_l.
    assert (Hrun : (outcome (action_on_instances c m (action_required l)
                                                 action),
                    (Api (DescribeInstances state) ::
                     LogInfo (DateIs now tz) :: t) ++
                    events (action_on_instances c m (action_required l)
                                                action))
                   = (Return tt,
                      Api (DescribeInstances state) ::
                      LogInfo (DateIs now tz) ::
                      t ++ events (action_on_instances
                                     c m (action_required l) action))).
    { now rewrite action_on_instances_run. }
    rewrite Hrun. split; [reflexivity|].
    cbn [events snd].
    change (Api (DescribeInstances state) :: LogInfo (DateIs now tz) ::
            t ++ events (action_on_instances c m (action_required l) action))
      with ([Api (DescribeInstances state); LogInfo (DateIs now tz)] ++
            t ++ events (action_on_instances c m (action_required l) action)).
    rewrite !api_calls_app, Hcalls, action_on_instances_calls. reflexivity.
  - rewrite bind_return. cbn [unpack]. unfold raise. rewrite bind_raise.
    cbn [outcome events fst snd]. rewrite app_nil_r, <- app_assoc.
    split; [reflexivity|].
    change (Api (DescribeInstances state) :: LogInfo (DateIs now tz) ::
            t ++ [LogInfo (CategorisationFailed e)] ++
                 [LogInfo (DescribeFailed TypeError)])
      with ([Api (DescribeInstances state); LogInfo (DateIs now tz)] ++
            t ++ [LogInfo (CategorisationFailed e);
                  LogInfo (DescribeFailed TypeError)]).
    rewrite !api_calls_app, Hcalls. cbn. now rewrite app_nil_r.
Qed.

(** C3 (as amended).  With [start < stop]: before [start] the dispatcher
    does nothing, with or without a client.  Between [start] and [stop]
    it works on the instances in state ["stopped"] with [start_instances],
    from [stop] on on those in state ["running"] with [stop_instances]:
    without a client it sends no request and raises; with a client it
    sends the query and, when the query is answered with reservations
    that the classifier can classify, calls the method once on the
    [action_required] list of the classifier (no call when that list is
    empty), the only other calls being the stop calls the classifier
    makes for untagged instances; when the query is refused or answers
    nothing, or the classification raises, it calls neither method and
    raises [TypeError]. *)
Theorem start_stop_follows_the_clock :
  forall (now : datetime) (start stop : time) (config : Config)
         (tz : string),
    start < stop ->
    (forall user,
        time_of now < start ->
        start_stop now start stop user config tz = (Return tt, [])) /\
    (forall state m action,
        (start <= time_of now < stop /\
         state = "stopped" /\ m = StartMethod /\ action = "Start") \/
        (stop <= time_of now /\
         state = "running" /\ m = StopMethod /\ action = "Stop") ->
        start_stop now start stop None config tz
        = (Raise TypeError, [LogInfo (DescribeFailed AttributeError)]) /\
        forall c,
          let run := start_stop now start stop (Some c) config tz in
          match describe_instances c state with
          | Return (Response rs) =>
              match classify rs config (Some c) with
              | (Return l, t) =>
                  run = (Return tt,
                         Api (DescribeInstances state) ::
                         LogInfo (DateIs now tz) ::
                         t ++ events (action_on_instances
                                        c m (action_required l) action)) /\
                  api_calls (events run)
                  = DescribeInstances state ::
                    map StopInstances (stop_calls t) ++
                    match action_required l with
                    | [] => []
                    | _ :: _ => [method_call m (action_required l)]
                    end
              | (Raise e, t) =>
                  run = (Raise TypeError,
                         Api (DescribeInstances state) ::
                         LogInfo (DateIs now tz) ::
                         t ++ [LogInfo (CategorisationFailed e);
                               LogInfo (DescribeFailed TypeError)]) /\
                  api_calls (events run)
                  = DescribeInstances state ::
                    map StopInstances (stop_calls t)
              end
          | Return Falsy =>
              run = (Raise TypeError,
                     [Api (DescribeInstances state);
                      LogInfo (DateIs now tz);
                      LogInfo (DescribeFailed TypeError)])
          | Raise e =>
              run = (Raise TypeError,
                     [Api (DescribeInstances state);
                      LogInfo (DescribeFailed e)])
          end).
Proof.
  intros now start stop config tz Horder. split.
  - intros user Hearly. unfold start_stop.
    assert (Hout : (start <=? time_of now) && (time_of now <? stop) = false).
    { apply andb_false_intro1. apply Z.leb_gt. lia. }
    assert (Hnot : (stop <=? time_of now) = false) by (apply Z.leb_gt; lia).
    now rewrite Hout, Hnot.
  - intros state m action Harm.
    assert (Hrun : forall user,
               start_stop now start stop user config tz
               = dispatch user config state now tz m action).
    { intros user. unfold start_stop, dispatch.
      destruct Harm as [(Hwin & -> & -> & ->)|(Hlate & -> & -> & ->)].
      - assert (Hin : (start <=? time_of now) && (time_of now <? stop)
                      = true).
        { apply andb_true_intro.
          split; [apply Z.leb_le | apply Z.ltb_lt]; lia. }
        now rewrite Hin.
      - assert (Hout : (start <=? time_of now) && (time_of now <? stop)
                       = false).
        { apply andb_false_intro2. apply Z.ltb_ge. lia. }
        assert (Hle : (stop <=? time_of now) = true) by now apply Z.leb_le.
        now rewrite Hout, Hle. }
    split; [now rewrite Hrun|].
    intros c. cbv zeta. rewrite Hrun.
    exact (dispatch_with_client c config state now tz m action).
Qed.

(** Eight in the morning, with instances running from seven to nineteen. *)
Lemma start_stop_follows_the_clock_witness :
  start_stop SampleDay.morning SampleDay.seven SampleDay.nineteen
             (Some (Sample.client SampleDay.snapshot)) Sample.config "GMT"
  = (Return tt,
     [Api (DescribeInstances "stopped");
      LogInfo (DateIs SampleDay.morning "GMT");
      LogInfo (ActionBegins "Start"); LogInfo (IdList ["i-a"]);
      Api (StartInstances ["i-a"]); LogInfo (ActionFinished "Start")]).
Proof.
  assert (Horder : SampleDay.seven < SampleDay.nineteen) by reflexivity.
  assert (Hwin : SampleDay.seven <= time_of SampleDay.morning
                 < SampleDay.nineteen).
  { vm_compute. split; [discriminate | reflexivity]. }
  destruct (start_stop_follows_the_clock
              SampleDay.morning SampleDay.seven SampleDay.nineteen
              Sample.config "GMT" Horder) as [_ Harm].
  destruct (Harm "stopped" StartMethod "Start"
                 (or_introl (conj Hwin (conj eq_refl (conj eq_refl eq_refl)))))
    as [_ Hclient].
  exact (proj1 (Hclient (Sample.client SampleDay.snapshot))).
Defined.

(** C3, as stated, fails.  With an instance without tags listed before
    the half-day instance, the dispatcher's calls in the morning are the
    query, a stop of the instance without tags and the start of the
    half-day instance, and in the evening two stops, although
    [action_required] holds the half-day instance only.  With a listing
    that cannot be classified, the query is followed by no start at all. *)
Lemma untagged_instances_are_stopped_besides :
  outcome (classify SampleMixed.listing Sample.config (Some SampleMixed.ec2))
  = Return {| action_required := ["i-a"]; no_action_required := [];
              untagged_instances := ["i-u"] |} /\
  api_calls (events (start_stop SampleDay.morning SampleDay.seven
                                SampleDay.nineteen (Some SampleMixed.ec2)
                                Sample.config "GMT"))
  = [DescribeInstances "stopped"; StopInstances ["i-u"];
     StartInstances ["i-a"]] /\
  api_calls (events (start_stop SampleDay.evening SampleDay.seven
                                SampleDay.nineteen (Some SampleMixed.ec2)
                                Sample.config "GMT"))
  = [DescribeInstances "running"; StopInstances ["i-u"];
     StopInstances ["i-a"]] /\
  outcome (start_stop SampleDay.morning SampleDay.seven SampleDay.nineteen
                      (Some SampleFailure.ec2) Sample.config "GMT")
  = Raise TypeError /\
  api_calls (events (start_stop SampleDay.morning SampleDay.seven
                                SampleDay.nineteen (Some SampleFailure.ec2)
                                Sample.config "GMT"))
  = [DescribeInstances "stopped"; StopInstances ["i-a"]].
Proof.
  split; [reflexivity|]. split; [reflexivity|]. split; [reflexivity|].
  split; reflexivity.
Qed.

(** ** A classification that raises *)

Lemma lambda_handler_returns (w : World) :
  outcome (lambda_handler w) = Return tt.
Proof.
  unfold lambda_handler.
  now destruct (lambda_body w) as [[[]|e] t].
Qed.

Lemma start_stop_without_lists (c : Ec2Client) (config : Config)
    (now : datetime) (start stop : time) (tz state : string)
    (t : list Event) :
  (start <= time_of now < stop /\ state = "stopped") \/
  (stop <= time_of now /\ state = "running") ->
  get_instance_ids (Some c) config state now tz = (Return None, t) ->
  start_stop now start stop (Some c) config tz = (Raise TypeError, t).
Proof.
  intros [[Hwin ->]|[Hlate ->]] Hget; unfold start_stop.
  - assert (Hin : (start <=? time_of now) && (time_of now <? stop) = true).
    { apply andb_true_intro. split; [apply Z.leb_le | apply Z.ltb_lt]; lia. }
    rewrite Hin, Hget, bind_return. cbn. now rewrite app_nil_r.
  - assert (Hout : (start <=? time_of now) && (time_of now <? stop) = false).
    { apply andb_false_intro2. apply Z.ltb_ge. lia. }
    assert (Hle : (stop <=? time_of now) = true) by now apply Z.leb_le.
    rewrite Hout, Hle, Hget, bind_return. cbn. now rewrite app_nil_r.
Qed.

Lemma process_account_raises (w : World) (client : option StsClient)
    (config : Config) (tick : nat) (role_arn account_number name : string)
    (ec2_user : option Ec2Client) (start stop : time) (now : datetime)
    (tz : string) (tu tc ts : list Event) (x : Exn) :
  index (split_on ":" role_arn) 4 = Return account_number ->
  create_temp_user w client role_arn = (Return ec2_user, tu) ->
  convert_to_datetime (clock w) tick (times config)
  = (Return (Some (start, stop, now, tz)), tc) ->
  dict_get (account_names config) account_number = Return name ->
  start_stop now start stop ec2_user config tz = (Raise x, ts) ->
  process_account w client config tick role_arn
  = (Raise x, tu ++ tc ++ [LogInfo (LambdaStarted name)] ++ ts).
Proof.
  intros Hindex Huser Hconv Hname Hrun. unfold process_account.
  rewrite Hindex, bind_lift_return.
  rewrite (bind_after _ _ _ _ Huser), (bind_after _ _ _ _ Hconv).
  cbn [unpack]. rewrite bind_ret_l, Hname, bind_lift_return.
  rewrite (bind_after _ _ tt [LogInfo (LambdaStarted name)] eq_refl).
  rewrite Hrun, bind_raise. unfold after. cbn [outcome events fst snd].
  now rewrite <- ?app_assoc.
Qed.

Lemma account_loop_aborts (w : World) (client : option StsClient)
    (config : Config) (pre post : list string) (a : string) (tick : nat)
    (t2 t3 : list Event) (x : Exn) :
  role_arns config = pre ++ a :: post ->
  for_each pre (process_account w client config) 1%nat = (Return tick, t2) ->
  process_account w client config tick a = (Raise x, t3) ->
  account_loop w client config
  = (Return tt, t2 ++ t3 ++ [LogInfo (LambdaFailed x)]).
Proof.
  intros Hroles Hpre Ha. unfold account_loop.
  rewrite Hroles, (for_each_abort _ _ _ _ _ _ _ _ _ Hpre Ha).
  rewrite bind_raise, try_except_raise. cbn. now rewrite <- app_assoc.
Qed.

(** C9 (as amended).  When the classification of the listed instances
    raises, the classifier logs the error and returns no pair.  Its
    caller [get_instance_ids] fails to take the absent pair apart, catches
    that error itself, logs it and returns no pair either.  The
    dispatcher, which has no handler, raises when it takes that absent
    pair apart, and so does the processing of the account.  That error
    is caught by the handler of the entry point, which logs it: the
    invocation returns, and the accounts that follow in the configuration
    are not processed. *)
Theorem classification_failure_ends_the_invocation :
  forall (config : Config) (c : Ec2Client) (rs : list Reservation)
         (e : Exn) (tcls : list Event),
    classify rs config (Some c) = (Raise e, tcls) ->
    categorise_instances (Response rs) config (Some c)
    = (Return None, tcls ++ [LogInfo (CategorisationFailed e)]) /\
    (forall (state : string) (now : datetime) (tz : string),
        describe_instances c state = Return (Response rs) ->
        let t := Api (DescribeInstances state) :: LogInfo (DateIs now tz) ::
                 tcls ++ [LogInfo (CategorisationFailed e);
                          LogInfo (DescribeFailed TypeError)] in
        get_instance_ids (Some c) config state now tz = (Return None, t) /\
        forall start stop : time,
          (start <= time_of now < stop /\ state = "stopped") \/
          (stop <= time_of now /\ state = "running") ->
          start_stop now start stop (Some c) config tz = (Raise TypeError, t)) /\
    (forall (w : World) (client : option StsClient) (tick : nat)
            (role_arn account_number name : string)
            (start stop : time) (now : datetime) (tz : string)
            (tu tc ts : list Event) (x : Exn),
        index (split_on ":" role_arn) 4 = Return account_number ->
        create_temp_user w client role_arn = (Return (Some c), tu) ->
        convert_to_datetime (clock w) tick (times config)
        = (Return (Some (start, stop, now, tz)), tc) ->
        dict_get (account_names config) account_number = Return name ->
        start_stop now start stop (Some c) config tz = (Raise x, ts) ->
        process_account w client config tick role_arn
        = (Raise x, tu ++ tc ++ [LogInfo (LambdaStarted name)] ++ ts)) /\
    (forall w : World, outcome (lambda_handler w) = Return tt) /\
    (forall (w : World) (client : option StsClient) (t0 t1 : list Event)
            (pre post : list string) (a : string) (tick : nat)
            (t2 t3 : list Event) (x : Exn),
        assume_role w = (Return client, t0) ->
        fetch_config_from_s3 w client = (Return (Some config), t1) ->
        is_weekday (weekday (clock w 0)) (halfDay (schedule config))
        = Return true ->
        role_arns config = pre ++ a :: post ->
        for_each pre (process_account w client config) 1%nat
        = (Return tick, t2) ->
        process_account w client config tick a = (Raise x, t3) ->
        lambda_handler w
        = (Return tt,
           t0 ++ t1 ++ [PrintConfig (Some config)] ++ t0 ++ t2 ++ t3 ++
           [LogInfo (LambdaFailed x)])).
Proof.
  intros config c rs e tcls Hcls.
  assert (Hcat : categorise_instances (Response rs) config (Some c)
                 = (Return None, tcls ++ [LogInfo (CategorisationFailed e)])).
  { now rewrite categorise_instances_run, Hcls. }
  split; [exact Hcat|]. split; [|split; [|split]].
  - intros state now tz Hdescribe. cbv zeta.
    assert (Hget : get_instance_ids (Some c) config state now tz
                   = (Return None,
                      Api (DescribeInstances state) :: LogInfo (DateIs now tz) ::
                      tcls ++ [LogInfo (CategorisationFailed e);
                               LogInfo (DescribeFailed TypeError)])).
    { rewrite get_instance_ids_run, Hdescribe, Hcat.
      now rewrite <- app_assoc. }
    split; [exact Hget|].
    intros start stop Hactive.
    exact (start_stop_without_lists _ _ _ _ _ _ _ _ Hactive Hget).
  - intros w client tick role_arn account_number name start stop now tz
           tu tc ts x. apply process_account_raises.
  - exact lambda_handler_returns.
  - intros w client t0 t1 pre post a tick t2 t3 x
           Hrole Hfetch Hday Hroles Hpre Ha.
    destruct (lambda_handler_cases w)
      as (client' & t0' & config' & t1' & Hrole' & Hfetch' & ->).
    rewrite Hrole in Hrole'. injection Hrole' as <- <-.
    rewrite Hfetch in Hfetch'. injection Hfetch' as <- <-.
    rewrite Hday, (account_loop_aborts _ _ _ _ _ _ _ _ _ _ Hroles Hpre Ha).
    unfold after. cbn [outcome events fst snd].
    now rewrite <- ?app_assoc.
Qed.

(** Two accounts; the first lists an instance without a [Tags] key, and
    the second is never reached. *)
Lemma classification_failure_ends_the_invocation_witness :
  lambda_handler SampleFailure.world
  = (Return tt,
     [Api (AssumeRole config_role "Ec2-Start-Stop-Lambda-Session-Role");
      Api (GetObject "hermes-sharedservices-data"
                     "Lambdas/start-stop/config.json");
      LogInfo FetchingConfig;
      PrintConfig (Some Sample.config);
      Api (AssumeRole SampleFailure.first_account
                      "Lambda-Start-Stop-functionality");
      LogInfo (LambdaStarted "dev");
      Api (DescribeInstances "running");
      LogInfo (DateIs SampleDay.evening "GMT");
      LogInfo StoppingUntagged; LogInfo (IdList ["i-a"]);
      Api (StopInstances ["i-a"]);
      LogInfo (CategorisationFailed (KeyError "Tags"));
      LogInfo (DescribeFailed TypeError);
      LogInfo (LambdaFailed TypeError)]).
Proof.
  destruct (classification_failure_ends_the_invocation
              Sample.config SampleFailure.ec2 SampleFailure.untagged_listing
              (KeyError "Tags")
              [LogInfo StoppingUntagged; LogInfo (IdList ["i-a"]);
               Api (StopInstances ["i-a"])]
              eq_refl) as (_ & _ & _ & _ & Hends).
  exact (Hends SampleFailure.world (Some SampleFailure.sts) []
           [Api (AssumeRole config_role "Ec2-Start-Stop-Lambda-Session-Role");
            Api (GetObject "hermes-sharedservices-data"
                           "Lambdas/start-stop/config.json");
            LogInfo FetchingConfig]
           [] [SampleFailure.second_account] SampleFailure.first_account
           1%nat []
           [Api (AssumeRole SampleFailure.first_account
                            "Lambda-Start-Stop-functionality");
            LogInfo (LambdaStarted "dev");
            Api (DescribeInstances "running");
            LogInfo (DateIs SampleDay.evening "GMT");
            LogInfo StoppingUntagged; LogInfo (IdList ["i-a"]);
            Api (StopInstances ["i-a"]);
            LogInfo (CategorisationFailed (KeyError "Tags"));
            LogInfo (DescribeFailed TypeError)]
           TypeError
           eq_refl eq_refl eq_refl eq_refl eq_refl eq_refl).
Defined.

(** C9, as stated, fails: the error raised by taking apart the absent
    result of the classifier does not reach the handler of the entry
    point.  The caller [get_instance_ids] catches it, logs it and
    returns. *)
Lemma caller_catches_the_failed_unpacking :
  outcome (classify SampleFailure.untagged_listing Sample.config
                    (Some SampleFailure.ec2))
  = Raise (KeyError "Tags") /\
  get_instance_ids (Some SampleFailure.ec2) Sample.config "running"
                   SampleDay.evening "GMT"
  = (Return None,
     [Api (DescribeInstances "running");
      LogInfo (DateIs SampleDay.evening "GMT");
      LogInfo StoppingUntagged; LogInfo (IdList ["i-a"]);
      Api (StopInstances ["i-a"]);
      LogInfo (CategorisationFailed (KeyError "Tags"));
      LogInfo (DescribeFailed TypeError)]).
Proof. split; reflexivity. Qed.

(** * Further properties of the script *)

(** ** Outcomes of sequences and loops *)

Lemma outcome_bind {A B} (m : W A) (k : A -> W B) :
  outcome (bind m k)
  = match outcome m with
    | Return a => outcome (k a)
    | Raise e => Raise e
    end.
Proof.
  destruct m as [[a|e] t]; [|reflexivity]. now rewrite bind_return.
Qed.

Lemma events_bind {A B} (m : W A) (k : A -> W B) :
  events (bind m k)
  = events m ++ match outcome m with
                | Return a => events (k a)
                | Raise _ => []
                end.
Proof.
  destruct m as [[a|e] t]; cbn [outcome events fst snd].
  - now rewrite bind_return.
  - cbn. now rewrite app_nil_r.
Qed.

Lemma in_api_calls (c : ApiCall) (t : list Event) :
  In (Api c) t <-> In c (api_calls t).
Proof.
  unfold api_calls. rewrite in_flat_map. split.
  - intros H. exists (Api c). split; [assumption | now left].
  - intros (ev & Hin & Hc). destruct ev; try contradiction.
    destruct Hc as [<-|[]]. assumption.
Qed.

(** X1.  [action_on_instances] never raises.  It calls the method once,
    on the whole list, when the list is not empty, and makes no call when
    it is empty.  A refused call is reported by a line at error level,
    the last of the events, and the line that reports success is not
    written. *)
Theorem action_on_instances_reports_refusals :
  forall (c : Ec2Client) (m : Method) (ids : list string) (action : string),
    let run := action_on_instances c m ids action in
    outcome run = Return tt /\
    api_calls (events run)
    = match ids with [] => [] | _ :: _ => [method_call m ids] end /\
    (forall e, ids <> [] -> method_answer c m ids = Raise e ->
               last (events run) (LogInfo FetchingConfig)
               = LogError (ActionFailed action e) /\
               ~ In (LogInfo (ActionFinished action)) (events run)).
Proof.
  intros c m ids action. cbv zeta. split; [|split].
  - now rewrite action_on_instances_run.
  - apply action_on_instances_calls.
  - intros e Hids Hanswer. rewrite action_on_instances_run.
    destruct ids as [|id ids]; [congruence|].
    rewrite Hanswer. cbn. split; [reflexivity|].
    intros [H|[H|[H|[H|[]]]]]; discriminate.
Qed.

(** A refused start of one instance. *)
Lemma action_on_instances_reports_refusals_witness :
  last (events (action_on_instances SampleRefusal.refusing StartMethod ["i-a"]
                                    "Start"))
       (LogInfo FetchingConfig)
  = LogError (ActionFailed "Start" (ClientError "denied")).
Proof.
  apply (proj2 (proj2 (action_on_instances_reports_refusals
                         SampleRefusal.refusing StartMethod ["i-a"] "Start"))
               (ClientError "denied")).
  - discriminate.
  - reflexivity.
Defined.

(** X2.  [stop_untagged_instances] never raises.  With a client it makes
    one stop call on the list it is given, whatever the list and whether
    or not the call is refused; without a client it makes no call. *)
Theorem stop_untagged_instances_swallows_errors :
  forall (ids : list string) (user : option Ec2Client),
    outcome (stop_untagged_instances ids user) = Return tt /\
    api_calls (events (stop_untagged_instances ids user))
    = match user with
      | Some _ => [StopInstances ids]
      | None => []
      end.
Proof.
  intros ids user. split; [apply stop_untagged_outcome|].
  destruct user as [c|]; [apply stop_untagged_api_calls | reflexivity].
Qed.

(** ** When the classification succeeds *)

Section Success.
Variable config : Config.
Variable user : option Ec2Client.

Lemma visit_instance_outcome (r : Reservation) (lead : string)
    (st : list string * Lists) (i : Instance) :
  lead_id r = Return lead ->
  (has_tags i = true ->
   exists st', outcome (visit_instance config user r st i) = Return st') /\
  (has_tags i = false ->
   visit_instance config user r st i = (Raise (KeyError "Tags"), [])).
Proof.
  intros Hlead. destruct st as [tag_list l].
  rewrite (visit_instance_run _ _ _ _ _ _ _ Hlead).
  unfold has_tags. destruct (Tags i) as [tags|].
  - split; [|discriminate]. intros _. cbv beta iota zeta.
    destruct (list_mem "NoShutdown" (tag_list ++ map Key tags));
      [now eexists|].
    destruct (list_mem "Schedule" (tag_list ++ map Key tags));
      [now eexists|].
    destruct (str_contains "True" (stop_untagged_instances_flag config));
      now eexists.
  - split; [discriminate|]. reflexivity.
Qed.

Lemma instances_loop_outcome (r : Reservation) (lead : string)
    (instances : list Instance) :
  lead_id r = Return lead ->
  forall st,
    (forallb has_tags instances = true ->
     exists st',
       outcome (for_each instances (visit_instance config user r) st)
       = Return st') /\
    (forallb has_tags instances = false ->
     outcome (for_each instances (visit_instance config user r) st)
     = Raise (KeyError "Tags")).
Proof.
  intros Hlead. induction instances as [|i rest IH]; intros st.
  - split; [intros _; now eexists | discriminate].
  - cbn [forallb for_each]. rewrite outcome_bind.
    destruct (visit_instance_outcome r lead st i Hlead) as [Hyes Hno].
    destruct (has_tags i); cbn [andb].
    + destruct (Hyes eq_refl) as [st' ->]. apply IH.
    + split; [discriminate|]. intros _. now rewrite (Hno eq_refl).
Qed.

Lemma visit_reservation_outcome (l : Lists) (r : Reservation) :
  (forallb has_tags (Instances r) = true ->
   exists l', outcome (visit_reservation config user l r) = Return l') /\
  (forallb has_tags (Instances r) = false ->
   outcome (visit_reservation config user l r) = Raise (KeyError "Tags")).
Proof.
  unfold visit_reservation. rewrite outcome_bind.
  destruct (Instances r) as [|first rest] eqn:Hinst.
  - split; [intros _; now eexists | discriminate].
  - destruct (lead_of_member r first) as [lead Hlead].
    { rewrite Hinst. now left. }
    rewrite <- Hinst.
    destruct (instances_loop_outcome r lead (Instances r) Hlead ([], l))
      as [Hyes Hno].
    split; intros H.
    + destruct (Hyes H) as [st' ->]. now eexists.
    + now rewrite (Hno H).
Qed.

Lemma reservations_loop_outcome (rs : list Reservation) :
  forall l,
    (all_tagged rs = true ->
     exists l',
       outcome (for_each rs (visit_reservation config user) l) = Return l') /\
    (all_tagged rs = false ->
     outcome (for_each rs (visit_reservation config user) l)
     = Raise (KeyError "Tags")).
Proof.
  unfold all_tagged. induction rs as [|r rest IH]; intros l.
  - split; [intros _; now eexists | discriminate].
  - cbn [forallb for_each]. rewrite outcome_bind.
    destruct (visit_reservation_outcome l r) as [Hyes Hno].
    destruct (forallb has_tags (Instances r)); cbn [andb].
    + destruct (Hyes eq_refl) as [l' ->]. apply IH.
    + split; [discriminate|]. intros _. now rewrite (Hno eq_refl).
Qed.

End Success.

Lemma classification_tags_decide (rs : list Reservation) (config : Config)
    (user : option Ec2Client) :
    (all_tagged rs = true ->
     exists l,
       outcome (classify rs config user) = Return l /\
       outcome (categorise_instances (Response rs) config user)
       = Return (Some (action_required l, no_action_required l))) /\
    (all_tagged rs = false ->
     outcome (classify rs config user) = Raise (KeyError "Tags") /\
     outcome (categorise_instances (Response rs) config user) = Return None /\
     last (events (categorise_instances (Response rs) config user))
          (LogInfo FetchingConfig)
     = LogInfo (CategorisationFailed (KeyError "Tags"))).
Proof.
  destruct (reservations_loop_outcome config user rs no_lists) as [Hyes Hno].
  fold (classify rs config user) in Hyes, Hno.
  rewrite categorise_instances_run. split; intros H.
  - destruct (Hyes H) as [l Hl]. exists l. split; [exact Hl|].
    destruct (classify rs config user) as [[l'|e] t]; [|discriminate].
    cbn in Hl. now injection Hl as ->.
  - specialize (Hno H). split; [exact Hno|].
    destruct (classify rs config user) as [[l'|e] t]; [discriminate|].
    cbn in Hno. injection Hno as ->. split; [reflexivity|].
    cbn [events snd]. apply last_last.
Qed.


(** X3.  The classification succeeds exactly when every instance of the
    snapshot carries the [Tags] key.  If they all do, the classifier
    returns its two lists; if one does not, the loops stop with
    [KeyError 'Tags'], the classifier writes the line that reports it last
    and returns no lists. *)
Theorem classification_needs_every_tags_key :
  forall (rs : list Reservation) (config : Config)
         (user : option Ec2Client),
    (all_tagged rs = true ->
     exists l,
       outcome (classify rs config user) = Return l /\
       outcome (categorise_instances (Response rs) config user)
       = Return (Some (action_required l, no_action_required l))) /\
    (all_tagged rs = false ->
     outcome (classify rs config user) = Raise (KeyError "Tags") /\
     outcome (categorise_instances (Response rs) config user) = Return None /\
     last (events (categorise_instances (Response rs) config user))
          (LogInfo FetchingConfig)
     = LogInfo (CategorisationFailed (KeyError "Tags"))).
Proof. exact classification_tags_decide. Qed.

(** The listing whose second instance has no [Tags] key. *)
Lemma classification_needs_every_tags_key_witness :
  outcome (categorise_instances (Response SampleFailure.untagged_listing)
                                Sample.config None)
  = Return None.
Proof.
  apply (proj2 (classification_needs_every_tags_key
                  SampleFailure.untagged_listing Sample.config None)).
  reflexivity.
Defined.

(** ** Reservations, one after the other *)

Section Reservations.
Variable config : Config.
Variable user : option Ec2Client.

(** Once [NoShutdown] is among the keys seen, every further instance of
    the reservation adds the lead identifier to [no_action_required]. *)
Lemma no_shutdown_stays (r : Reservation) (lead : string)
    (instances : list Instance) :
  lead_id r = Return lead ->
  forallb has_tags instances = true ->
  forall tag_list l,
    list_mem "NoShutdown" tag_list = true ->
    for_each instances (visit_instance config user r) (tag_list, l)
    = ret (tag_list ++ flat_map tag_keys instances,
           {| action_required := action_required l;
              no_action_required :=
                no_action_required l ++ repeat lead (List.length instances);
              untagged_instances := untagged_instances l |}).
Proof.
  intros Hlead. induction instances as [|i rest IH]; intros Hall tag_list l Hns.
  - cbn. rewrite !app_nil_r. now destruct l.
  - cbn [forallb] in Hall. apply andb_prop in Hall as [Hi Hrest].
    unfold has_tags in Hi. destruct (Tags i) as [tags|] eqn:Htags;
      [|discriminate].
    cbn [for_each flat_map List.length repeat].
    assert (Hns' : list_mem "NoShutdown" (tag_list ++ map Key tags) = true).
    { rewrite list_mem_app, Hns. reflexivity. }
    rewrite (visit_no_shutdown _ _ _ _ Hlead _ _ _ _ Htags Hns'), bind_ret_l.
    rewrite (IH Hrest _ _ Hns'). unfold tag_keys. rewrite Htags.
    cbn [add_no_action action_required no_action_required untagged_instances].
    now rewrite <- !app_assoc.
Qed.

Lemma lists_app_no_lists (l : Lists) : lists_app l no_lists = l.
Proof. destruct l. unfold lists_app. cbn. now rewrite !app_nil_r. Qed.

(** A visit that starts from longer lists ends with the same additions. *)
Lemma visit_instance_shift (r : Reservation) (lead : string)
    (l0 l : Lists) (tag_list : list string) (i : Instance) :
  lead_id r = Return lead ->
  outcome (visit_instance config user r (tag_list, lists_app l0 l) i)
  = match outcome (visit_instance config user r (tag_list, l) i) with
    | Return (keys, l') => Return (keys, lists_app l0 l')
    | Raise e => Raise e
    end.
Proof.
  intros Hlead. rewrite !(visit_instance_run _ _ _ _ _ _ _ Hlead).
  destruct (Tags i) as [tags|]; [|reflexivity]. cbv beta iota zeta.
  destruct (list_mem "NoShutdown" (tag_list ++ map Key tags)).
  { cbn. unfold lists_app. cbn. now rewrite app_assoc. }
  destruct (list_mem "Schedule" (tag_list ++ map Key tags)).
  { cbn. unfold lists_app. cbn. now rewrite !app_assoc. }
  destruct (str_contains "True" (stop_untagged_instances_flag config)).
  - cbn. unfold lists_app. cbn. now rewrite app_assoc.
  - reflexivity.
Qed.

Lemma instances_loop_shift (r : Reservation) (lead : string) (l0 : Lists)
    (instances : list Instance) :
  lead_id r = Return lead ->
  forall tag_list l,
    outcome (for_each instances (visit_instance config user r)
                      (tag_list, lists_app l0 l))
    = match outcome (for_each instances (visit_instance config user r)
                              (tag_list, l)) with
      | Return (keys, l') => Return (keys, lists_app l0 l')
      | Raise e => Raise e
      end.
Proof.
  intros Hlead. induction instances as [|i rest IH]; intros tag_list l.
  - reflexivity.
  - cbn [for_each]. rewrite !outcome_bind.
    rewrite (visit_instance_shift r lead l0 l tag_list i Hlead).
    destruct (outcome (visit_instance config user r (tag_list, l) i))
      as [[keys l']|e]; [apply IH | reflexivity].
Qed.

Lemma visit_reservation_shift (l0 l : Lists) (r : Reservation) :
  outcome (visit_reservation config user (lists_app l0 l) r)
  = match outcome (visit_reservation config user l r) with
    | Return l' => Return (lists_app l0 l')
    | Raise e => Raise e
    end.
Proof.
  unfold visit_reservation. rewrite !outcome_bind.
  destruct (Instances r) as [|first rest] eqn:Hinst; [reflexivity|].
  destruct (lead_of_member r first) as [lead Hlead].
  { rewrite Hinst. now left. }
  rewrite (instances_loop_shift r lead l0 (first :: rest) Hlead [] l).
  now destruct (outcome (for_each (first :: rest) _ ([], l)))
    as [[keys l']|e].
Qed.

Lemma reservations_loop_shift (l0 : Lists) (rs : list Reservation) :
  forall l,
    outcome (for_each rs (visit_reservation config user) (lists_app l0 l))
    = match outcome (for_each rs (visit_reservation config user) l) with
      | Return l' => Return (lists_app l0 l')
      | Raise e => Raise e
      end.
Proof.
  induction rs as [|r rest IH]; intros l.
  - reflexivity.
  - cbn [for_each]. rewrite !outcome_bind, visit_reservation_shift.
    destruct (outcome (visit_reservation config user l r)) as [l'|e];
      [apply IH | reflexivity].
Qed.

End Reservations.

(** X4.  A reservation whose first instance carries [NoShutdown], and
    whose instances all carry their tags, adds the identifier of its first
    instance to [no_action_required] once for each of its instances, and
    does nothing else: no addition to the other lists and no event,
    whatever the other tags.  For a reservation of one instance, its own
    identifier is added once. *)
Theorem no_shutdown_covers_the_reservation :
  forall (config : Config) (user : option Ec2Client) (r : Reservation)
         (first : Instance) (rest : list Instance) (tags : list Tag)
         (l : Lists),
    Instances r = first :: rest ->
    Tags first = Some tags ->
    In "NoShutdown" (map Key tags) ->
    forallb has_tags rest = true ->
    visit_reservation config user l r
    = ret {| action_required := action_required l;
             no_action_required :=
               no_action_required l ++
               repeat (InstanceId first) (S (List.length rest));
             untagged_instances := untagged_instances l |}.
Proof.
  intros config user r first rest tags l Hinst Htags Hkey Hrest.
  assert (Hlead : lead_id r = Return (InstanceId first)).
  { unfold lead_id. now rewrite Hinst. }
  assert (Hns : list_mem "NoShutdown" ([] ++ map Key tags) = true).
  { now apply list_mem_In. }
  unfold visit_reservation. rewrite Hinst. cbn [for_each].
  rewrite (visit_no_shutdown _ _ _ _ Hlead _ _ _ _ Htags Hns), bind_ret_l.
  rewrite (no_shutdown_stays _ _ _ _ _ Hlead Hrest _ _ Hns), bind_ret_l.
  cbn [snd add_no_action action_required no_action_required
       untagged_instances repeat].
  now rewrite <- app_assoc.
Qed.

(** The pinned instance, alone and then followed by the named one. *)
Lemma no_shutdown_covers_the_reservation_witness :
  visit_reservation Sample.config None no_lists
                    SampleLead.pinned_then_named
  = ret {| action_required := [];
           no_action_required := ["i-b"; "i-b"];
           untagged_instances := [] |}.
Proof.
  apply (no_shutdown_covers_the_reservation
           Sample.config None SampleLead.pinned_then_named
           SampleReservation.pinned [SampleReservation.named]
           [Sample.tag "NoShutdown" "yes"] no_lists).
  - reflexivity.
  - reflexivity.
  - left. reflexivity.
  - reflexivity.
Defined.

(** The lists of a snapshot are those of its parts, in order. *)
Lemma classify_app (rs1 rs2 : list Reservation) (config : Config)
    (user : option Ec2Client) :
  outcome (classify (rs1 ++ rs2) config user)
  = match outcome (classify rs1 config user),
          outcome (classify rs2 config user) with
    | Return l1, Return l2 => Return (lists_app l1 l2)
    | Return _, Raise e => Raise e
    | Raise e, _ => Raise e
    end.
Proof.
  unfold classify. rewrite for_each_app, outcome_bind.
  destruct (outcome (for_each rs1 (visit_reservation config user) no_lists))
    as [l1|e]; [|reflexivity].
  rewrite <- (lists_app_no_lists l1) at 1.
  rewrite reservations_loop_shift.
  now destruct (outcome (for_each rs2 _ no_lists)).
Qed.

(** X5.  Reservations are classified independently of one another: the
    three lists of a snapshot are those of its first part followed by
    those of the rest, and the pass fails exactly when one of the parts
    does, with the error of the first that fails. *)
Theorem classification_of_parts :
  forall (rs1 rs2 : list Reservation) (config : Config)
         (user : option Ec2Client),
    outcome (classify (rs1 ++ rs2) config user)
    = match outcome (classify rs1 config user),
            outcome (classify rs2 config user) with
      | Return l1, Return l2 => Return (lists_app l1 l2)
      | Return _, Raise e => Raise e
      | Raise e, _ => Raise e
      end.
Proof. exact classify_app. Qed.

(** ** Every instance of every reservation *)

Section Inspection.
Variable config : Config.
Variable user : option Ec2Client.

(** The visit of an instance of a snapshot starts from the keys of the
    instances before it in its reservation, and what it adds to the lists
    is in the lists of the snapshot. *)
Lemma visit_in_classify (rs : list Reservation) (r : Reservation)
    (i : Instance) (l : Lists) :
  In r rs -> In i (Instances r) ->
  outcome (classify rs config user) = Return l ->
  exists pre post lead keys l1,
    Instances r = pre ++ i :: post /\
    lead_id r = Return lead /\
    outcome (visit_instance config user r
                            (flat_map tag_keys pre, no_lists) i)
    = Return (keys, l1) /\
    within l1 l.
Proof.
  intros Hr Hi Hrun.
  destruct (lead_of_member r i Hi) as [lead Hlead].
  apply in_split in Hr as (rs1 & rs2 & ->).
  apply in_split in Hi as (pre & post & Hinst).
  rewrite classify_app in Hrun.
  destruct (outcome (classify rs1 config user)) as [la|e]; [|discriminate].
  change (r :: rs2) with ([r] ++ rs2) in Hrun. rewrite classify_app in Hrun.
  destruct (outcome (classify [r] config user)) as [lr|e] eqn:Hlr;
    [|discriminate].
  destruct (outcome (classify rs2 config user)) as [lb|e]; [|discriminate].
  injection Hrun as <-.
  unfold classify in Hlr. cbn [for_each] in Hlr.
  rewrite outcome_bind in Hlr. unfold visit_reservation in Hlr.
  rewrite outcome_bind, Hinst, for_each_app, outcome_bind in Hlr.
  destruct (outcome (for_each pre (visit_instance config user r)
                              ([], no_lists)))
    as [[k0 l0]|e] eqn:Hpre; [|discriminate].
  apply (keys_accumulate config user r lead pre Hlead) in Hpre.
  cbn [app] in Hpre. subst k0.
  cbn [for_each] in Hlr. rewrite outcome_bind in Hlr.
  rewrite <- (lists_app_no_lists l0) in Hlr.
  rewrite (visit_instance_shift config user r lead l0 no_lists _ i Hlead)
    in Hlr.
  destruct (outcome (visit_instance config user r
                                    (flat_map tag_keys pre, no_lists) i))
    as [[k1 l1]|e] eqn:Hvisit; [|discriminate].
  rewrite <- (lists_app_no_lists (lists_app l0 l1)) in Hlr.
  rewrite (instances_loop_shift config user r lead _ post Hlead) in Hlr.
  destruct (outcome (for_each post (visit_instance config user r)
                              (k1, no_lists)))
    as [[k2 l2]|e]; [|discriminate].
  cbn in Hlr. injection Hlr as <-.
  exists pre, post, lead, k1, l1.
  split; [exact Hinst|]. split; [exact Hlead|]. split; [exact Hvisit|].
  unfold within, incl. cbn.
  split; [|split]; intros x Hx; rewrite !in_app_iff; tauto.
Qed.

(** A key among those seen before an instance is a key of an earlier
    instance of the reservation. *)
Lemma key_seen_before (r : Reservation) (pre post : list Instance)
    (i : Instance) (k : string) :
  Instances r = pre ++ i :: post ->
  In k (flat_map tag_keys pre ++ tag_keys i) ->
  exists j, In j (Instances r) /\ In k (tag_keys j).
Proof.
  intros Hinst Hk. apply in_app_or in Hk as [Hk|Hk].
  - apply in_flat_map in Hk as (j & Hj & Hk). exists j.
    split; [|exact Hk]. rewrite Hinst. apply in_or_app. now left.
  - exists i. split; [|exact Hk]. rewrite Hinst. apply in_or_app.
    right. now left.
Qed.

Lemma no_shutdown_in_classify (rs : list Reservation) (r : Reservation)
    (i : Instance) (l : Lists) :
  outcome (classify rs config user) = Return l ->
  In r rs -> In i (Instances r) -> In "NoShutdown" (tag_keys i) ->
  exists lead, lead_id r = Return lead /\ In lead (no_action_required l).
Proof.
  intros Hrun Hr Hi Hkey.
  destruct (visit_in_classify rs r i l Hr Hi Hrun)
    as (pre & post & lead & keys & l1 & Hinst & Hlead & Hvisit & Hin).
  exists lead. split; [exact Hlead|].
  rewrite (visit_instance_run _ _ _ _ _ _ _ Hlead) in Hvisit.
  unfold tag_keys in Hkey. destruct (Tags i) as [tags|]; [|contradiction].
  cbv zeta in Hvisit.
  assert (Hns : list_mem "NoShutdown" (flat_map tag_keys pre ++ map Key tags)
                = true).
  { apply list_mem_In, in_or_app. now right. }
  rewrite Hns in Hvisit. cbn in Hvisit. injection Hvisit as _ <-.
  apply Hin. now left.
Qed.

Lemma schedule_in_classify (rs : list Reservation) (r : Reservation)
    (i : Instance) (tags : list Tag) (tag : Tag) (l : Lists) :
  outcome (classify rs config user) = Return l ->
  In r rs -> In i (Instances r) ->
  (forall j, In j (Instances r) -> ~ In "NoShutdown" (tag_keys j)) ->
  Tags i = Some tags -> In tag tags -> Key tag = "Schedule" ->
  exists lead,
    lead_id r = Return lead /\
    (sent_to_action config tag = true -> In lead (action_required l)) /\
    (sent_to_no_action config tag = true ->
     In lead (no_action_required l)).
Proof.
  intros Hrun Hr Hi Hfree Htags Htag Hkey.
  destruct (visit_in_classify rs r i l Hr Hi Hrun)
    as (pre & post & lead & keys & l1 & Hinst & Hlead & Hvisit & Hin).
  exists lead. split; [exact Hlead|].
  rewrite (visit_instance_run _ _ _ _ _ _ _ Hlead), Htags in Hvisit.
  cbv zeta in Hvisit.
  assert (Hown : map Key tags = tag_keys i).
  { unfold tag_keys. now rewrite Htags. }
  assert (Hns : list_mem "NoShutdown" (flat_map tag_keys pre ++ map Key tags)
                = false).
  { destruct (list_mem "NoShutdown" _) eqn:Hmem; [|reflexivity].
    apply list_mem_In in Hmem. rewrite Hown in Hmem.
    destruct (key_seen_before r pre post i _ Hinst Hmem) as (j & Hj & Hk).
    now destruct (Hfree j Hj). }
  assert (Hs : list_mem "Schedule" (flat_map tag_keys pre ++ map Key tags)
               = true).
  { apply list_mem_In, in_or_app. right. rewrite <- Hkey.
    now apply in_map. }
  rewrite Hns, Hs in Hvisit. cbn in Hvisit. injection Hvisit as _ <-.
  destruct Hin as (Har & Hnar & _). cbn in Har, Hnar.
  split; intros Hsent.
  - apply Har, in_map_iff. exists tag. split; [reflexivity|].
    apply filter_In. now split.
  - apply Hnar, in_map_iff. exists tag. split; [reflexivity|].
    apply filter_In. now split.
Qed.

Lemma untagged_in_classify (rs : list Reservation) (r : Reservation)
    (i : Instance) (l : Lists) :
  outcome (classify rs config user) = Return l ->
  In r rs -> In i (Instances r) ->
  str_contains "True" (stop_untagged_instances_flag config) = true ->
  (forall j, In j (Instances r) ->
             ~ In "NoShutdown" (tag_keys j) /\ ~ In "Schedule" (tag_keys j)) ->
  In (InstanceId i) (untagged_instances l).
Proof.
  intros Hrun Hr Hi Hflag Hfree.
  destruct (visit_in_classify rs r i l Hr Hi Hrun)
    as (pre & post & lead & keys & l1 & Hinst & Hlead & Hvisit & Hin).
  rewrite (visit_instance_run _ _ _ _ _ _ _ Hlead) in Hvisit.
  destruct (Tags i) as [tags|] eqn:Htags; [|discriminate].
  cbv zeta in Hvisit.
  assert (Hown : map Key tags = tag_keys i).
  { unfold tag_keys. now rewrite Htags. }
  assert (Hns : list_mem "NoShutdown" (flat_map tag_keys pre ++ map Key tags)
                = false).
  { destruct (list_mem "NoShutdown" _) eqn:Hmem; [|reflexivity].
    apply list_mem_In in Hmem. rewrite Hown in Hmem.
    destruct (key_seen_before r pre post i _ Hinst Hmem) as (j & Hj & Hk).
    now destruct (proj1 (Hfree j Hj)). }
  assert (Hs : list_mem "Schedule" (flat_map tag_keys pre ++ map Key tags)
               = false).
  { destruct (list_mem "Schedule" _) eqn:Hmem; [|reflexivity].
    apply list_mem_In in Hmem. rewrite Hown in Hmem.
    destruct (key_seen_before r pre post i _ Hinst Hmem) as (j & Hj & Hk).
    now destruct (proj2 (Hfree j Hj)). }
  rewrite Hns, Hs, Hflag in Hvisit. cbn in Hvisit. injection Hvisit as _ <-.
  apply Hin. now left.
Qed.

(** The loops visit the reservations in order, and the instances of each
    in order. *)
Lemma classify_position (rs1 rs2 : list Reservation) (r : Reservation)
    (pre post : list Instance) (i : Instance) :
  Instances r = pre ++ i :: post ->
  classify (rs1 ++ r :: rs2) config user
  = (l1 <- classify rs1 config user ;;
     st <- for_each pre (visit_instance config user r) ([], l1) ;;
     st1 <- visit_instance config user r st i ;;
     st2 <- for_each post (visit_instance config user r) st1 ;;
     for_each rs2 (visit_reservation config user) (snd st2)).
Proof.
  intros Hinst.
  assert (Hstep : forall l1,
             for_each (r :: rs2) (visit_reservation config user) l1
             = (st <- for_each pre (visit_instance config user r) ([], l1) ;;
                st1 <- visit_instance config user r st i ;;
                st2 <- for_each post (visit_instance config user r) st1 ;;
                for_each rs2 (visit_reservation config user) (snd st2))).
  { intros l1. cbn [for_each]. unfold visit_reservation at 1.
    rewrite Hinst, for_each_app. cbn [for_each]. rewrite !bind_assoc.
    destruct (for_each pre (visit_instance config user r) ([], l1))
      as [[st|e0] t0]; [|reflexivity].
    rewrite !bind_return. rewrite !bind_assoc.
    destruct (visit_instance config user r st i) as [[st1|e1] t1];
      [|reflexivity].
    rewrite !bind_return.
    destruct (for_each post (visit_instance config user r) st1)
      as [[st2|e2] t2]; [|reflexivity].
    rewrite !bind_return. now rewrite bind_ret_l. }
  unfold classify. rewrite for_each_app.
  destruct (for_each rs1 (visit_reservation config user) no_lists)
    as [[l1|e] t]; [|reflexivity].
  rewrite !bind_return. now rewrite Hstep.
Qed.

End Inspection.

(** C8 (as amended).  The loops visit every reservation of the snapshot
    in order and every instance of each reservation in order, and the tags
    of every instance are inspected, whatever its position: when the
    classification completes, which it does if every instance carries its
    tags, a [NoShutdown] tag on any instance of a reservation puts the
    identifier of the first instance of that reservation in
    [no_action_required], and, in a reservation without [NoShutdown], a
    [Schedule] tag on any instance puts it in the list its value selects.
    Every identifier of [action_required] and [no_action_required] is the
    identifier of the first instance of a reservation.  The untagged list
    holds identifiers of instances of the snapshot, first or not: with the
    flag on, every instance of a reservation that carries neither key
    contributes its own. *)
Theorem every_instance_is_visited_and_the_lead_is_recorded :
  forall (config : Config) (user : option Ec2Client)
         (rs : list Reservation),
    (forall rs1 r rs2 pre i post,
        rs = rs1 ++ r :: rs2 -> Instances r = pre ++ i :: post ->
        classify rs config user
        = (l1 <- classify rs1 config user ;;
           st <- for_each pre (visit_instance config user r) ([], l1) ;;
           st1 <- visit_instance config user r st i ;;
           st2 <- for_each post (visit_instance config user r) st1 ;;
           for_each rs2 (visit_reservation config user) (snd st2))) /\
    (all_tagged rs = true ->
     exists l, outcome (classify rs config user) = Return l) /\
    (forall l,
        outcome (classify rs config user) = Return l ->
        (forall r i,
            In r rs -> In i (Instances r) -> In "NoShutdown" (tag_keys i) ->
            exists lead,
              lead_id r = Return lead /\ In lead (no_action_required l)) /\
        (forall r i tags tag,
            In r rs -> In i (Instances r) ->
            (forall j, In j (Instances r) ->
                       ~ In "NoShutdown" (tag_keys j)) ->
            Tags i = Some tags -> In tag tags -> Key tag = "Schedule" ->
            exists lead,
              lead_id r = Return lead /\
              (sent_to_action config tag = true ->
               In lead (action_required l)) /\
              (sent_to_no_action config tag = true ->
               In lead (no_action_required l))) /\
        (forall x,
            In x (action_required l) \/ In x (no_action_required l) ->
            exists r, In r rs /\ lead_id r = Return x) /\
        (forall r i,
            In r rs -> In i (Instances r) ->
            str_contains "True" (stop_untagged_instances_flag config)
            = true ->
            (forall j, In j (Instances r) ->
                       ~ In "NoShutdown" (tag_keys j) /\
                       ~ In "Schedule" (tag_keys j)) ->
            In (InstanceId i) (untagged_instances l)) /\
        (forall x,
            In x (untagged_instances l) ->
            exists r i, In r rs /\ In i (Instances r) /\
                        InstanceId i = x)).
Proof.
  intros config user rs. split; [|split].
  - intros rs1 r rs2 pre i post -> Hinst.
    now apply classify_position.
  - intros Hall.
    destruct (reservations_loop_outcome config user rs no_lists)
      as [Hyes _].
    exact (Hyes Hall).
  - intros l Hrun.
    destruct (drawn_from_classify config user rs l Hrun) as [Hlead Hown].
    split; [|split; [|split; [|split]]].
    + intros r i. exact (no_shutdown_in_classify config user rs r i l Hrun).
    + intros r i tags tag.
      exact (schedule_in_classify config user rs r i tags tag l Hrun).
    + exact Hlead.
    + intros r i. exact (untagged_in_classify config user rs r i l Hrun).
    + exact Hown.
Qed.

(** The second instance of the reservation carries [NoShutdown]: the
    identifier of the first is recorded. *)
Lemma every_instance_is_visited_and_the_lead_is_recorded_witness :
  exists lead,
    lead_id SampleReservation.named_then_pinned = Return lead /\
    In lead (no_action_required
               {| action_required := [];
                  no_action_required := ["i-a"];
                  untagged_instances := [] |}).
Proof.
  apply (proj1 (proj2 (proj2 (every_instance_is_visited_and_the_lead_is_recorded
                                Sample.config_keep_untagged None
                                [SampleReservation.named_then_pinned]))
                      {| action_required := [];
                         no_action_required := ["i-a"];
                         untagged_instances := [] |}
                      eq_refl)
               SampleReservation.named_then_pinned
               SampleReservation.pinned).
  - left. reflexivity.
  - right. left. reflexivity.
  - left. reflexivity.
Defined.

(** C8, as stated, fails: two reservations with the same first instance
    are classified differently, because the tags of the second instance
    are read too. *)
Lemma tags_of_the_second_instance_are_read :
  SampleReservation.lead_instance SampleReservation.plain_then_pinned
  = SampleReservation.lead_instance SampleReservation.plain_then_plain /\
  categorise_instances (Response [SampleReservation.plain_then_pinned])
                       Sample.config_keep_untagged None
  = (Return (Some ([], ["i-a"])), []) /\
  categorise_instances (Response [SampleReservation.plain_then_plain])
                       Sample.config_keep_untagged None
  = (Return (Some ([], [])), []).
Proof. repeat split. Qed.

(** ** Identifiers that occur once *)

Lemma occurrences_lists_app (x : string) (l1 l2 : Lists) :
  occurrences x (lists_app l1 l2)
  = (occurrences x l1 + occurrences x l2)%nat.
Proof.
  unfold occurrences, lists_app. cbn. rewrite !count_occ_app. lia.
Qed.

Lemma lead_in_snapshot (rs : list Reservation) (r : Reservation)
    (x : string) :
  In r rs -> lead_id r = Return x -> In x (snapshot_ids rs).
Proof.
  intros Hr Hlead. unfold snapshot_ids. apply in_flat_map. exists r.
  split; [assumption|]. unfold lead_id in Hlead.
  destruct (Instances r) as [|first rest]; [discriminate|].
  injection Hlead as <-. now left.
Qed.

(** Every identifier of the three lists is the identifier of an instance
    of the snapshot. *)
Lemma occurrences_in_snapshot (rs : list Reservation) (config : Config)
    (user : option Ec2Client) (l : Lists) (x : string) :
  outcome (classify rs config user) = Return l ->
  ~ In x (snapshot_ids rs) -> occurrences x l = O.
Proof.
  intros Hrun Hout.
  destruct (drawn_from_classify config user rs l Hrun) as [Hlists Hun].
  assert (Har : ~ In x (action_required l)).
  { intros H. destruct (Hlists x (or_introl H)) as (r & Hr & Hlead).
    exact (Hout (lead_in_snapshot rs r x Hr Hlead)). }
  assert (Hnar : ~ In x (no_action_required l)).
  { intros H. destruct (Hlists x (or_intror H)) as (r & Hr & Hlead).
    exact (Hout (lead_in_snapshot rs r x Hr Hlead)). }
  assert (Hu : ~ In x (untagged_instances l)).
  { intros H. destruct (Hun x H) as (r & i & Hr & Hi & <-).
    apply Hout. unfold snapshot_ids. apply in_flat_map. exists r.
    split; [assumption | now apply in_map]. }
  apply (count_occ_not_In string_dec) in Har, Hnar, Hu.
  unfold occurrences. now rewrite Har, Hnar, Hu.
Qed.

(** A tag is sent to at most one list, and only if its key contains
    [Schedule]. *)
Lemma schedule_verdicts_exclude (config : Config) (tags : list Tag) :
  (List.length (filter (sent_to_action config) tags) +
   List.length (filter (sent_to_no_action config) tags)
   <= List.length (filter schedule_like tags))%nat.
Proof.
  induction tags as [|tag tags IH]; [reflexivity|].
  cbn [filter]. unfold sent_to_action, sent_to_no_action, schedule_like in *.
  destruct (str_contains "Schedule" (Key tag)); cbn [andb]; [|exact IH].
  destruct (String.eqb (Value tag) ""); cbn [orb negb andb List.length];
    [lia|].
  destruct (String.eqb (Value tag) (allDay (schedule config)));
    cbn [orb negb andb List.length]; [lia|].
  destruct (String.eqb (Value tag) (halfDay (schedule config)));
    cbn [List.length]; lia.
Qed.

Lemma count_occ_constant_map (x lead : string) (tags : list Tag) :
  (count_occ string_dec (map (fun _ : Tag => lead) tags) x
   <= List.length tags)%nat.
Proof.
  rewrite <- (length_map (fun _ : Tag => lead) tags).
  apply count_occ_bound.
Qed.

(** One plain reservation: its identifier ends in at most one list, at
    most once. *)
Lemma plain_reservation_once (config : Config) (user : option Ec2Client)
    (r : Reservation) :
  plain_reservation r ->
  exists l, outcome (classify [r] config user) = Return l /\
            forall x, (occurrences x l <= 1)%nat.
Proof.
  intros (i & tags & Hinst & Htags & Hone).
  assert (Hlead : lead_id r = Return (InstanceId i)).
  { unfold lead_id. now rewrite Hinst. }
  unfold classify, visit_reservation. cbn [for_each]. rewrite Hinst.
  cbn [for_each]. rewrite !outcome_bind.
  rewrite (visit_instance_run _ _ _ _ _ _ _ Hlead), Htags.
  cbv beta iota zeta.
  destruct (list_mem "NoShutdown" ([] ++ map Key tags)).
  { eexists. split; [reflexivity|]. intros x. unfold occurrences. cbn.
    destruct (string_dec (InstanceId i) x); lia. }
  destruct (list_mem "Schedule" ([] ++ map Key tags)).
  { eexists. split; [reflexivity|]. intros x. unfold occurrences. cbn.
    pose proof (count_occ_constant_map x (InstanceId i)
                  (filter (sent_to_action config) tags)).
    pose proof (count_occ_constant_map x (InstanceId i)
                  (filter (sent_to_no_action config) tags)).
    pose proof (schedule_verdicts_exclude config tags). lia. }
  destruct (str_contains "True" (stop_untagged_instances_flag config)).
  - eexists. split; [reflexivity|]. intros x. unfold occurrences. cbn.
    destruct (string_dec (InstanceId i) x); lia.
  - eexists. split; [reflexivity|]. intros x. cbn. lia.
Qed.

(** X6.  In a snapshot of reservations of one instance each, whose
    instances carry their tags with at most one key that contains
    [Schedule] and have pairwise distinct identifiers, the classification
    succeeds and every identifier occurs at most once in the three lists
    together: it is in at most one of them, and not twice. *)
Theorem plain_snapshot_is_partitioned :
  forall (rs : list Reservation) (config : Config)
         (user : option Ec2Client),
    Forall plain_reservation rs ->
    NoDup (snapshot_ids rs) ->
    exists l,
      outcome (classify rs config user) = Return l /\
      (forall x, (occurrences x l <= 1)%nat) /\
      (forall x,
          ~ (In x (action_required l) /\ In x (no_action_required l)) /\
          ~ (In x (action_required l) /\ In x (untagged_instances l)) /\
          ~ (In x (no_action_required l) /\ In x (untagged_instances l))).
Proof.
  intros rs config user Hplain Hids.
  assert (Hmain : exists l, outcome (classify rs config user) = Return l /\
                            forall x, (occurrences x l <= 1)%nat).
  { induction rs as [|r rs IH].
    - exists no_lists. split; [reflexivity|]. intros x. cbn. lia.
    - inversion Hplain as [|r' rs' Hr Hrs]; subst.
      destruct (plain_reservation_once config user r Hr) as (l1 & Hl1 & H1).
      destruct Hr as (i & tags & Hinst & _).
      assert (Hsnap : snapshot_ids (r :: rs)
                      = InstanceId i :: snapshot_ids rs).
      { unfold snapshot_ids. cbn [flat_map]. now rewrite Hinst. }
      rewrite Hsnap in Hids. apply NoDup_cons_iff in Hids as [Hfresh Hids].
      destruct (IH Hrs Hids) as (l2 & Hl2 & H2).
      exists (lists_app l1 l2). split.
      + change (r :: rs) with ([r] ++ rs).
        now rewrite classify_app, Hl1, Hl2.
      + intros x. rewrite occurrences_lists_app.
        destruct (string_dec x (InstanceId i)) as [->|Hne].
        * rewrite (occurrences_in_snapshot rs config user l2 _ Hl2 Hfresh).
          specialize (H1 (InstanceId i)). lia.
        * assert (Hout : ~ In x (snapshot_ids [r])).
          { unfold snapshot_ids. cbn [flat_map]. rewrite Hinst. cbn.
            intros [H|[]]. congruence. }
          rewrite (occurrences_in_snapshot [r] config user l1 _ Hl1 Hout).
          specialize (H2 x). lia. }
  destruct Hmain as (l & Hl & Honce). exists l.
  split; [exact Hl|]. split; [exact Honce|].
  intros x. specialize (Honce x). unfold occurrences in Honce.
  repeat split; intros [Ha Hb];
    apply (count_occ_In string_dec) in Ha, Hb; lia.
Qed.

(** Three instances in three reservations. *)
Lemma plain_snapshot_is_partitioned_witness :
  exists l,
    outcome (classify SamplePlain.snapshot Sample.config None) = Return l /\
    (forall x, (occurrences x l <= 1)%nat) /\
    (forall x,
        ~ (In x (action_required l) /\ In x (no_action_required l)) /\
        ~ (In x (action_required l) /\ In x (untagged_instances l)) /\
        ~ (In x (no_action_required l) /\ In x (untagged_instances l))).
Proof.
  apply (plain_snapshot_is_partitioned SamplePlain.snapshot Sample.config None).
  - repeat constructor;
      (eexists; eexists; split; [reflexivity|]; split; [reflexivity|]);
      cbn; lia.
  - repeat constructor; cbn; intuition discriminate.
Defined.

(** ** The cost of stopping untagged instances *)

Lemma growth_prefixes (u xs : list string) :
  growth u xs
  = map (fun k => u ++ firstn k xs) (seq 1 (List.length xs)).
Proof.
  revert u. induction xs as [|x xs IH]; intros u; [reflexivity|].
  cbn [growth List.length seq map firstn]. f_equal.
  rewrite IH, <- (seq_shift (List.length xs) 1), map_map. apply map_ext.
  intros k. cbn [firstn]. now rewrite <- app_assoc.
Qed.

Lemma growth_total (u xs : list string) :
  (2 * List.length (List.concat (growth u xs))
   = 2 * List.length xs * List.length u
     + List.length xs * (List.length xs + 1))%nat.
Proof.
  revert u. induction xs as [|x xs IH]; intros u; [reflexivity|].
  cbn [growth List.concat List.length].
  rewrite length_app, Nat.mul_add_distr_l, IH, !length_app.
  cbn [List.length]. nia.
Qed.

Lemma growth_last (u xs : list string) :
  xs <> [] -> last (growth u xs) [] = u ++ xs.
Proof.
  revert u. induction xs as [|x xs IH]; intros u Hxs; [contradiction|].
  cbn [growth]. destruct xs as [|y ys]; [reflexivity|].
  change (last ((u ++ [x]) :: growth (u ++ [x]) (y :: ys)) [])
    with (last (growth (u ++ [x]) (y :: ys)) []).
  rewrite IH by discriminate. now rewrite <- app_assoc.
Qed.

(** X7.  With a client, a pass that finds [n] untagged instances makes
    [n] stop calls, the [k]-th on the first [k] of them: [n (n + 1) / 2]
    identifiers are submitted in all, and the last call covers the whole
    list. *)
Theorem stop_calls_are_the_prefixes :
  forall (rs : list Reservation) (config : Config) (c : Ec2Client)
         (l : Lists),
    outcome (classify rs config (Some c)) = Return l ->
    let calls := stop_calls (events (classify rs config (Some c))) in
    let n := List.length (untagged_instances l) in
    calls = map (fun k => firstn k (untagged_instances l)) (seq 1 n) /\
    List.length calls = n /\
    (2 * List.length (List.concat calls) = n * (n + 1))%nat /\
    (n <> O -> last calls [] = untagged_instances l).
Proof.
  intros rs config c l Hrun. cbv zeta.
  pose proof (submitted_classify config c rs) as H. cbv zeta in H.
  destruct (classify rs config (Some c)) as [[l'|e] t]; [|discriminate].
  cbn in Hrun. injection Hrun as ->. destruct H as [Hcalls _].
  cbn [events snd]. rewrite Hcalls. split; [|split; [|split]].
  - apply (growth_prefixes [] (untagged_instances l)).
  - now rewrite growth_prefixes, length_map, length_seq.
  - rewrite growth_total. cbn [List.length]. lia.
  - intros Hn. apply (growth_last [] (untagged_instances l)).
    intros Hnil. now rewrite Hnil in Hn.
Qed.

(** Two untagged instances in one reservation. *)
Lemma stop_calls_are_the_prefixes_witness :
  stop_calls (events (classify [SampleReservation.plain_then_plain]
                               Sample.config (Some (Sample.client Falsy))))
  = [["i-a"]; ["i-a"; "i-b"]].
Proof.
  apply (stop_calls_are_the_prefixes
           [SampleReservation.plain_then_plain] Sample.config
           (Sample.client Falsy)
           {| action_required := []; no_action_required := [];
              untagged_instances := ["i-a"; "i-b"] |}).
  reflexivity.
Defined.

(** ** What the classifier asks of the service *)

Lemma classify_without_client (rs : list Reservation) (config : Config) :
  api_calls (events (classify rs config None)) = [].
Proof.
  pose (quiet := fun t : list Event => api_calls t = []).
  assert (Hvisit : forall r i tag_list l t,
             In i (Instances r) -> quiet t ->
             quiet (t ++ events (visit_instance config None r
                                                (tag_list, l) i))).
  { intros r i tag_list l t Hi Ht.
    destruct (lead_of_member r i Hi) as [lead Hlead].
    rewrite (visit_instance_run _ _ _ _ _ _ _ Hlead).
    unfold quiet in *. rewrite api_calls_app, Ht.
    destruct (Tags i) as [tags|]; [|reflexivity]. cbv beta iota zeta.
    destruct (list_mem "NoShutdown" (tag_list ++ map Key tags));
      [reflexivity|].
    destruct (list_mem "Schedule" (tag_list ++ map Key tags));
      [reflexivity|].
    now destruct (str_contains "True" (stop_untagged_instances_flag config)). }
  pose proof (for_each_run rs (visit_reservation config None)
                (fun _ t => quiet t) quiet) as Hloop.
  assert (Hgoal : match classify rs config None with
                  | (Return _, t) => quiet ([] ++ t)
                  | (Raise _, t) => quiet ([] ++ t)
                  end).
  { unfold classify. apply Hloop; [|reflexivity].
    intros l t r Hr Ht. unfold visit_reservation.
    pose proof (for_each_run (Instances r) (visit_instance config None r)
                  (fun _ t => quiet t) quiet) as Hinner.
    assert (Hin : match for_each (Instances r)
                          (visit_instance config None r) ([], l) with
                  | (Return _, t') => quiet (t ++ t')
                  | (Raise _, t') => quiet (t ++ t')
                  end).
    { apply Hinner; [|exact Ht].
      intros [tag_list l1] t2 i Hi Ht2.
      specialize (Hvisit r i tag_list l1 t2 Hi Ht2). unfold events in Hvisit.
      now destruct (visit_instance _ _ _ _ _) as [[st|e] t3]. }
    destruct (for_each (Instances r) _ ([], l)) as [[st|e] t1]; [|exact Hin].
    rewrite bind_return. cbn. now rewrite app_nil_r. }
  unfold events. now destruct (classify rs config None) as [[l|e] t].
Qed.

Lemma categorise_instances_events (data : Data) (config : Config)
    (user : option Ec2Client) :
  api_calls (events (categorise_instances data config user))
  = match data with
    | Falsy => []
    | Response rs => api_calls (events (classify rs config user))
    end.
Proof.
  rewrite categorise_instances_run. destruct data as [|rs]; [reflexivity|].
  destruct (classify rs config user) as [[l|e] t]; [reflexivity|].
  cbn [events snd]. rewrite api_calls_app. cbn. now rewrite app_nil_r.
Qed.

Lemma categorise_instances_only_stops (data : Data) (config : Config)
    (user : option Ec2Client) (call : ApiCall) :
  In (Api call) (events (categorise_instances data config user)) ->
  (exists ids, call = StopInstances ids) /\
  user <> None /\
  str_contains "True" (stop_untagged_instances_flag config) = true.
Proof.
  intros Hin.
  apply in_api_calls in Hin. rewrite categorise_instances_events in Hin.
  destruct data as [|rs]; [contradiction|].
  split; [|split].
  - rewrite classify_calls_only_stop in Hin.
    apply in_map_iff in Hin as (ids & <- & _). now exists ids.
  - intros ->. now rewrite classify_without_client in Hin.
  - destruct user as [c|];
      [|now rewrite classify_without_client in Hin].
    destruct (str_contains "True" (stop_untagged_instances_flag config))
      eqn:Hflag; [reflexivity|].
    pose proof (submitted_classify config c rs) as H. cbv zeta in H.
    rewrite classify_calls_only_stop in Hin. unfold events in Hin.
    destruct (classify rs config (Some c)) as [[l|e] t]; cbn [snd] in Hin.
    + destruct H as [Hcalls Hoff].
      now rewrite Hcalls, (Hoff Hflag) in Hin.
    + destruct H as (xs & Hcalls & Hoff).
      now rewrite Hcalls, (Hoff Hflag) in Hin.
Qed.

(** X8.  The only service calls of the classifier are stop calls, and it
    makes one only when it was given a client and the flag
    [stop_untagged_instances] contains [True]: it never lists, starts or
    assumes a role. *)
Theorem classifier_only_stops :
  forall (data : Data) (config : Config) (user : option Ec2Client)
         (call : ApiCall),
    In (Api call) (events (categorise_instances data config user)) ->
    (exists ids, call = StopInstances ids) /\
    user <> None /\
    str_contains "True" (stop_untagged_instances_flag config) = true.
Proof. exact categorise_instances_only_stops. Qed.

(** The stop call for a lone untagged instance. *)
Lemma classifier_only_stops_witness :
  (exists ids, StopInstances ["i-a"] = StopInstances ids) /\
  Some (Sample.client Falsy) <> None /\
  str_contains "True" (stop_untagged_instances_flag Sample.config) = true.
Proof.
  apply (classifier_only_stops (Response [SampleFlag.lone]) Sample.config
           (Some (Sample.client Falsy)) (StopInstances ["i-a"])).
  right. right. left. reflexivity.
Defined.

(** ** Listing and dispatching *)

Lemma get_instance_ids_without_client (config : Config) (state : string)
    (now : datetime) (tz : string) :
  get_instance_ids None config state now tz
  = (Return None, [LogInfo (DescribeFailed AttributeError)]).
Proof. reflexivity. Qed.

Lemma get_instance_ids_returns (user : option Ec2Client) (config : Config)
    (state : string) (now : datetime) (tz : string) :
  exists r, outcome (get_instance_ids user config state now tz) = Return r.
Proof.
  destruct user as [c|]; [|now eexists].
  destruct (get_instance_ids_starts_with_the_query c config state now tz)
    as (r & rest & ->). now exists r.
Qed.

(** X9.  [get_instance_ids] never raises.  It returns the two lists
    exactly when it has a client, the listing is answered with
    reservations, and every listed instance carries the [Tags] key; the
    lists are then those of the classifier.  Without a client no request
    is sent, and after a refused listing the classifier is not run. *)
Theorem get_instance_ids_yields_lists :
  forall (user : option Ec2Client) (config : Config) (state : string)
         (now : datetime) (tz : string),
    let run := get_instance_ids user config state now tz in
    (exists r, outcome run = Return r) /\
    (forall lists,
        outcome run = Return (Some lists) <->
        exists c rs,
          user = Some c /\
          describe_instances c state = Return (Response rs) /\
          all_tagged rs = true /\
          outcome (categorise_instances (Response rs) config user)
          = Return (Some lists)) /\
    (user = None ->
     run = (Return None, [LogInfo (DescribeFailed AttributeError)])) /\
    (forall c e,
        user = Some c -> describe_instances c state = Raise e ->
        run = (Return None,
               [Api (DescribeInstances state); LogInfo (DescribeFailed e)])).
Proof.
  intros user config state now tz. cbv zeta.
  split; [apply get_instance_ids_returns|]. split; [|split].
  - intros lists. split.
    + destruct user as [c|]; [|discriminate].
      rewrite get_instance_ids_run.
      destruct (describe_instances c state) as [[|rs]|e] eqn:Hd;
        [discriminate| |discriminate].
      destruct (classification_tags_decide rs config (Some c))
        as [Hyes Hno].
      destruct (all_tagged rs) eqn:Hall.
      * intros H. exists c, rs.
        split; [reflexivity|]. split; [exact Hd|]. split; [exact Hall|].
        destruct (categorise_instances (Response rs) config (Some c))
          as [[[l|]|e] t]; cbn in *; congruence.
      * destruct (Hno eq_refl) as (_ & Hnone & _).
        destruct (categorise_instances (Response rs) config (Some c))
          as [[[l|]|e] t]; cbn in *; congruence.
    + intros (c & rs & -> & Hd & _ & Hcat).
      rewrite get_instance_ids_run, Hd.
      destruct (categorise_instances (Response rs) config (Some c))
        as [[[l|]|e] t]; cbn in *; congruence.
  - intros ->. reflexivity.
  - intros c e -> Hd. now rewrite get_instance_ids_run, Hd.
Qed.

(** The half-day instance, listed by a client that answers. *)
Lemma get_instance_ids_yields_lists_witness :
  outcome (get_instance_ids (Some (Sample.client SampleDay.snapshot))
                            Sample.config "stopped" SampleDay.morning "GMT")
  = Return (Some (["i-a"], [])).
Proof.
  apply (proj1 (proj2 (get_instance_ids_yields_lists
                         (Some (Sample.client SampleDay.snapshot))
                         Sample.config "stopped" SampleDay.morning "GMT"))
               (["i-a"], [])).
  exists (Sample.client SampleDay.snapshot), [SampleSchedule.web_reservation].
  repeat split.
Defined.

(** The service calls made while the instances are listed and
    classified, with or without a client. *)
Lemma get_instance_ids_only_lists_and_stops (user : option Ec2Client)
    (config : Config) (state : string) (now : datetime) (tz : string)
    (call : ApiCall) :
  In (Api call) (events (get_instance_ids user config state now tz)) ->
  call = DescribeInstances state \/ exists ids, call = StopInstances ids.
Proof.
  destruct user as [c|].
  2:{ cbn. intros [H|[]]. discriminate. }
  rewrite get_instance_ids_run.
  destruct (describe_instances c state) as [data|e].
  2:{ cbn. intros [H|[H|[]]]; [injection H as <-; now left | discriminate]. }
  pose proof (categorise_instances_only_stops data config (Some c) call)
    as Hstops.
  unfold events in Hstops.
  destruct (categorise_instances data config (Some c)) as [[[l|]|e] t];
    cbn [events snd]; cbn [snd] in Hstops.
  - intros [H|[H|H]]; [injection H as <-; now left | discriminate |].
    right. exact (proj1 (Hstops H)).
  - intros [H|[H|H]]; [injection H as <-; now left | discriminate |].
    apply in_app_or in H as [H|[H|[]]]; [|discriminate].
    right. exact (proj1 (Hstops H)).
  - intros [H|[H|H]]; [injection H as <-; now left | discriminate |].
    apply in_app_or in H as [H|[H|[]]]; [|discriminate].
    right. exact (proj1 (Hstops H)).
Qed.

Lemma start_stop_arms (now : datetime) (start stop : time)
    (user : option Ec2Client) (config : Config) (tz : string) :
  start_stop now start stop user config tz
  = if (start <=? time_of now) && (time_of now <? stop)
    then dispatch user config "stopped" now tz StartMethod "Start"
    else if stop <=? time_of now
         then dispatch user config "running" now tz StopMethod "Stop"
         else ret tt.
Proof. reflexivity. Qed.

Lemma dispatch_calls (user : option Ec2Client) (config : Config)
    (state : string) (now : datetime) (tz : string) (m : Method)
    (action : string) (call : ApiCall) :
  In (Api call) (events (dispatch user config state now tz m action)) ->
  call = DescribeInstances state \/
  (exists ids, call = StopInstances ids) \/
  (exists ids, call = method_call m ids).
Proof.
  unfold dispatch. rewrite events_bind. intros H.
  apply in_app_or in H as [H|H].
  { apply get_instance_ids_only_lists_and_stops in H as [H|H]; auto. }
  destruct (outcome (get_instance_ids user config state now tz))
    as [[[ar nar]|]|e]; [|contradiction|contradiction].
  cbn [unpack] in H. rewrite bind_ret_l in H.
  destruct user as [c|]; [|contradiction].
  cbn [attr] in H. rewrite bind_ret_l in H.
  apply in_api_calls in H. rewrite action_on_instances_calls in H.
  destruct ar as [|id ar]; [contradiction|].
  destruct H as [<-|[]]. right. right. now eexists.
Qed.

Lemma dispatch_outcome (user : option Ec2Client) (config : Config)
    (state : string) (now : datetime) (tz : string) (m : Method)
    (action : string) :
  outcome (dispatch user config state now tz m action)
  = match outcome (get_instance_ids user config state now tz) with
    | Return (Some _) => Return tt
    | _ => Raise TypeError
    end.
Proof.
  unfold dispatch. rewrite outcome_bind.
  destruct user as [c|]; [|reflexivity].
  destruct (get_instance_ids_returns (Some c) config state now tz)
    as [r Hr].
  rewrite Hr. destruct r as [[ar nar]|]; [|reflexivity].
  cbn [unpack attr]. rewrite !bind_ret_l.
  now rewrite action_on_instances_run.
Qed.

(** X10.  Whatever the order of [start] and [stop], and with or without
    a client: a start call and a listing of the stopped instances are
    made only at a time between [start] and [stop]; a listing of the
    running instances is made only from [stop] on.  In particular, with
    [stop <= start] no instance is ever started. *)
Theorem starts_only_inside_the_window :
  forall (now : datetime) (start stop : time) (user : option Ec2Client)
         (config : Config) (tz : string),
    let t := events (start_stop now start stop user config tz) in
    (forall ids, In (Api (StartInstances ids)) t ->
                 start <= time_of now < stop) /\
    (In (Api (DescribeInstances "stopped")) t ->
     start <= time_of now < stop) /\
    (In (Api (DescribeInstances "running")) t -> stop <= time_of now) /\
    (stop <= start -> forall ids, ~ In (Api (StartInstances ids)) t).
Proof.
  intros now start stop user config tz. cbv zeta.
  rewrite start_stop_arms.
  assert (Hstart : forall ids,
             In (Api (StartInstances ids))
                (events (if (start <=? time_of now) && (time_of now <? stop)
                         then dispatch user config "stopped" now tz
                                       StartMethod "Start"
                         else if stop <=? time_of now
                              then dispatch user config "running" now tz
                                            StopMethod "Stop"
                              else ret tt)) ->
             start <= time_of now < stop).
  { intros ids.
    destruct ((start <=? time_of now) && (time_of now <? stop)) eqn:Hin.
    - intros _. apply andb_prop in Hin as [H1 H2].
      apply Z.leb_le in H1. apply Z.ltb_lt in H2. lia.
    - destruct (stop <=? time_of now); [|intros []].
      intros H. apply dispatch_calls in H as [H|[[x H]|[x H]]];
        discriminate. }
  split; [exact Hstart|]. split; [|split].
  - destruct ((start <=? time_of now) && (time_of now <? stop)) eqn:Hin.
    + intros _. apply andb_prop in Hin as [H1 H2].
      apply Z.leb_le in H1. apply Z.ltb_lt in H2. lia.
    + destruct (stop <=? time_of now); [|intros []].
      intros H. apply dispatch_calls in H as [H|[[x H]|[x H]]];
        discriminate.
  - destruct ((start <=? time_of now) && (time_of now <? stop)) eqn:Hin.
    + intros H. apply dispatch_calls in H as [H|[[x H]|[x H]]];
        discriminate.
    + destruct (stop <=? time_of now) eqn:Hlate; [|intros []].
      intros _. now apply Z.leb_le.
  - intros Horder ids H. apply Hstart in H. lia.
Qed.

(** The start call of eight in the morning. *)
Lemma starts_only_inside_the_window_witness :
  SampleDay.seven <= time_of SampleDay.morning < SampleDay.nineteen.
Proof.
  apply (proj1 (starts_only_inside_the_window
                  SampleDay.morning SampleDay.seven SampleDay.nineteen
                  (Some (Sample.client SampleDay.snapshot))
                  Sample.config "GMT") ["i-a"]).
  right. right. right. right. left. reflexivity.
Defined.

Lemma start_stop_without_client (now : datetime) (start stop : time)
    (config : Config) (tz : string) :
  start <= time_of now < stop \/ stop <= time_of now ->
  start_stop now start stop None config tz
  = (Raise TypeError, [LogInfo (DescribeFailed AttributeError)]).
Proof.
  rewrite start_stop_arms. intros [Hwin|Hlate].
  - assert (Hin : (start <=? time_of now) && (time_of now <? stop) = true).
    { apply andb_true_intro.
      split; [apply Z.leb_le | apply Z.ltb_lt]; lia. }
    now rewrite Hin.
  - assert (Hout : (start <=? time_of now) && (time_of now <? stop) = false).
    { apply andb_false_intro2. apply Z.ltb_ge. lia. }
    assert (Hle : (stop <=? time_of now) = true) by now apply Z.leb_le.
    now rewrite Hout, Hle.
Qed.

Lemma start_stop_too_early (now : datetime) (start stop : time)
    (user : option Ec2Client) (config : Config) (tz : string) :
  time_of now < start -> time_of now < stop ->
  start_stop now start stop user config tz = (Return tt, []).
Proof.
  intros H1 H2. rewrite start_stop_arms.
  assert (Hout : (start <=? time_of now) && (time_of now <? stop) = false).
  { apply andb_false_intro1. apply Z.leb_gt. lia. }
  assert (Hearly : (stop <=? time_of now) = false) by (apply Z.leb_gt; lia).
  now rewrite Hout, Hearly.
Qed.

(** X11.  [start_stop] raises nothing but [TypeError], and raises it
    exactly when it is time to act (from [start] on, or from [stop] on)
    and the listing gave no lists.  Without a client that is every time
    it is time to act, and no request is sent. *)
Theorem start_stop_raises_without_lists :
  forall (now : datetime) (start stop : time) (user : option Ec2Client)
         (config : Config) (tz : string),
    let run := start_stop now start stop user config tz in
    (forall e, outcome run = Raise e ->
               e = TypeError /\
               (start <= time_of now < stop \/ stop <= time_of now)) /\
    (forall state,
        (start <= time_of now < stop /\ state = "stopped") \/
        (stop <= time_of now /\ state = "running") ->
        (outcome run = Raise TypeError <->
         outcome (get_instance_ids user config state now tz) = Return None)) /\
    (user = None ->
     start <= time_of now < stop \/ stop <= time_of now ->
     run = (Raise TypeError, [LogInfo (DescribeFailed AttributeError)])).
Proof.
  intros now start stop user config tz. cbv zeta.
  rewrite start_stop_arms. split; [|split].
  - intros e.
    destruct ((start <=? time_of now) && (time_of now <? stop)) eqn:Hin.
    + rewrite dispatch_outcome. apply andb_prop in Hin as [H1 H2].
      apply Z.leb_le in H1. apply Z.ltb_lt in H2.
      destruct (outcome (get_instance_ids _ _ _ _ _)) as [[p|]|x];
        [discriminate | |]; intros [= <-]; (split; [reflexivity | lia]).
    + destruct (stop <=? time_of now) eqn:Hlate; [|discriminate].
      rewrite dispatch_outcome. apply Z.leb_le in Hlate.
      destruct (outcome (get_instance_ids _ _ _ _ _)) as [[p|]|x];
        [discriminate | |]; intros [= <-]; (split; [reflexivity | lia]).
  - intros state [[Hwin ->]|[Hlate ->]].
    + assert (Hin : (start <=? time_of now) && (time_of now <? stop) = true).
      { apply andb_true_intro.
        split; [apply Z.leb_le | apply Z.ltb_lt]; lia. }
      rewrite Hin, dispatch_outcome.
      destruct (get_instance_ids_returns user config "stopped" now tz)
        as [r ->].
      destruct r as [p|]; split; congruence.
    + assert (Hout : (start <=? time_of now) && (time_of now <? stop) = false).
      { apply andb_false_intro2. apply Z.ltb_ge. lia. }
      assert (Hle : (stop <=? time_of now) = true) by now apply Z.leb_le.
      rewrite Hout, Hle, dispatch_outcome.
      destruct (get_instance_ids_returns user config "running" now tz)
        as [r ->].
      destruct r as [p|]; split; congruence.
  - intros -> [Hwin|Hlate].
    + assert (Hin : (start <=? time_of now) && (time_of now <? stop) = true).
      { apply andb_true_intro.
        split; [apply Z.leb_le | apply Z.ltb_lt]; lia. }
      now rewrite Hin.
    + assert (Hout : (start <=? time_of now) && (time_of now <? stop) = false).
      { apply andb_false_intro2. apply Z.ltb_ge. lia. }
      assert (Hle : (stop <=? time_of now) = true) by now apply Z.leb_le.
      now rewrite Hout, Hle.
Qed.

(** Eight in the evening, without a client. *)
Lemma start_stop_raises_without_lists_witness :
  start_stop SampleDay.evening SampleDay.seven SampleDay.nineteen None
             Sample.config "GMT"
  = (Raise TypeError, [LogInfo (DescribeFailed AttributeError)]).
Proof.
  apply (proj2 (proj2 (start_stop_raises_without_lists
                         SampleDay.evening SampleDay.seven SampleDay.nineteen
                         None Sample.config "GMT"))).
  - reflexivity.
  - right. vm_compute. discriminate.
Defined.

(** ** Reading the configured times *)

Lemma split_on_length (sep : ascii) (s : string) :
  List.length (split_on sep s) = S (count_char sep s).
Proof.
  induction s as [|a s IH]; [reflexivity|].
  cbn [split_on count_char]. destruct (Ascii.eqb a sep).
  - cbn [List.length]. now rewrite IH.
  - destruct (split_on sep s) as [|h t]; [discriminate|].
    cbn [List.length] in *. lia.
Qed.

Lemma unpack2_wrong_length {A} (l : list A) :
  List.length l <> 2%nat -> unpack2 l = Raise ValueError.
Proof.
  destruct l as [|a [|b [|c l]]]; cbn; intros H; try reflexivity.
  congruence.
Qed.

Lemma decimal_has_no_char (c : ascii) (d : Decimal.uint) :
  is_digit c = false -> has_char c (NilEmpty.string_of_uint d) = false.
Proof.
  intros Hc.
  assert (Hne : forall a, is_digit a = true -> Ascii.eqb a c = false).
  { intros a Ha. destruct (Ascii.eqb_spec a c) as [->|]; congruence. }
  induction d; cbn [NilEmpty.string_of_uint has_char];
    [reflexivity | rewrite Hne by reflexivity; exact IHd ..].
Qed.

Lemma split_two_decimals (sep : ascii) (a b : Decimal.uint) :
  is_digit sep = false ->
  split_on sep (NilEmpty.string_of_uint a ++
                String sep (NilEmpty.string_of_uint b))%string
  = [NilEmpty.string_of_uint a; NilEmpty.string_of_uint b].
Proof.
  intros Hsep.
  rewrite (split_on_first_separator _ _ _ (decimal_has_no_char sep a Hsep)).
  now rewrite (split_on_no_separator _ _ (decimal_has_no_char sep b Hsep)).
Qed.

Lemma mk_time_in_range (h m : Z) :
  0 <= h < 24 -> 0 <= m < 60 ->
  mk_time h m = Return ((h * 60 + m) * 60000000).
Proof.
  intros Hh Hm. unfold mk_time.
  replace (0 <=? h) with true by (symmetry; apply Z.leb_le; lia).
  replace (h <? 24) with true by (symmetry; apply Z.ltb_lt; lia).
  replace (0 <=? m) with true by (symmetry; apply Z.leb_le; lia).
  replace (m <? 60) with true by (symmetry; apply Z.ltb_lt; lia).
  reflexivity.
Qed.

Lemma of_uint_nonneg (d : Decimal.uint) : 0 <= Z.of_uint d.
Proof. unfold Z.of_uint. apply N2Z.is_nonneg. Qed.

(** X12.  For start and stop times written as an hour below 24, a comma
    and a minute below 60, in decimal digits, [convert_to_datetime]
    writes no line and returns the two times of day, with the second
    reading of the clock, as [is_dst] shifts it, for the current time. *)
Theorem convert_to_datetime_reads_the_times :
  forall (clock : nat -> datetime) (tick : nat)
         (h1 m1 h2 m2 : Decimal.uint),
    h1 <> Decimal.Nil -> m1 <> Decimal.Nil ->
    h2 <> Decimal.Nil -> m2 <> Decimal.Nil ->
    Z.of_uint h1 < 24 -> Z.of_uint m1 < 60 ->
    Z.of_uint h2 < 24 -> Z.of_uint m2 < 60 ->
    convert_to_datetime clock tick
      {| startTime := (NilEmpty.string_of_uint h1 ++
                       String "," (NilEmpty.string_of_uint m1))%string;
         stopTime := (NilEmpty.string_of_uint h2 ++
                      String "," (NilEmpty.string_of_uint m2))%string |}
    = ret (Some ((Z.of_uint h1 * 60 + Z.of_uint m1) * 60000000,
                 (Z.of_uint h2 * 60 + Z.of_uint m2) * 60000000,
                 fst (is_dst (clock (S tick))),
                 snd (is_dst (clock (S tick))))).
Proof.
  intros clock tick h1 m1 h2 m2 Hh1 Hm1 Hh2 Hm2 Bh1 Bm1 Bh2 Bm2.
  unfold convert_to_datetime. cbn [startTime stopTime].
  destruct (is_dst (clock (S tick))) as [now tz].
  rewrite !(split_two_decimals ","%char) by reflexivity.
  cbn [unpack2]. rewrite !bind_lift_return.
  rewrite !py_int_decimal by assumption.
  rewrite !bind_lift_return.
  pose proof (of_uint_nonneg h1). pose proof (of_uint_nonneg m1).
  pose proof (of_uint_nonneg h2). pose proof (of_uint_nonneg m2).
  rewrite (mk_time_in_range (Z.of_uint h1) (Z.of_uint m1)) by lia.
  rewrite !bind_lift_return.
  rewrite (mk_time_in_range (Z.of_uint h2) (Z.of_uint m2)) by lia.
  now rewrite bind_lift_return.
Qed.

(** The times of the usual configuration, on a winter evening. *)
Lemma convert_to_datetime_reads_the_times_witness :
  convert_to_datetime (fun _ => SampleDay.evening) 1
                      (times Sample.config)
  = ret (Some (SampleDay.seven, SampleDay.nineteen,
               SampleDay.evening, "GMT")).
Proof.
  apply (convert_to_datetime_reads_the_times
           (fun _ => SampleDay.evening) 1
           (Decimal.D7 Decimal.Nil) (Decimal.D0 Decimal.Nil)
           (Decimal.D1 (Decimal.D9 Decimal.Nil)) (Decimal.D0 Decimal.Nil));
    first [discriminate | reflexivity].
Defined.




(** ** The edges of the daylight-saving window *)

Lemma is_dst_edges (now : datetime) :
  is_dst now
  = if dt_leb (dst_on (year now)) now && dt_ltb now (dst_off (year now))
    then (add_hours now 1, "GMT +1")
    else (now, "GMT").
Proof. reflexivity. Qed.

Lemma april_follows_march (y : Z) : ymd2ord y 4 1 = ymd2ord y 3 31 + 1.
Proof.
  unfold ymd2ord, days_before_month.
  change (nth (Z.to_nat 4) DAYS_BEFORE_MONTH 0) with 90.
  change (nth (Z.to_nat 3) DAYS_BEFORE_MONTH 0) with 59.
  change (2 <? 4) with true. change (2 <? 3) with true.
  cbn [andb]. destruct (is_leap y); lia.
Qed.

Lemma november_follows_october (y : Z) : 
  ymd2ord y 11 1 = ymd2ord y 10 31 + 1.
Proof.
  unfold ymd2ord, days_before_month.
  change (nth (Z.to_nat 11) DAYS_BEFORE_MONTH 0) with 304.
  change (nth (Z.to_nat 10) DAYS_BEFORE_MONTH 0) with 273.
  change (2 <? 11) with true. change (2 <? 10) with true.
  cbn [andb]. destruct (is_leap y); lia.
Qed.

Lemma april_to_november (y : Z) : ymd2ord y 11 1 = ymd2ord y 4 1 + 214.
Proof.
  unfold ymd2ord, days_before_month.
  change (nth (Z.to_nat 11) DAYS_BEFORE_MONTH 0) with 304.
  change (nth (Z.to_nat 4) DAYS_BEFORE_MONTH 0) with 90.
  change (2 <? 11) with true. change (2 <? 4) with true.
  cbn [andb]. destruct (is_leap y); lia.
Qed.

(** X14.  The window of [is_dst] opens at midnight of the last Sunday of
    March and closes at midnight of the last Sunday of October: both
    edges are Sundays, on a day from the 25th to the 31st of their month,
    and the window lasts 30 or 31 weeks. *)
Theorem dst_window_runs_between_last_sundays :
  forall y : Z,
    (exists d, 25 <= d <= 31 /\ dst_on y = datetime_ymd y 3 d) /\
    (exists d, 25 <= d <= 31 /\ dst_off y = datetime_ymd y 10 d) /\
    weekday (dst_on y) = 6 /\
    weekday (dst_off y) = 6 /\
    (ordinal (dst_off y) - ordinal (dst_on y) = 30 * 7 \/
     ordinal (dst_off y) - ordinal (dst_on y) = 31 * 7).
Proof.
  intros y.
  destruct (stepping_back_reaches_a_sunday (datetime_ymd y 4 1))
    as [Hon Ron].
  destruct (stepping_back_reaches_a_sunday (datetime_ymd y 11 1))
    as [Hoff Roff].
  fold (dst_on y) in Hon, Ron. fold (dst_off y) in Hoff, Roff.
  pose proof (Z.mod_pos_bound (ordinal (datetime_ymd y 4 1) + 6) 7
                ltac:(lia)) as B4.
  pose proof (Z.mod_pos_bound (ordinal (datetime_ymd y 11 1) + 6) 7
                ltac:(lia)) as B11.
  split; [|split; [|split; [exact Hon | split; [exact Hoff|]]]].
  - exists (31 - weekday (datetime_ymd y 4 1)).
    split; [unfold weekday; lia|].
    pose proof (april_follows_march y) as E.
    unfold dst_on, sub_days, weekday, datetime_ymd. cbn [ordinal usec].
    f_equal. revert E. generalize ((ymd2ord y 4 1 + 6) mod 7).
    intros w E. unfold ymd2ord in *. lia.
  - exists (31 - weekday (datetime_ymd y 11 1)).
    split; [unfold weekday; lia|].
    pose proof (november_follows_october y) as E.
    unfold dst_off, sub_days, weekday, datetime_ymd. cbn [ordinal usec].
    f_equal. revert E. generalize ((ymd2ord y 11 1 + 6) mod 7).
    intros w E. unfold ymd2ord in *. lia.
  - unfold weekday in Hon, Hoff.
    pose proof (Z.div_mod (ordinal (dst_on y) + 6) 7 ltac:(lia)) as E1.
    pose proof (Z.div_mod (ordinal (dst_off y) + 6) 7 ltac:(lia)) as E2.
    rewrite Hon in E1. rewrite Hoff in E2.
    assert (E : ordinal (datetime_ymd y 11 1)
                = ordinal (datetime_ymd y 4 1) + 214).
    { cbn [datetime_ymd ordinal]. apply april_to_november. }
    lia.
Qed.

Lemma dst_window_runs_between_last_sundays_aux (y : Z) :
  30 * 7 <= ordinal (dst_off y) - ordinal (dst_on y) /\
  usec (dst_off y) = 0.
Proof.
  destruct (stepping_back_reaches_a_sunday (datetime_ymd y 4 1))
    as [_ Ron].
  destruct (stepping_back_reaches_a_sunday (datetime_ymd y 11 1))
    as [_ Roff].
  fold (dst_on y) in Ron. fold (dst_off y) in Roff.
  assert (E : ordinal (datetime_ymd y 11 1)
              = ordinal (datetime_ymd y 4 1) + 214).
  { cbn [datetime_ymd ordinal]. apply april_to_november. }
  destruct (stepping_back_reaches_a_sunday (datetime_ymd y 4 1))
    as [Hon _].
  destruct (stepping_back_reaches_a_sunday (datetime_ymd y 11 1))
    as [Hoff _].
  fold (dst_on y) in Hon. fold (dst_off y) in Hoff.
  unfold weekday in Hon, Hoff.
  pose proof (Z.div_mod (ordinal (dst_on y) + 6) 7 ltac:(lia)) as E1.
  pose proof (Z.div_mod (ordinal (dst_off y) + 6) 7 ltac:(lia)) as E2.
  rewrite Hon in E1. rewrite Hoff in E2.
  split; [lia | reflexivity].
Qed.

(** The edge days belong to the year they are computed for. *)
Lemma edge_days_are_in_their_year (y : Z) :
  1 <= y <= 9999 ->
  ord2year (ordinal (dst_off y)) = y /\
  ord2year (ordinal (dst_off y) - 1) = y.
Proof.
  intros Hy.
  assert (Hall : all_from 1 (Z.to_nat 9999)
                   (fun y => (ord2year (ordinal (dst_off y)) =? y) &&
                             (ord2year (ordinal (dst_off y) - 1) =? y))
                 = true).
  { vm_compute. reflexivity. }
  pose proof (all_from_true _ _ 1 Hall y) as Hboth.
  rewrite Z2Nat.id in Hboth by lia.
  destruct (andb_prop _ _ (Hboth ltac:(lia))) as [H1 H2].
  split; now apply Z.eqb_eq.
Qed.

(** X15.  At the end of the window two instants one hour apart are
    shown as the same time: for the years 1 to 9999, an instant of the
    last hour before the closing edge is moved to the instant one hour
    later, which [is_dst] leaves where it is. *)
Theorem is_dst_repeats_the_closing_hour :
  forall y d : Z,
    1 <= y <= 9999 -> 0 <= d < US_PER_HOUR ->
    let early := {| ordinal := ordinal (dst_off y) - 1;
                    usec := 23 * US_PER_HOUR + d |} in
    let late := {| ordinal := ordinal (dst_off y); usec := d |} in
    is_dst early = (late, "GMT +1") /\ is_dst late = (late, "GMT").
Proof.
  intros y d Hy Hd. cbv zeta.
  destruct (edge_days_are_in_their_year y Hy) as [Ylate Yearly].
  destruct (dst_window_runs_between_last_sundays_aux y) as [Hlen Hus].
  rewrite !is_dst_edges. unfold year. cbn [ordinal].
  rewrite Ylate, Yearly. unfold dt_leb, dt_ltb. cbn [ordinal usec].
  rewrite Hus. split.
  - replace (ordinal (dst_on y) <? ordinal (dst_off y) - 1) with true
      by (symmetry; apply Z.ltb_lt; lia).
    replace (ordinal (dst_off y) - 1 <? ordinal (dst_off y)) with true
      by (symmetry; apply Z.ltb_lt; lia).
    cbn [orb andb]. f_equal. unfold add_hours. cbn [ordinal usec].
    replace (23 * US_PER_HOUR + d + 1 * US_PER_HOUR)
      with (d + 1 * US_PER_DAY) by (unfold US_PER_DAY; lia).
    assert (Hday : 0 <= d < US_PER_DAY) by (unfold US_PER_DAY; lia).
    rewrite Z.div_add, Z.mod_add, Z.div_small, Z.mod_small
      by (try assumption; unfold US_PER_DAY, US_PER_HOUR; lia).
    f_equal. lia.
  - replace (ordinal (dst_off y) <? ordinal (dst_off y)) with false
      by (symmetry; apply Z.ltb_irrefl).
    rewrite Z.eqb_refl.
    replace (d <? 0) with false by (symmetry; apply Z.ltb_ge; lia).
    now rewrite andb_false_r.
Qed.

(** Half past midnight and half past one, on October 27, 2019. *)
Lemma is_dst_repeats_the_closing_hour_witness :
  is_dst (datetime_at 2019 10 26 23 30)
  = (datetime_at 2019 10 27 0 30, "GMT +1") /\
  is_dst (datetime_at 2019 10 27 0 30)
  = (datetime_at 2019 10 27 0 30, "GMT").
Proof.
  apply (is_dst_repeats_the_closing_hour 2019 (30 * 60000000)).
  - lia.
  - vm_compute. split; [discriminate | reflexivity].
Defined.

(** ** The weekday test, the accounts and the entry point *)

Lemma is_weekday_wrong_shape (day : Z) (halfDay : string) :
  count_char "x" halfDay <> 1%nat -> is_weekday day halfDay = Raise ValueError.
Proof.
  intros Hcount. unfold is_weekday.
  rewrite unpack2_wrong_length; [reflexivity|].
  rewrite split_on_length. lia.
Qed.

(** X16.  [is_weekday] raises [ValueError] unless the half-day schedule
    holds exactly one [x].  With such a schedule in the configuration the
    invocation writes the line of the outermost handler and ends: no
    account is processed. *)
Theorem is_weekday_needs_one_x :
  (forall (day : Z) (halfDay : string),
      count_char "x" halfDay <> 1%nat ->
      is_weekday day halfDay = Raise ValueError) /\
  (forall (w : World) (client : option StsClient) (t0 : list Event)
          (cfg : Config) (t1 : list Event),
      assume_role w = (Return client, t0) ->
      fetch_config_from_s3 w client = (Return (Some cfg), t1) ->
      count_char "x" (halfDay (schedule cfg)) <> 1%nat ->
      lambda_handler w
      = (Return tt,
         t0 ++ t1 ++
         [PrintConfig (Some cfg); LogInfo (LambdaFailed ValueError)])).
Proof.
  split; [exact is_weekday_wrong_shape|].
  intros w client t0 cfg t1 Hrole Hfetch Hcount.
  destruct (lambda_handler_cases w)
    as (client' & t0' & config' & t1' & Hrole' & Hfetch' & ->).
  rewrite Hrole in Hrole'. injection Hrole' as <- <-.
  rewrite Hfetch in Hfetch'. injection Hfetch' as <- <-.
  rewrite (is_weekday_wrong_shape _ _ Hcount).
  unfold after. cbn [outcome events fst snd info emit].
  now rewrite <- !app_assoc.
Qed.

(** A half-day schedule of ["12"]. *)
Lemma is_weekday_needs_one_x_witness :
  lambda_handler SampleWeek.world
  = (Return tt,
     [Api (AssumeRole config_role "Ec2-Start-Stop-Lambda-Session-Role");
      Api (GetObject "hermes-sharedservices-data"
                     "Lambdas/start-stop/config.json");
      LogInfo FetchingConfig;
      PrintConfig (Some SampleWeek.config_no_x);
      LogInfo (LambdaFailed ValueError)]).
Proof.
  apply (proj2 is_weekday_needs_one_x SampleWeek.world
               (Some SampleFailure.sts) []
               SampleWeek.config_no_x
               [Api (AssumeRole config_role
                                "Ec2-Start-Stop-Lambda-Session-Role");
                Api (GetObject "hermes-sharedservices-data"
                               "Lambdas/start-stop/config.json");
                LogInfo FetchingConfig]).
  - reflexivity.
  - reflexivity.
  - discriminate.
Defined.

Lemma index_short {A} (l : list A) (n : nat) :
  (List.length l <= n)%nat -> index l n = Raise IndexError.
Proof.
  intros H. unfold index. apply nth_error_None in H. now rewrite H.
Qed.

(** X17.  The account number is the fifth of the fields that the colons
    of the role identifier separate.  A role identifier with fewer than
    four colons makes the processing of the account raise [IndexError]
    at once, before any request. *)
Theorem account_number_is_the_fifth_field :
  (forall p0 p1 p2 p3 account rest : string,
      has_char ":" p0 = false -> has_char ":" p1 = false ->
      has_char ":" p2 = false -> has_char ":" p3 = false ->
      has_char ":" account = false ->
      index (split_on ":"
               (p0 ++ String ":" (p1 ++ String ":" (p2 ++ String ":"
                  (p3 ++ String ":" (account ++ String ":" rest)))))%string)
            4
      = Return account) /\
  (forall (w : World) (client : option StsClient) (config : Config)
          (tick : nat) (role_arn : string),
      (count_char ":" role_arn < 4)%nat ->
      process_account w client config tick role_arn = (Raise IndexError, [])).
Proof.
  split.
  - intros p0 p1 p2 p3 account rest H0 H1 H2 H3 H4.
    rewrite (split_on_first_separator _ _ _ H0),
      (split_on_first_separator _ _ _ H1),
      (split_on_first_separator _ _ _ H2),
      (split_on_first_separator _ _ _ H3),
      (split_on_first_separator _ _ _ H4).
    reflexivity.
  - intros w client config tick role_arn Hcount. unfold process_account.
    rewrite index_short; [reflexivity|].
    rewrite split_on_length. lia.
Qed.

(** The first account of the samples. *)
Lemma account_number_is_the_fifth_field_witness :
  index (split_on ":" SampleFailure.first_account) 4 = Return "111111111111".
Proof.
  apply (proj1 account_number_is_the_fifth_field
               "arn" "aws" "iam" "" "111111111111" "role/StartStop");
    reflexivity.
Defined.

(** X18.  [create_temp_user] never raises.  It returns a client exactly
    when it was given a security-token client, the role was assumed and
    the compute client was built; it asks for the role once, under the
    session name of the job, and not at all without a security-token
    client. *)
Theorem create_temp_user_swallows_errors :
  forall (w : World) (client : option StsClient) (role_arn : string),
    let run := create_temp_user w client role_arn in
    (exists r, outcome run = Return r) /\
    (forall user,
        outcome run = Return (Some user) <->
        exists c credentials,
          client = Some c /\
          sts_assume_role c role_arn "Lambda-Start-Stop-functionality"
          = Return credentials /\
          boto3_client_ec2 w credentials = Return user) /\
    api_calls (events run)
    = match client with
      | Some _ => [AssumeRole role_arn "Lambda-Start-Stop-functionality"]
      | None => []
      end.
Proof.
  intros w client role_arn. cbv zeta. unfold create_temp_user.
  destruct client as [c|].
  2:{ repeat split; [now eexists | discriminate |].
      intros (c & credentials & H & _). discriminate. }
  cbn [attr]. rewrite bind_ret_l. unfold call, lift.
  destruct (sts_assume_role c role_arn "Lambda-Start-Stop-functionality")
    as [credentials|e] eqn:Hrole.
  - destruct (boto3_client_ec2 w credentials) as [user|e] eqn:Hec2.
    + cbn. rewrite Hec2. cbn. repeat split; [now eexists | |].
      * intros [= <-]. exists c, credentials. now repeat split.
      * intros (c' & cr & [= <-] & Hr & He).
        rewrite Hrole in Hr. injection Hr as <-. congruence.
    + cbn. rewrite Hec2. cbn. repeat split; [now eexists | discriminate |].
      intros (c' & cr & [= <-] & Hr & He).
      rewrite Hrole in Hr. injection Hr as <-. congruence.
  - cbn. repeat split; [now eexists | discriminate |].
    intros (c' & cr & [= <-] & Hr & He). congruence.
Qed.


(** The first account of the samples. *)
Lemma create_temp_user_swallows_errors_witness :
  outcome (create_temp_user SampleFailure.world (Some SampleFailure.sts)
                            SampleFailure.first_account)
  = Return (Some SampleFailure.ec2).
Proof.
  apply (proj1 (proj2 (create_temp_user_swallows_errors
                         SampleFailure.world (Some SampleFailure.sts)
                         SampleFailure.first_account))
               SampleFailure.ec2).
  exists SampleFailure.sts, SampleFailure.credentials. repeat split.
Defined.


(** ** One account *)

Lemma dict_get_missing (d : list (string * string)) (k : string) :
  ~ In k (map fst d) -> dict_get d k = Raise (KeyError k).
Proof.
  induction d as [|[k' v] d IH]; [reflexivity|].
  cbn [map fst In dict_get]. intros H.
  destruct (String.eqb_spec k k') as [->|Hne].
  - exfalso. apply H. now left.
  - apply IH. intros Hin. apply H. now right.
Qed.

Lemma process_account_starts (w : World) (client : option StsClient)
    (config : Config) (tick : nat) (role_arn account_number : string)
    (user : option Ec2Client) (tu : list Event) :
  index (split_on ":" role_arn) 4 = Return account_number ->
  create_temp_user w client role_arn = (Return user, tu) ->
  process_account w client config tick role_arn
  = after tu
      (conv <- convert_to_datetime (clock w) tick (times config) ;;
       '(start_up_time, stop_time, now, tz) <- unpack conv ;;
       name <- lift (dict_get (account_names config) account_number) ;;
       info (LambdaStarted name) ;;;
       start_stop now start_up_time stop_time user config tz ;;;
       ret (S (S tick))).
Proof.
  intros Hindex Huser. unfold process_account.
  now rewrite Hindex, bind_lift_return, (bind_after _ _ _ _ Huser).
Qed.

(** X20.  After the role of the account was asked for, the processing of
    the account raises before anything is listed when the configured
    times cannot be read ([TypeError]) and when the account number has no
    name in the configuration ([KeyError] with that number): the events
    are those of the two first steps only. *)
Theorem process_account_fails_before_listing :
  forall (w : World) (client : option StsClient) (config : Config)
         (tick : nat) (role_arn account_number : string)
         (user : option Ec2Client) (tu tc : list Event),
    index (split_on ":" role_arn) 4 = Return account_number ->
    create_temp_user w client role_arn = (Return user, tu) ->
    (convert_to_datetime (clock w) tick (times config) = (Return None, tc) ->
     process_account w client config tick role_arn
     = (Raise TypeError, tu ++ tc)) /\
    (forall read,
        convert_to_datetime (clock w) tick (times config)
        = (Return (Some read), tc) ->
        ~ In account_number (map fst (account_names config)) ->
        process_account w client config tick role_arn
        = (Raise (KeyError account_number), tu ++ tc)).
Proof.
  intros w client config tick role_arn account_number user tu tc
         Hindex Huser.
  rewrite (process_account_starts _ _ _ _ _ _ _ _ Hindex Huser).
  split.
  - intros Hconv. rewrite (bind_after _ _ _ _ Hconv).
    unfold after. cbn. now rewrite ?app_nil_r.
  - intros [[[start stop] now] tz] Hconv Hmissing.
    rewrite (bind_after _ _ _ _ Hconv). cbn [unpack].
    rewrite bind_ret_l, (dict_get_missing _ _ Hmissing).
    unfold after. cbn. now rewrite ?app_nil_r.
Qed.

(** An account whose number the configuration does not name. *)
Lemma process_account_fails_before_listing_witness :
  process_account SampleFailure.world (Some SampleFailure.sts) Sample.config
                  1 "arn:aws:iam::333333333333:role/StartStop"
  = (Raise (KeyError "333333333333"),
     [Api (AssumeRole "arn:aws:iam::333333333333:role/StartStop"
                      "Lambda-Start-Stop-functionality")]).
Proof.
  apply (proj2 (process_account_fails_before_listing
                  SampleFailure.world (Some SampleFailure.sts) Sample.config
                  1 "arn:aws:iam::333333333333:role/StartStop"
                  "333333333333" (Some SampleFailure.ec2)
                  [Api (AssumeRole "arn:aws:iam::333333333333:role/StartStop"
                                   "Lambda-Start-Stop-functionality")]
                  [] eq_refl eq_refl)
               (SampleDay.seven, SampleDay.nineteen, SampleDay.evening,
                "GMT")).
  - reflexivity.
  - cbn. intros [H|[H|[]]]; discriminate.
Defined.

(** X21.  When no compute client could be made for an account, its
    processing goes on without one.  At a time to act (from [start] on,
    or from [stop] on) it raises [TypeError] after the line of the failed
    listing, without any request to the compute service, which ends the
    invocation; before that time it ends normally. *)
Theorem account_without_client :
  forall (w : World) (client : option StsClient) (config : Config)
         (tick : nat) (role_arn account_number name : string)
         (start stop : time) (now : datetime) (tz : string)
         (tu tc : list Event),
    index (split_on ":" role_arn) 4 = Return account_number ->
    create_temp_user w client role_arn = (Return None, tu) ->
    convert_to_datetime (clock w) tick (times config)
    = (Return (Some (start, stop, now, tz)), tc) ->
    dict_get (account_names config) account_number = Return name ->
    (start <= time_of now < stop \/ stop <= time_of now ->
     process_account w client config tick role_arn
     = (Raise TypeError,
        tu ++ tc ++ [LogInfo (LambdaStarted name);
                     LogInfo (DescribeFailed AttributeError)])) /\
    (time_of now < start -> time_of now < stop ->
     process_account w client config tick role_arn
     = (Return (S (S tick)), tu ++ tc ++ [LogInfo (LambdaStarted name)])).
Proof.
  intros w client config tick role_arn account_number name start stop now tz
         tu tc Hindex Huser Hconv Hname.
  split.
  - intros Hact.
    rewrite (process_account_raises _ _ _ _ _ _ _ _ _ _ _ _ _ _ _ _
               Hindex Huser Hconv Hname
               (start_stop_without_client now start stop config tz Hact)).
    reflexivity.
  - intros H1 H2.
    rewrite (process_account_starts _ _ _ _ _ _ _ _ Hindex Huser).
    rewrite (bind_after _ _ _ _ Hconv). cbn [unpack].
    rewrite bind_ret_l, Hname, bind_lift_return.
    rewrite (start_stop_too_early _ _ _ _ _ _ H1 H2).
    unfold after. cbn. now rewrite ?app_nil_r.
Qed.

(** The compute client is refused, at eight in the evening. *)
Lemma account_without_client_witness :
  process_account SampleWeek.world_without_ec2 (Some SampleFailure.sts)
                  Sample.config 1 SampleFailure.first_account
  = (Raise TypeError,
     [Api (AssumeRole SampleFailure.first_account
                      "Lambda-Start-Stop-functionality");
      LogInfo (TempUserFailed (ClientError "denied"));
      LogInfo (LambdaStarted "dev");
      LogInfo (DescribeFailed AttributeError)]).
Proof.
  apply (proj1 (account_without_client
                  SampleWeek.world_without_ec2 (Some SampleFailure.sts)
                  Sample.config 1 SampleFailure.first_account
                  "111111111111" "dev"
                  SampleDay.seven SampleDay.nineteen SampleDay.evening "GMT"
                  [Api (AssumeRole SampleFailure.first_account
                                   "Lambda-Start-Stop-functionality");
                   LogInfo (TempUserFailed (ClientError "denied"))]
                  [] eq_refl eq_refl eq_refl eq_refl)).
  right. vm_compute. discriminate.
Defined.

(** ** All the accounts *)

Lemma process_account_ticks (w : World) (client : option StsClient)
    (config : Config) (tick n : nat) (role_arn : string) (t : list Event) :
  process_account w client config tick role_arn = (Return n, t) ->
  n = S (S tick).
Proof.
  unfold process_account. intros H.
  assert (Ho : outcome (process_account w client config tick role_arn)
               = Return n) by (unfold process_account; now rewrite H).
  clear H. unfold process_account in Ho.
  repeat (rewrite outcome_bind in Ho;
          match type of Ho with
          | context [match outcome ?m with _ => _ end] =>
              destruct (outcome m); [|discriminate]
          end).
  repeat match type of Ho with
         | context [let '(_, _) := ?p in _] => destruct p
         end.
  repeat (rewrite outcome_bind in Ho;
          match type of Ho with
          | context [match outcome ?m with _ => _ end] =>
              destruct (outcome m); [|discriminate]
          end).
  cbn in Ho. now injection Ho.
Qed.

Lemma account_loop_ticks (w : World) (client : option StsClient)
    (config : Config) (accounts : list string) :
  forall tick n t,
    for_each accounts (process_account w client config) tick = (Return n, t) ->
    n = (tick + 2 * List.length accounts)%nat.
Proof.
  induction accounts as [|a rest IH]; intros tick n t.
  - cbn. intros [= <- _]. lia.
  - cbn [for_each List.length].
    destruct (process_account w client config tick a) as [[m|e] t1] eqn:Ha;
      [|discriminate].
    apply process_account_ticks in Ha. subst m.
    rewrite bind_return.
    destruct (for_each rest _ (S (S tick))) as [[k|e] t2] eqn:Hrest;
      [|discriminate].
    cbn. intros [= <- _]. apply IH in Hrest. lia.
Qed.

(** X22.  When the processing of no account raises, every configured
    account is processed, in the order of the configuration, the
    invocation ends without the line of the outermost handler, and the
    clock has been read once for the weekday and twice for each
    account. *)
Theorem every_account_is_processed :
  forall (w : World) (client : option StsClient) (t0 t1 : list Event)
         (config : Config) (ticks : nat) (t : list Event),
    assume_role w = (Return client, t0) ->
    fetch_config_from_s3 w client = (Return (Some config), t1) ->
    is_weekday (weekday (clock w 0)) (halfDay (schedule config))
    = Return true ->
    for_each (role_arns config) (process_account w client config) 1%nat
    = (Return ticks, t) ->
    lambda_handler w
    = (Return tt, t0 ++ t1 ++ [PrintConfig (Some config)] ++ t0 ++ t) /\
    ticks = (1 + 2 * List.length (role_arns config))%nat.
Proof.
  intros w client t0 t1 config ticks t Hrole Hfetch Hday Hloop.
  split; [|exact (account_loop_ticks _ _ _ _ _ _ _ Hloop)].
  destruct (lambda_handler_cases w)
    as (client' & t0' & config' & t1' & Hrole' & Hfetch' & ->).
  rewrite Hrole in Hrole'. injection Hrole' as <- <-.
  rewrite Hfetch in Hfetch'. injection Hfetch' as <- <-.
  rewrite Hday. unfold account_loop. rewrite Hloop.
  unfold after. cbn. now rewrite ?app_nil_r, <- ?app_assoc.
Qed.

(** Two accounts, each with one half-day instance to stop. *)
Lemma every_account_is_processed_witness :
  5%nat = (1 + 2 * List.length (role_arns Sample.config))%nat.
Proof.
  apply (proj2 (every_account_is_processed
                  SampleWeek.world_at_work (Some SampleFailure.sts) []
                  [Api (AssumeRole config_role
                                   "Ec2-Start-Stop-Lambda-Session-Role");
                   Api (GetObject "hermes-sharedservices-data"
                                  "Lambdas/start-stop/config.json");
                   LogInfo FetchingConfig]
                  Sample.config 5
                  (events (for_each (role_arns Sample.config)
                             (process_account SampleWeek.world_at_work
                                (Some SampleFailure.sts) Sample.config)
                             1%nat))
                  eq_refl eq_refl eq_refl eq_refl)).
Defined.
